(** * Badgr server: backpack serializers (v2) and issuer API views

    A shallow embedding of [apps/backpack/serializers_v2.py] and
    [apps/issuer/api.py].  Python objects that travel through the
    serializers and views (request bodies, validated attributes, response
    payloads) are values of one inductive type; model rows are records; the
    database is a record of tables threaded through the views as explicit
    state; exceptions are the left summand of a sum type.  Each Python class
    is a module that keeps the names of its methods. *)

From Stdlib Require Import ZArith Lia Ascii.
From stdpp Require Import gmap strings list fin_maps.

Set Warnings "-register-all".
Local Open Scope string_scope.

(** * Part I: the embedding *)

(** ** Python values *)

(** The dynamically typed values the code handles: JSON coming from a request
    body, uploaded files, and the [OrderedDict]s a serializer produces.  A
    dictionary keeps its insertion order, so it is an association list. *)
Inductive value : Type :=
| VNone
| VBool (b : bool)
| VInt (n : Z)
| VStr (s : string)
| VList (l : list value)
| VDict (d : list (string * value))
| VFile (name : string).

#[global] Instance value_eq_dec : EqDecision value.
Proof.
  unfold EqDecision, Decision. fix go 1. intros a b.
  destruct a as [|x|x|x|x|x|x], b as [|y|y|y|y|y|y];
    try (right; discriminate); try (left; reflexivity).
  - destruct (decide (x = y)); [left; congruence | right; congruence].
  - destruct (decide (x = y)); [left; congruence | right; congruence].
  - destruct (decide (x = y)); [left; congruence | right; congruence].
  - destruct (List.list_eq_dec go x y); [left; congruence | right; congruence].
  - assert (dec_pair : ∀ p q : string * value, {p = q} + {p ≠ q}).
    { intros [k v] [k' v'].
      destruct (decide (k = k')); [|right; congruence].
      destruct (go v v'); [left; congruence | right; congruence]. }
    destruct (List.list_eq_dec dec_pair x y); [left; congruence | right; congruence].
  - destruct (decide (x = y)); [left; congruence | right; congruence].
Defined.

(** Python truth value testing: [None], [False], zero, and empty strings and
    containers are false; an uploaded file is true when it has a name
    ([django.core.files.File.__bool__]). *)
Definition truthy (v : value) : bool :=
  match v with
  | VNone => false
  | VBool b => b
  | VInt n => negb (n =? 0)%Z
  | VStr s => match s with EmptyString => false | String _ _ => true end
  | VList l => match l with [] => false | _ :: _ => true end
  | VDict d => match d with [] => false | _ :: _ => true end
  | VFile name => match name with EmptyString => false | String _ _ => true end
  end.

(** [d.get(k)] and [d[k] = v] on an ordered dictionary; the assignment keeps
    the position of a key that is already there and appends a new one. *)
Fixpoint dict_get (d : list (string * value)) (k : string) : option value :=
  match d with
  | [] => None
  | (k', v) :: d' => if decide (k' = k) then Some v else dict_get d' k
  end.

Fixpoint dict_set (d : list (string * value)) (k : string) (v : value)
  : list (string * value) :=
  match d with
  | [] => [(k, v)]
  | (k', v') :: d' =>
      if decide (k' = k) then (k, v) :: d' else (k', v') :: dict_set d' k v
  end.

(** [d.get(k, None)] *)
Definition dict_get_default (d : list (string * value)) (k : string) : value :=
  default VNone (dict_get d k).

(** [str.lower()] on the ASCII letters.  The flags it is compared with are
    ASCII, and no other character lowers to one of their letters. *)
Definition lower_ascii (c : ascii) : ascii :=
  let n := nat_of_ascii c in
  if Nat.leb 65 n && Nat.leb n 90 then ascii_of_nat (n + 32) else c.

Fixpoint lower (s : string) : string :=
  match s with
  | EmptyString => EmptyString
  | String c s' => String (lower_ascii c) (lower s')
  end.

(** ** Exceptions *)

Inductive exn : Type :=
| ValidationError (detail : value)               (* rest_framework.exceptions *)
| DjangoValidationError (messages : list string) (* django.core.exceptions *)
| Http404
| PyError (name : string).                (* KeyError, IndexError, TypeError... *)

(** [e.message]: an error built from one message carries it. *)
Definition message (e : exn) : string :=
  match e with
  | DjangoValidationError [m] => m
  | _ => ""
  end.

(** The status the REST framework's exception handler answers with. *)
Definition status_code (e : exn) : Z :=
  match e with
  | ValidationError _ => 400
  | Http404 => 404
  | _ => 500
  end.

Definition result (A : Type) : Type := exn + A.

(** ** Model rows *)

(** Modelled from the spec: the constant [BadgeInstance.ACCEPTANCE_ACCEPTED]
    is declared in [issuer/models.py], which is not among the sources; the
    spec gives the acceptance state the literal value "Accepted". *)
Definition ACCEPTANCE_ACCEPTED : string := "Accepted".

Record BadgeInstance : Type := mkBadgeInstance {
  entity_id : string;
  badgeclass : string;              (* entity id of the badge class *)
  issuer : string;                  (* entity id of the issuer *)
  recipient_identifier : string;
  user : option string;             (* the owning user, when there is one *)
  acceptance : string;
  revoked : bool;
  revocation_reason : value;
  expires_at : option Z;
  updated_at : Z
}.

#[global] Instance BadgeInstance_eq_dec : EqDecision BadgeInstance.
Proof. solve_decision. Defined.

(** An OAuth2 access token with its [accesstokenscope] rows. *)
Record AccessToken : Type := mkAccessToken {
  token_user : string;
  application_user : option string;
  scopes : list string
}.

Record IssuerStaff : Type := mkIssuerStaff {
  staff_issuer : string;
  staff_user : string
}.

(** ** The world: tables, clock and observable effects *)

Inductive event : Type :=
| EvNow (t : Z)                    (* the clock was read *)
| EvQuery (ids : list string)      (* an SQL query ran and returned these rows *)
| EvPublish (u : string).          (* [user.publish()] *)

Record world : Type := mkWorld {
  badge_instances : list BadgeInstance;
  access_tokens : list AccessToken;
  issuer_staff : list IssuerStaff;
  clock : Z;
  trace : list event                (* oldest first *)
}.

Definition set_badge_instances (f : list BadgeInstance → list BadgeInstance)
  (w : world) : world :=
  mkWorld (f (badge_instances w)) (access_tokens w) (issuer_staff w)
          (clock w) (trace w).

Definition log (e : event) (w : world) : world :=
  mkWorld (badge_instances w) (access_tokens w) (issuer_staff w)
          (clock w) (trace w ++ [e]).

(** ** Computations: state and exceptions *)

Definition M (A : Type) : Type := world → result A * world.

#[global] Instance M_ret : MRet M := λ A a w, (inr a, w).

#[global] Instance M_bind : MBind M := λ A B k m w,
  match m w with
  | (inl e, w') => (inl e, w')
  | (inr a, w') => k a w'
  end.

Definition throw {A} (e : exn) : M A := λ w, (inl e, w).

(** [try: m except ...: h e]; the handler declines ([None]) the exceptions
    its [except] clause does not name. *)
Definition try_except {A} (m : M A) (h : exn → option (M A)) : M A := λ w,
  match m w with
  | (inl e, w') => match h e with Some k => k w' | None => (inl e, w') end
  | (inr a, w') => (inr a, w')
  end.

Definition lift {A} (r : result A) : M A := λ w, (r, w).

Definition read {A} (f : world → A) : M A := λ w, (inr (f w), w).

Definition emit (e : event) : M unit := λ w, (inr tt, log e w).

(** [datetime.datetime.now()] and [timezone.now()] *)
Definition now : M Z := t ← read clock; _ ← emit (EvNow t); mret t.

#[global] Instance result_ret : MRet result := λ A a, inr a.

#[global] Instance result_bind : MBind result := λ A B k r,
  match r with
  | inl e => inl e
  | inr a => k a
  end.

(** [for x in l: f x], collecting the results in order *)
Fixpoint for_each {A B} (f : A → M B) (l : list A) : M (list B) :=
  match l with
  | [] => mret []
  | x :: l' => y ← f x; ys ← for_each f l'; mret (y :: ys)
  end.

(** ** Model methods *)

(** The table after a row is written: the row with the instance's entity id
    is overwritten; an instance that has no row yet gets one. *)
Fixpoint replace_row (a : BadgeInstance) (t : list BadgeInstance)
  : list BadgeInstance :=
  match t with
  | [] => [a]
  | b :: t' =>
      if decide (entity_id b = entity_id a) then a :: t' else b :: replace_row a t'
  end.

(** Modelled from the spec: [BadgeInstance.save] is a method of
    [issuer/models.py], which is not among the sources.  The spec has the
    serializers and [revoke] persist the instance: its row is written with
    the fields the instance has at the call.  Whatever else the model's
    method does on saving (a time stamp, a cache) is not in the sources and
    is no part of this definition. *)
Definition save (a : BadgeInstance) : M unit := λ w,
  (inr tt, set_badge_instances (replace_row a) w).

(** [user.publish()] *)
Definition publish (u : string) : M unit := emit (EvPublish u).

Definition set_acceptance (s : string) (a : BadgeInstance) : BadgeInstance :=
  mkBadgeInstance (entity_id a) (badgeclass a) (issuer a)
    (recipient_identifier a) (user a) s (revoked a) (revocation_reason a)
    (expires_at a) (updated_at a).

Definition set_revoked (reason : value) (a : BadgeInstance) : BadgeInstance :=
  mkBadgeInstance (entity_id a) (badgeclass a) (issuer a)
    (recipient_identifier a) (user a) (acceptance a) true reason
    (expires_at a) (updated_at a).

Definition already_revoked : string := "Assertion is already revoked".
Definition reason_required : string := "revocation_reason is required".

(** Modelled from the spec: [BadgeInstance.revoke] is a method of
    [issuer/models.py], which is not among the sources.  The spec has
    revocation irreversible and requiring a reason, and has the views answer
    400 for an assertion that is already revoked: the method raises a Django
    validation error with one message in these two cases, and otherwise marks
    the instance revoked with the reason and saves it.  It returns the
    instance as the method leaves it. *)
Definition revoke (a : BadgeInstance) (reason : value) : M BadgeInstance :=
  if revoked a then throw (DjangoValidationError [already_revoked])
  else if negb (truthy reason) then throw (DjangoValidationError [reason_required])
  else let a' := set_revoked reason a in _ ← save a'; mret a'.

(** ** Requests and responses *)

(** [django.http.QueryDict]: every key can occur several times. *)
Module QueryDict.

Definition t : Type := list (string * string).

Definition getlist (q : t) (key : string) : list string :=
  (filter (λ kv, kv.1 = key) q).*2.

(** [q.get(key)]: the last value given for the key. *)
Definition get (q : t) (key : string) : option string :=
  last (getlist q key).

End QueryDict.

Record Request : Type := mkRequest {
  request_user : string;
  data : value;
  query_params : QueryDict.t
}.

(** [request.GET] is the same query string as [request.query_params]. *)
Definition GET (request : Request) : QueryDict.t := query_params request.

Record Response : Type := mkResponse {
  status : Z;
  response_data : value
}.

Definition HTTP_200_OK : Z := 200.
Definition HTTP_400_BAD_REQUEST : Z := 400.
Definition HTTP_404_NOT_FOUND : Z := 404.

(** What a view inherits from the entity framework: object lookup (which
    raises [Http404]), the object-permission check, and the serializer of
    its serializer class. *)
Record View (Obj : Type) : Type := mkView {
  get_object : Request → list (string * value) → M Obj;
  has_object_permissions : Request → Obj → bool;
  serializer_data : Obj → Request → value
}.

Arguments mkView {Obj} _ _ _.
Arguments get_object {Obj} _ _ _ _.
Arguments has_object_permissions {Obj} _ _ _.
Arguments serializer_data {Obj} _ _ _.

Module VersionedObjectMixin.

(** Modelled from the spec: [VersionedObjectMixin.get_object] is defined in
    [entity/api.py], which is not among the sources.  The spec has the
    entity framework look objects up by their entity id and has the views
    answer 404 to a caller without permission, so as not to confirm that the
    object exists; the callers in [api.py] (lines 160 and 470) call
    [get_object] to trigger the [has_object_permissions] check.  The object
    the model's cached lookup finds is returned when the check passes;
    [Http404] is raised when nothing is found and when the check fails.  The
    lookup reads the tables and writes nothing. *)
Definition get_object {Obj : Type}
  (cached_get : list (string * value) → world → option Obj)
  (has_object_permissions : Request → Obj → bool)
  (request : Request) (kwargs : list (string * value)) : M Obj := λ w,
  match cached_get kwargs w with
  | Some obj =>
      if has_object_permissions request obj then (inr obj, w)
      else (inl Http404, w)
  | None => (inl Http404, w)
  end.

(** A view of the entity framework, from the model's lookup, the
    permission classes and the serializer class. *)
Definition view {Obj : Type}
  (cached_get : list (string * value) → world → option Obj)
  (has_object_permissions : Request → Obj → bool)
  (serializer_data : Obj → Request → value) : View Obj :=
  mkView (get_object cached_get has_object_permissions)
    has_object_permissions serializer_data.

End VersionedObjectMixin.

(** Subscripting and item assignment on Python values. *)
Definition getitem (target : value) (k : string) : result value :=
  match target with
  | VDict d =>
      match dict_get d k with
      | Some v => inr v
      | None => inl (PyError "KeyError")
      end
  | _ => inl (PyError "TypeError")
  end.

Definition getindex (target : value) (i : nat) : result value :=
  match target with
  | VList l =>
      match l !! i with
      | Some v => inr v
      | None => inl (PyError "IndexError")
      end
  | VStr s =>
      match String.get i s with
      | Some c => inr (VStr (String c EmptyString))
      | None => inl (PyError "IndexError")
      end
  | VDict _ => inl (PyError "KeyError")
  | _ => inl (PyError "TypeError")
  end.

Definition setitem (target : value) (k : string) (v : value) : result value :=
  match target with
  | VDict d => inr (VDict (dict_set d k v))
  | _ => inl (PyError "TypeError")
  end.

(** [x.get(k, None)] on a value; only dictionaries have the method. *)
Definition py_get (x : value) (k : string) : result value :=
  match x with
  | VDict d => inr (dict_get_default d k)
  | _ => inl (PyError "AttributeError")
  end.

(** [for x in v]: the elements of a list, the keys of a dictionary, the
    characters of a string. *)
Fixpoint chars (s : string) : list value :=
  match s with
  | EmptyString => []
  | String c s' => VStr (String c EmptyString) :: chars s'
  end.

Definition py_iter (v : value) : result (list value) :=
  match v with
  | VList l => inr l
  | VDict d => inr ((λ kv, VStr kv.1) <$> d)
  | VStr s => inr (chars s)
  | _ => inl (PyError "TypeError")
  end.

(** ** Querysets *)

(** The field lookups the views filter [BadgeInstance] rows with; a double
    underscore follows a relation or names the comparison, as in the ORM. *)
Inductive lookup : Type :=
| badgeclass_exact (b : string)
| issuer_exact (i : string)
| revoked_exact (b : bool)
| recipient_identifier__in (l : list string)
| expires_at__gte (t : Z)
| expires_at__isnull (b : bool)
| updated_at__gt (t : Z)
| user__accesstoken__application__user (u : string)
| user__accesstoken__accesstokenscope__scope__in (l : list string)
| issuer__issuerstaff__user (u : string).

(** [django.db.models.Q] with its [&] and [|]. *)
Inductive Q : Type :=
| Qatom (l : lookup)
| Qand (a b : Q)
| Qor (a b : Q).

(** A queryset is lazy: it records the [filter] calls and whether
    [distinct] was asked for, and touches the database when it is run. *)
Record QuerySet : Type := mkQuerySet {
  wheres : list Q;
  is_distinct : bool
}.

(** [BadgeInstance.objects] *)
Definition objects : QuerySet := mkQuerySet [] false.

Definition qs_filter (q : Q) (qs : QuerySet) : QuerySet :=
  mkQuerySet (wheres qs ++ [q]) (is_distinct qs).

Definition qs_distinct (qs : QuerySet) : QuerySet :=
  mkQuerySet (wheres qs) true.

(** A row of the query: the instance with the rows its relations join it
    to.  A relation without a matching row joins to [None] (left join). *)
Record row : Type := mkRow {
  r_instance : BadgeInstance;
  r_token : option AccessToken;
  r_scope : option string;
  r_staff : option IssuerStaff
}.

Definition left_join {A} (l : list A) : list (option A) :=
  match l with
  | [] => [None]
  | _ :: _ => Some <$> l
  end.

Definition joined (w : world) (a : BadgeInstance) : list row :=
  t ← left_join (filter (λ t, user a = Some (token_user t)) (access_tokens w));
  s ← left_join (from_option scopes [] t);
  m ← left_join (filter (λ m, staff_issuer m = issuer a) (issuer_staff w));
  [mkRow a t s m].

Definition spans_relation (l : lookup) : bool :=
  match l with
  | user__accesstoken__application__user _
  | user__accesstoken__accesstokenscope__scope__in _
  | issuer__issuerstaff__user _ => true
  | _ => false
  end.

Fixpoint Q_spans_relation (q : Q) : bool :=
  match q with
  | Qatom l => spans_relation l
  | Qand a b | Qor a b => Q_spans_relation a || Q_spans_relation b
  end.

(** A comparison with a null column is not true. *)
Definition eval_lookup (r : row) (l : lookup) : bool :=
  let a := r_instance r in
  match l with
  | badgeclass_exact b => bool_decide (badgeclass a = b)
  | issuer_exact i => bool_decide (issuer a = i)
  | revoked_exact b => bool_decide (revoked a = b)
  | recipient_identifier__in l => bool_decide (recipient_identifier a ∈ l)
  | expires_at__gte t =>
      match expires_at a with Some e => bool_decide (t ≤ e)%Z | None => false end
  | expires_at__isnull b => bool_decide (is_Some (expires_at a) ↔ b = false)
  | updated_at__gt t => bool_decide (t < updated_at a)%Z
  | user__accesstoken__application__user u =>
      match r_token r with
      | Some t => bool_decide (application_user t = Some u)
      | None => false
      end
  | user__accesstoken__accesstokenscope__scope__in l =>
      match r_scope r with
      | Some s => bool_decide (s ∈ l)
      | None => false
      end
  | issuer__issuerstaff__user u =>
      match r_staff r with
      | Some m => bool_decide (staff_user m = u)
      | None => false
      end
  end.

Fixpoint eval_Q (r : row) (q : Q) : bool :=
  match q with
  | Qatom l => eval_lookup r l
  | Qand a b => eval_Q r a && eval_Q r b
  | Qor a b => eval_Q r a || eval_Q r b
  end.

(** The rows a queryset ranges over: the table alone, or the table joined
    with the relations when a filter follows them. *)
Definition rows (qs : QuerySet) (w : world) : list row :=
  if existsb Q_spans_relation (wheres qs)
  then a ← badge_instances w; joined w a
  else (λ a, mkRow a None None None) <$> badge_instances w.

(** What running the queryset returns. *)
Definition select (qs : QuerySet) (w : world) : list BadgeInstance :=
  let selected :=
    r_instance <$> filter (λ r, forallb (eval_Q r) (wheres qs)) (rows qs w) in
  if is_distinct qs then remove_dups selected else selected.

(** Running it is an observable effect. *)
Definition execute (qs : QuerySet) : M (list BadgeInstance) :=
  found ← read (select qs); _ ← emit (EvQuery (entity_id <$> found)); mret found.

(** ** [apps/backpack/serializers_v2.py] *)

(** A cached badge class or issuer: [get_json(include_extra, use_canonical_id)]. *)
Record Entity : Type := mkEntity {
  get_json : bool → bool → value
}.

Module BackpackAssertionSerializerV2.

(** [self.parent] and [self.context]: of the context the serializer reads
    the entry [kwargs], the keyword arguments of the request, and of these
    the entry [expands].  [context_kwargs] is [None] for a context without
    [kwargs], and [Some None] for keyword arguments without [expands]. *)
Record t : Type := mk {
  parent : option unit;
  context_kwargs : option (option (list string))
}.

Section serializer.

(** [DetailSerializerV2.to_representation] and the cached relations of an
    instance belong to the entity framework and the model layer. *)
Variable super_to_representation : BadgeInstance → value.
Variable cached_badgeclass : BadgeInstance → Entity.
Variable cached_issuer : BadgeInstance → Entity.

(** The two assignments guarded by [expands], on the dictionary the pointer
    refers to. *)
Definition expand (expands : list string) (instance : BadgeInstance)
  (instance_data_pointer : value) : result value :=
  if bool_decide ("badgeclass" ∈ expands) then
    pointer ← setitem instance_data_pointer "badgeclass"
                (get_json (cached_badgeclass instance) true true);
    if bool_decide ("issuer" ∈ expands) then
      embedded ← getitem pointer "badgeclass";
      embedded ← setitem embedded "issuer"
                   (get_json (cached_issuer instance) true true);
      setitem pointer "badgeclass" embedded
    else mret pointer
  else mret instance_data_pointer.

(** The pointer aliases [representation['result'][0]]: what was written
    through it is seen in the representation. *)
Definition write_back (representation pointer : value) : value :=
  match representation with
  | VDict d =>
      match dict_get d "result" with
      | Some (VList (_ :: rest)) => VDict (dict_set d "result" (VList (pointer :: rest)))
      | _ => representation
      end
  | _ => representation
  end.

Definition to_representation (self : t) (instance : BadgeInstance)
  : result value :=
  let representation := super_to_representation instance in
  request_kwargs ←
    match context_kwargs self with
    | Some request_kwargs => inr request_kwargs
    | None => inl (PyError "KeyError")
    end;
  let expands := default [] request_kwargs in
  match parent self with
  | Some _ =>
      (* we'll have a bare representation *)
      expand expands instance representation
  | None =>
      results ← getitem representation "result";
      instance_data_pointer ← getindex results 0;
      instance_data_pointer ← expand expands instance instance_data_pointer;
      mret (write_back representation instance_data_pointer)
  end.

End serializer.

End BackpackAssertionSerializerV2.

(** [rest_framework.serializers.ChoiceField]: the text of the input has to
    be one of the choices.  The text of a JSON value that is not a string
    (a number, [True], a list) is never a word such as [Accepted]. *)
Definition invalid_choice : exn :=
  ValidationError (VStr "not a valid choice").
Definition required : exn :=
  ValidationError (VStr "This field is required.").
Definition not_a_dict : exn :=
  ValidationError (VStr "Invalid data. Expected a dictionary.").

Definition ChoiceField (choices : list string) (input : value) : result value :=
  match input with
  | VStr s => if bool_decide (s ∈ choices) then inr (VStr s) else inl invalid_choice
  | _ => inl invalid_choice
  end.

Module BackpackAssertionAcceptanceSerializerV2.

(** [acceptance = ChoiceField(choices=[BadgeInstance.ACCEPTANCE_ACCEPTED],
    write_only=True)], the only field; it is required. *)
Definition acceptance_field : value → result value :=
  ChoiceField [ACCEPTANCE_ACCEPTED].

(** Field validation of the request body. *)
Definition run_validation (body : value) : result (list (string * value)) :=
  match body with
  | VDict d =>
      match dict_get d "acceptance" with
      | Some input => v ← acceptance_field input; mret [("acceptance", v)]
      | None => inl required
      end
  | _ => inl not_a_dict
  end.

Definition update (instance : BadgeInstance)
  (validated_data : list (string * value)) : M BadgeInstance :=
  let instance := set_acceptance "Accepted" instance in
  _ ← save instance;
  let owner := user instance in
  _ ← match owner with
      | Some u => publish u
      | None => mret tt
      end;
  mret instance.

End BackpackAssertionAcceptanceSerializerV2.

Module BackpackImportSerializerV2.

(** [attrs] is the dictionary of the validated fields; the writable fields
    the serializer declares are [url], [image] and [assertion]. *)
Definition fields : gset string := {[ "url"; "image"; "assertion" ]}.

Definition values (attrs : gmap string value) : list value :=
  (map_to_list attrs).*2.

Definition only_one : string :=
  "Must provide only one of 'url', 'image' or 'assertion'.".

Definition validate (attrs : gmap string value) : result (gmap string value) :=
  if bool_decide (sum_list_with (λ v, if truthy v then 1 else 0) (values attrs) ≠ 1)
  then inl (ValidationError (VStr only_one))
  else inr attrs.

Definition duplicate_badge : value :=
  VList [VDict [("name", VStr "DUPLICATE_BADGE");
                ("description", VStr "You already have this badge in your backpack")]].

Section serializer.

(** [BadgeCheckHelper.get_or_create_assertion] of [issuer/helpers.py],
    called with the validated data as keyword arguments: it answers with an
    instance and whether it created it, or raises. *)
Variable get_or_create_assertion : gmap string value → M (BadgeInstance * bool).

Definition create (validated_data : gmap string value) : M BadgeInstance :=
  try_except
    (let validated_data :=
       <["imagefile" := default VNone (validated_data !! "image")]>
         (delete "image" validated_data) in
     '(instance, created) ← get_or_create_assertion validated_data;
     if negb created then
       let instance := set_acceptance ACCEPTANCE_ACCEPTED instance in
       _ ← save instance;
       throw (ValidationError duplicate_badge)
     else mret instance)
    (λ e, match e with
          | DjangoValidationError messages =>
              Some (throw (ValidationError (VList (VStr <$> messages))))
          | _ => None
          end).

End serializer.

End BackpackImportSerializerV2.

(** ** [apps/issuer/api.py] *)

(** The query flags: [params.get(name, '').lower() in ['1', 'true']]. *)
Definition flag (params : QueryDict.t) (name : string) : bool :=
  bool_decide (lower (default "" (QueryDict.get params name)) ∈ ["1"; "true"]).

Module BatchAssertionsRevoke.

Section view.

Variable self : View BadgeInstance.

(** [BaseSerializerV2.response_envelope(result, success, description)] *)
Variable response_envelope : list value → bool → string → value.

Definition denied : string := "permission denied or object not found".

(** [dict(response, key=v)]: a copy of the dictionary with the key set. *)
Definition dict_with (response : list (string * value)) (k : string) (v : value)
  : value := VDict (dict_set response k v).

Definition _process_revoke (request : Request) (revocation : value) : M value :=
  let response := [("revoked", VBool false)] in
  entity_id ← lift (py_get revocation "entityId");
  revocation_reason ← lift (py_get revocation "revocationReason");
  if decide (entity_id = VNone) then
    mret (dict_with response "reason" (VStr "entityId is required"))
  else
  let response := dict_set response "entityId" entity_id in
  if decide (revocation_reason = VNone) then
    mret (dict_with response "reason" (VStr "revocationReason is required"))
  else
  let response := dict_set response "revocationReason" revocation_reason in
  found ← try_except
      (assertion ← get_object self request [("entity_id", entity_id)];
       mret (Some assertion))
      (λ e, match e with Http404 => Some (mret None) | _ => None end);
  match found with
  | None => mret (dict_with response "reason" (VStr denied))
  | Some assertion =>
      (* the dictionary of this branch is built and dropped: the statement
         has no [return] *)
      let _ :=
        if negb (has_object_permissions self request assertion)
        then dict_with response "reason" (VStr denied) else VNone in
      failed ← try_except
          (_ ← revoke assertion revocation_reason; mret None)
          (λ e, Some (mret (Some (dict_with response "reason" (VStr (message e))))));
      match failed with
      | Some answer => mret answer
      | None => mret (dict_with response "revoked" (VBool true))
      end
  end.

Definition post (request : Request) : M Response :=
  revocations ← lift (py_iter (data request));
  result ← for_each (_process_revoke request) revocations;
  let response_data := response_envelope result true "revoked badges" in
  mret (mkResponse HTTP_200_OK response_data).

End view.

End BatchAssertionsRevoke.

Module BadgeInstanceList.

Section view.

(** The object of this view is a badge class, named by its entity id. *)
Variable self : View string.

Definition get_queryset (request : Request) (kwargs : list (string * value))
  : M QuerySet :=
  badgeclass ← get_object self request kwargs;
  let queryset :=
    qs_filter (Qand (Qatom (badgeclass_exact badgeclass))
                    (Qatom (revoked_exact false))) objects in
  let recipients := QueryDict.getlist (query_params request) "recipient" in
  let queryset :=
    match recipients with
    | _ :: _ => qs_filter (Qatom (recipient_identifier__in recipients)) queryset
    | [] => queryset
    end in
  mret queryset.

End view.

End BadgeInstanceList.

Module IssuerBadgeInstanceList.

Section view.

(** The object of this view is an issuer, named by its entity id. *)
Variable self : View string.

Definition get_queryset (request : Request) (kwargs : list (string * value))
  : M QuerySet :=
  issuer ← get_object self request kwargs;
  let queryset := qs_filter (Qatom (issuer_exact issuer)) objects in
  let recipients := QueryDict.getlist (query_params request) "recipient" in
  let queryset :=
    match recipients with
    | _ :: _ => qs_filter (Qatom (recipient_identifier__in recipients)) queryset
    | [] => queryset
    end in
  queryset ←
    (if negb (flag (query_params request) "include_expired") then
       t ← now;
       mret (qs_filter (Qor (Qatom (expires_at__gte t))
                            (Qatom (expires_at__isnull true))) queryset)
     else mret queryset);
  let queryset :=
    if negb (flag (query_params request) "include_revoked")
    then qs_filter (Qatom (revoked_exact false)) queryset else queryset in
  mret queryset.

End view.

End IssuerBadgeInstanceList.

Module BadgeInstanceDetail.

Section view.

Variable self : View BadgeInstance.

Definition delete (request : Request) (kwargs : list (string * value))
  : M Response :=
  (* verify the user has permission to the assertion *)
  assertion ← get_object self request kwargs;
  if negb (has_object_permissions self request assertion) then
    mret (mkResponse HTTP_404_NOT_FOUND VNone)
  else
  revocation_reason ← lift (py_get (data request) "revocation_reason");
  if negb (truthy revocation_reason) then
    throw (ValidationError (VDict [("revocation_reason", VStr "This field is required")]))
  else
  assertion ← try_except
      (revoke assertion revocation_reason)
      (λ e, match e with
            | DjangoValidationError _ => Some (throw (ValidationError (VStr (message e))))
            | _ => None
            end);
  mret (mkResponse HTTP_200_OK (serializer_data self assertion request)).

End view.

End BadgeInstanceDetail.

(** [V2ErrorSerializer] of the entity framework, as the view leaves it
    before it asks for its [data]. *)
Record V2ErrorSerializer : Type := mkV2ErrorSerializer {
  field_errors : value;
  validation_errors : value;
  _success : bool;
  _description : string
}.

Module PaginatedAssertionsSinceSerializer.

Record t : Type := mk {
  timestamp : Z;
  page : list BadgeInstance
}.

Section serializer.

(** The cursor paginator of [CursorPaginatedListSerializer] keeps one page
    of the rows the query returned; its [to_representation] builds the
    envelope of the page; [isoformat] is the method of [datetime]. *)
Variable paginate : Request → list BadgeInstance → list BadgeInstance.
Variable super_to_representation : list BadgeInstance → list (string * value).
Variable isoformat : Z → string.

(** Modelled from the spec: [CursorPaginatedListSerializer.__init__] is
    defined in [mainsite/serializers.py], which is not among the sources.
    The spec has the list endpoints paginate by cursor, and the comment in
    [PaginatedAssertionsSinceSerializer.__init__] has the SQL query run in
    this constructor: it runs the queryset and keeps one page of the rows. *)
Definition super__init__ (queryset : QuerySet) (request : Request)
  : M (list BadgeInstance) :=
  found ← execute queryset;
  mret (paginate request found).

Definition __init__ (queryset : QuerySet) (request : Request) : M t :=
  (* take timestamp now before SQL query is run in super.__init__ *)
  timestamp ← now;
  page ← super__init__ queryset request;
  mret (mk timestamp page).

Definition to_representation (self : t) (data : list BadgeInstance) : value :=
  let representation := super_to_representation data in
  VDict (dict_set representation "timestamp" (VStr (isoformat (timestamp self)))).

(** [serializer.data] of the REST framework, once [is_valid] has run: the
    representation of what the serializer holds, here its page. *)
Definition data (self : t) : value :=
  to_representation self (page self).

End serializer.

End PaginatedAssertionsSinceSerializer.

Module AssertionsChangedSince.

Section view.

Variable paginate : Request → list BadgeInstance → list BadgeInstance.
Variable super_to_representation : list BadgeInstance → list (string * value).
Variable isoformat : Z → string.

(** [dateutil.parser.isoparse]; [None] stands for its [ValueError]. *)
Variable isoparse : string → option Z.

(** The [data] of a [V2ErrorSerializer]. *)
Variable error_data : V2ErrorSerializer → value.

Definition get_queryset (request : Request) (since : option Z) : QuerySet :=
  let user := request_user request in
  let expr := Qatom (user__accesstoken__application__user user) in
  let expr :=
    Qand expr (Qatom (user__accesstoken__accesstokenscope__scope__in
                        ["r:backpack"; "rw:backpack"])) in
  let expr := Qor expr (Qatom (issuer__issuerstaff__user user)) in
  let expr :=
    match since with
    | Some since => Qand expr (Qatom (updated_at__gt since))
    | None => expr
    end in
  qs_distinct (qs_filter expr objects).

Definition get (request : Request) (kwargs : list (string * value))
  : M Response :=
  let answer (since : option Z) : M Response :=
    let queryset := get_queryset request since in
    serializer ←
      PaginatedAssertionsSinceSerializer.__init__ paginate queryset request;
    (* serializer.is_valid(); return Response(serializer.data) *)
    mret (mkResponse HTTP_200_OK
            (PaginatedAssertionsSinceSerializer.data
               super_to_representation isoformat serializer)) in
  match QueryDict.get (GET request) "since" with
  | Some since =>
      match isoparse since with
      | Some since => answer (Some since)
      | None =>
          let err :=
            mkV2ErrorSerializer
              (VDict [("since", VList [VStr "must be ISO-8601 format with time zone"])])
              (VList []) false "bad request" in
          mret (mkResponse HTTP_400_BAD_REQUEST (error_data err))
      end
  | None => answer None
  end.

End view.

End AssertionsChangedSince.

(** ** Vocabulary of the statements *)

(** An import field is set when the attributes hold a true value for it. *)
Definition is_set (attrs : gmap string value) (field : string) : bool :=
  match attrs !! field with
  | Some v => truthy v
  | None => false
  end.

Definition b2n (b : bool) : nat := if b then 1 else 0.

(** How many of [url], [image] and [assertion] are set. *)
Definition fields_set (attrs : gmap string value) : nat :=
  b2n (is_set attrs "url") + b2n (is_set attrs "image")
  + b2n (is_set attrs "assertion").

(** The sum [validate] compares with one. *)
Definition provided (attrs : gmap string value) : nat :=
  sum_list_with (λ v, if truthy v then 1 else 0)
    (BackpackImportSerializerV2.values attrs).

(** A flag is given when the query string names it with [1] or with
    [true] in any mix of upper and lower case (the last occurrence counts). *)
Definition truthy_string (s : string) : Prop :=
  s = "1" ∨
  ∃ c1 c2 c3 c4 : ascii,
    s = String c1 (String c2 (String c3 (String c4 EmptyString))) ∧
    c1 ∈ ["t"; "T"]%char ∧ c2 ∈ ["r"; "R"]%char ∧
    c3 ∈ ["u"; "U"]%char ∧ c4 ∈ ["e"; "E"]%char.

Definition flag_given (request : Request) (name : string) : Prop :=
  ∃ s, QueryDict.get (query_params request) name = Some s ∧ truthy_string s.

(** The [recipient] parameters of the query string. *)
Definition recipients (request : Request) : list string :=
  QueryDict.getlist (query_params request) "recipient".

(** The assertion expires, and did before [t]. *)
Definition expired (t : Z) (a : BadgeInstance) : Prop :=
  ∃ e, expires_at a = Some e ∧ (e < t)%Z.

(** ** Sample data *)

Definition assertion_of (id issuer_id recipient : string) (owner : option string)
  (is_revoked : bool) (expires : option Z) (updated : Z) : BadgeInstance :=
  mkBadgeInstance id "badgeclass-1" issuer_id recipient owner "Unaccepted"
    is_revoked (if is_revoked then VStr "issued by mistake" else VNone)
    expires updated.

Definition valid_assertion : BadgeInstance :=
  assertion_of "A" "issuer-1" "ann@example.org" (Some "ann") false None 10.
Definition revoked_assertion : BadgeInstance :=
  assertion_of "B" "issuer-1" "bob@example.org" (Some "bob") true None 20.
Definition expired_assertion : BadgeInstance :=
  assertion_of "C" "issuer-1" "cy@example.org" None false (Some 50%Z) 30.
Definition foreign_assertion : BadgeInstance :=
  assertion_of "D" "issuer-2" "ann@example.org" (Some "ann") false None 40.

(** Ann's backpack is open to the application of [app]; Bob's token has
    another scope; [app] is on the staff of the second issuer.  The clock
    shows 100. *)
Definition sample_world : world :=
  mkWorld
    [valid_assertion; revoked_assertion; expired_assertion; foreign_assertion]
    [mkAccessToken "ann" (Some "app") ["r:backpack"; "r:profile"];
     mkAccessToken "ann" (Some "app") ["rw:backpack"];
     mkAccessToken "bob" (Some "app") ["rw:issuer"]]
    [mkIssuerStaff "issuer-2" "app"; mkIssuerStaff "issuer-1" "eve"]
    100 [].

(** A view over badge classes or issuers: the object is the entity id of
    the keyword arguments. *)
Definition entity_view (permitted : string → bool) : View string :=
  mkView
    (λ _ kwargs,
       match dict_get kwargs "entity_id" with
       | Some (VStr id) => mret id
       | _ => throw Http404
       end)
    (λ _ id, permitted id)
    (λ id _, VStr id).

(** A view over assertions: the object is the row with the entity id of the
    keyword arguments, looked up through the entity framework. *)
Definition assertion_by_id (kwargs : list (string * value)) (w : world)
  : option BadgeInstance :=
  match dict_get kwargs "entity_id" with
  | Some (VStr id) => find (λ a, bool_decide (entity_id a = id)) (badge_instances w)
  | _ => None
  end.

Definition assertion_data (a : BadgeInstance) (request : Request) : value :=
  VDict [("entityId", VStr (entity_id a));
         ("revoked", VBool (revoked a));
         ("revocationReason", revocation_reason a)].

Definition assertion_view (permitted : BadgeInstance → bool) : View BadgeInstance :=
  VersionedObjectMixin.view assertion_by_id (λ _ a, permitted a) assertion_data.

Definition request_of (user : string) (body : value) (query : QueryDict.t)
  : Request := mkRequest user body query.

(** The rows a computation's queryset returns in the world it leaves. *)
Definition listed (m : M QuerySet) (w : world) : list string :=
  match m w with
  | (inr qs, w') => entity_id <$> select qs w'
  | (inl _, _) => []
  end.

(** The assertions a user [u] sees in the change feed: those in the
    backpack of someone who holds a token with a backpack scope for an
    application that belongs to [u], and those of the issuers that have [u]
    on their staff. *)
Definition visible_through_token (w : world) (u : string) (a : BadgeInstance)
  : Prop :=
  ∃ t s, t ∈ access_tokens w ∧ user a = Some (token_user t) ∧
         application_user t = Some u ∧
         s ∈ scopes t ∧ s ∈ ["r:backpack"; "rw:backpack"].

Definition visible_as_staff (w : world) (u : string) (a : BadgeInstance) : Prop :=
  ∃ m, m ∈ issuer_staff w ∧ staff_issuer m = issuer a ∧ staff_user m = u.

Definition visible (w : world) (u : string) (a : BadgeInstance) : Prop :=
  visible_through_token w u a ∨ visible_as_staff w u a.


(** Stand-ins for the paginator, the list envelope, the clock format and the
    error serializer, to run the change feed on the sample data: pages of two
    rows, an envelope that lists entity ids, and times of day within the
    first hour of 1970. *)
Definition sample_paginate (request : Request) (found : list BadgeInstance)
  : list BadgeInstance := take 2 found.

Definition sample_envelope (page : list BadgeInstance) : list (string * value) :=
  [("result", VList ((λ a, VStr (entity_id a)) <$> page))].

Definition two_digits (n : Z) : string :=
  String (ascii_of_nat (48 + Z.to_nat (n / 10)))
    (String (ascii_of_nat (48 + Z.to_nat (n mod 10))) EmptyString).

Definition sample_isoformat (t : Z) : string :=
  "1970-01-01T00:" +:+ two_digits (t / 60) +:+ ":" +:+ two_digits (t mod 60)
  +:+ "+00:00".

Definition sample_isoparse (s : string) : option Z :=
  find (λ t, bool_decide (sample_isoformat t = s)) (seqZ 0 3600).

Definition sample_error_data (err : V2ErrorSerializer) : value :=
  VDict [("status", VDict [("success", VBool (_success err));
                           ("description", VStr (_description err))]);
         ("fieldErrors", field_errors err);
         ("validationErrors", validation_errors err)].

Definition sample_changed_since (query : QueryDict.t) : M Response :=
  AssertionsChangedSince.get sample_paginate sample_envelope sample_isoformat
    sample_isoparse sample_error_data (request_of "app" VNone query) [].

(** A stand-in for the badge-check helper: the [url] names the assertion; a
    known one is returned as it is, an unknown one is created for the
    recipient, and anything else is refused with two messages. *)
Definition sample_helper (kwargs : gmap string value) : M (BadgeInstance * bool) :=
  λ w,
    match kwargs !! "url" with
    | Some (VStr id) =>
        match find (λ a, bool_decide (entity_id a = id)) (badge_instances w) with
        | Some a => (inr (a, false), w)
        | None =>
            let a := assertion_of id "issuer-1" "ann@example.org" (Some "ann")
                       false None (clock w) in
            (inr (a, true), set_badge_instances (λ t, (t ++ [a])%list) w)
        end
    | _ =>
        (inl (DjangoValidationError ["no assertion found"; "nothing to verify"]), w)
    end.

(** The keyword arguments [create] calls the helper with. *)
Definition helper_kwargs (validated_data : gmap string value) : gmap string value :=
  <["imagefile" := default VNone (validated_data !! "image")]>
    (delete "image" validated_data).

Definition sample_response_envelope (result : list value) (success : bool)
  (description : string) : value :=
  VDict [("status", VDict [("success", VBool success);
                           ("description", VStr description)]);
         ("result", VList result)].

(** The assertion is revoked with the reason between two worlds: its row
    holds the revoked assertion, the rows of the other assertions are as
    they were, and so is everything else. *)
Definition revoked_between (a : BadgeInstance) (reason : value) (w w' : world)
  : Prop :=
  set_revoked reason a ∈ badge_instances w' ∧
  (∀ b, entity_id b ≠ entity_id a →
        b ∈ badge_instances w' ↔ b ∈ badge_instances w) ∧
  access_tokens w' = access_tokens w ∧ issuer_staff w' = issuer_staff w ∧
  clock w' = clock w ∧ trace w' = trace w.

(** What one entry of a revoke batch is answered with, and the world it
    leaves, for a view of the entity framework: the four reasons of a failed
    entry, none of which changes the world, and the revocation. *)
Inductive entry_answer
  (cached_get : list (string * value) → world → option BadgeInstance)
  (permitted : Request → BadgeInstance → bool) (request : Request)
  (d : list (string * value)) (w : world) : value → world → Prop :=
| entity_id_missing :
    dict_get_default d "entityId" = VNone →
    entry_answer cached_get permitted request d w
      (VDict [("revoked", VBool false); ("reason", VStr "entityId is required")]) w
| reason_missing :
    dict_get_default d "entityId" ≠ VNone →
    dict_get_default d "revocationReason" = VNone →
    entry_answer cached_get permitted request d w
      (VDict [("revoked", VBool false);
              ("entityId", dict_get_default d "entityId");
              ("reason", VStr "revocationReason is required")]) w
| not_found_or_denied :
    dict_get_default d "entityId" ≠ VNone →
    dict_get_default d "revocationReason" ≠ VNone →
    (cached_get [("entity_id", dict_get_default d "entityId")] w = None ∨
     ∃ a, cached_get [("entity_id", dict_get_default d "entityId")] w = Some a ∧
          permitted request a = false) →
    entry_answer cached_get permitted request d w
      (VDict [("revoked", VBool false);
              ("entityId", dict_get_default d "entityId");
              ("revocationReason", dict_get_default d "revocationReason");
              ("reason", VStr "permission denied or object not found")]) w
| revoke_refused a e w1 :
    dict_get_default d "entityId" ≠ VNone →
    dict_get_default d "revocationReason" ≠ VNone →
    cached_get [("entity_id", dict_get_default d "entityId")] w = Some a →
    permitted request a = true →
    revoke a (dict_get_default d "revocationReason") w = (inl e, w1) →
    entry_answer cached_get permitted request d w
      (VDict [("revoked", VBool false);
              ("entityId", dict_get_default d "entityId");
              ("revocationReason", dict_get_default d "revocationReason");
              ("reason", VStr (message e))]) w
| entry_revoked a w1 :
    dict_get_default d "entityId" ≠ VNone →
    cached_get [("entity_id", dict_get_default d "entityId")] w = Some a →
    permitted request a = true →
    revoked a = false →
    truthy (dict_get_default d "revocationReason") = true →
    revoked_between a (dict_get_default d "revocationReason") w w1 →
    entry_answer cached_get permitted request d w
      (VDict [("revoked", VBool true);
              ("entityId", dict_get_default d "entityId");
              ("revocationReason", dict_get_default d "revocationReason")]) w1.

(** The answers to the entries of a batch, in order, each entry in the world
    the entries before it left. *)
Inductive answered
  (cached_get : list (string * value) → world → option BadgeInstance)
  (permitted : Request → BadgeInstance → bool) (request : Request)
  : list (list (string * value)) → world → list value → world → Prop :=
| answered_nil w : answered cached_get permitted request [] w [] w
| answered_cons d entries w answer w1 results w2 :
    entry_answer cached_get permitted request d w answer w1 →
    answered cached_get permitted request entries w1 results w2 →
    answered cached_get permitted request (d :: entries) w (answer :: results) w2.

(** A lookup that leaves the world as it is. *)
Definition lookup_reads_only (self : View BadgeInstance) : Prop :=
  ∀ request kwargs w, snd (get_object self request kwargs w) = w.

(** A lookup that raises nothing but [Http404]. *)
Definition lookup_or_404 (self : View BadgeInstance) : Prop :=
  ∀ request kwargs w,
    (∃ a w', get_object self request kwargs w = (inr a, w')) ∨
    (∃ w', get_object self request kwargs w = (inl Http404, w')).

(** The representation holds the data of the instance: it is the data when
    the serializer is nested under a parent, and its [result] list starts
    with the data when the serializer stands alone. *)
Definition holds (self : BackpackAssertionSerializerV2.t)
  (representation data : value) : Prop :=
  match BackpackAssertionSerializerV2.parent self with
  | Some _ => representation = data
  | None =>
      ∃ env rest, representation = VDict env ∧
                  dict_get env "result" = Some (VList (data :: rest))
  end.

(** [answer] is the representation with the data of the instance replaced
    and everything else as it was. *)
Definition replaced (self : BackpackAssertionSerializerV2.t)
  (representation data answer : value) : Prop :=
  match BackpackAssertionSerializerV2.parent self with
  | Some _ => answer = data
  | None =>
      ∃ env first rest,
        representation = VDict env ∧
        dict_get env "result" = Some (VList (first :: rest)) ∧
        answer = VDict (dict_set env "result" (VList (data :: rest)))
  end.

Definition sample_badgeclass : Entity :=
  mkEntity (λ include_extra use_canonical_id,
    VDict ([("type", VStr "BadgeClass");
            ("id", VStr (if use_canonical_id
                         then "https://badgr.example/public/badges/badgeclass-1"
                         else "https://origin.example/badges/1"));
            ("issuer", VStr "https://badgr.example/public/issuers/issuer-1")]
           ++ if include_extra then [("extensions:x", VDict [])] else [])%list).

Definition sample_issuer : Entity :=
  mkEntity (λ include_extra use_canonical_id,
    VDict [("type", VStr "Issuer");
           ("id", VStr (if use_canonical_id
                        then "https://badgr.example/public/issuers/issuer-1"
                        else "https://origin.example/issuer"))]).

Definition bare (a : BadgeInstance) : value :=
  VDict [("entityId", VStr (entity_id a)); ("badgeclass", VStr (badgeclass a));
         ("issuer", VStr (issuer a))].

Definition enveloped (a : BadgeInstance) : value :=
  VDict [("status", VDict [("success", VBool true)]); ("result", VList [bare a])].

Definition sample_to_representation (nested : bool) (expands : list string)
  : result value :=
  BackpackAssertionSerializerV2.to_representation
    (if nested then bare else enveloped)
    (λ _, sample_badgeclass) (λ _, sample_issuer)
    (BackpackAssertionSerializerV2.mk (if nested then Some tt else None)
       (Some (Some expands)))
    valid_assertion.

(** ** [IssuerTokensList] *)

(** Modelled from the spec: the constant [IssuerStaff.ROLE_STAFF] is declared
    in [issuer/models.py], which is not among the sources; the spec names the
    membership the view grants "staff-level". *)
Definition ROLE_STAFF : string := "staff".

(** [Manager.get_or_create] with a lookup and defaults, on the rows of a table:
    the row that matches, a new row when none does; with more than one
    match [get] raises. *)
Definition get_or_create {A} (matches : A → bool) (new : A) (rows : list A)
  : result (A * bool) * list A :=
  match List.filter matches rows with
  | [] => (inr (new, true), (rows ++ [new])%list)
  | [r] => (inr (r, false), rows)
  | _ :: _ :: _ => (inl (PyError "MultipleObjectsReturned"), rows)
  end.

Module IssuerTokensList.

(** [request.auth.application] with its user. *)
Record Application : Type := mkApplication {
  client_id : string;
  application_owner : option string
}.

Record StaffRow : Type := mkStaffRow {
  member_issuer : string;
  member_user : string;
  role : string
}.

(** A row of [AccessTokenProxy]. *)
Record TokenRow : Type := mkTokenRow {
  holder : option string;
  application : string;
  scope : string;
  expires : Z;
  token : string
}.

(** The tables the view reads and writes, the clock, and the number of
    random tokens drawn so far. *)
Record tables : Type := mkTables {
  issuers : list string;
  staff : list StaffRow;
  tokens : list TokenRow;
  current_time : Z;
  drawn : nat
}.

(** [datetime.timedelta(weeks=n)] in seconds. *)
Definition weeks (n : Z) : Z := (n * 7 * 24 * 3600)%Z.

Section view.

(** [self.check_object_permissions(request, issuer)] raises when the
    permissions refuse the issuer; [random_token_generator] draws from the
    generator of [oauthlib]; [IssuerAccessTokenSerializerV2] validates the
    entries and gives their data. *)
Variable permitted : string → bool.
Variable random_token_generator : nat → string.
Variable serializer_data : list value → result value.

(** [Issuer.cached.get(entity_id=...)]; [None] stands for
    [Issuer.DoesNotExist].  No issuer has an entity id that is not a
    string. *)
Definition cached_get (db : tables) (entity_id : value) : option string :=
  match entity_id with
  | VStr id => if bool_decide (id ∈ issuers db) then Some id else None
  | _ => None
  end.

(** The first loop. *)
Fixpoint find_issuers (db : tables) (issuer_entityids : list value)
  : result (list string) :=
  match issuer_entityids with
  | [] => inr []
  | issuer_entityid :: rest =>
      match cached_get db issuer_entityid with
      | None => inl (ValidationError (VDict [("issuers", VStr "unknown issuer")]))
      | Some issuer =>
          if permitted issuer then
            match find_issuers db rest with
            | inl e => inl e
            | inr found => inr (issuer :: found)
            end
          else inl (PyError "PermissionDenied")
      end
  end.

Definition is_member (issuer user : string) (r : StaffRow) : bool :=
  bool_decide (member_issuer r = issuer ∧ member_user r = user).

Definition is_token (user : option string) (app scope_ : string) (r : TokenRow)
  : bool :=
  bool_decide (holder r = user ∧ application r = app ∧ scope r = scope_).

(** ["rw:issuer:{}".format(issuer.entity_id)] *)
Definition issuer_scope (issuer : string) : string := "rw:issuer:" +:+ issuer.

(** One turn of the second loop. *)
Definition issue_token (app : Application) (expiry : Z) (issuer : string)
  (db : tables) : result value * tables :=
  let scope_ := issuer_scope issuer in
  let granted :=
    match application_owner app with
    | Some application_user =>
        (* grant application user staff access to issuer if needed *)
        match get_or_create (is_member issuer application_user)
                (mkStaffRow issuer application_user ROLE_STAFF) (staff db) with
        | (inl e, rows) => inl e
        | (inr _, rows) => inr rows
        end
    | None => inr (staff db)
    end in
  match granted with
  | inl e => (inl e, db)
  | inr staff' =>
      (* the defaults are built, and a token is drawn, before the lookup *)
      let fresh := random_token_generator (drawn db) in
      match get_or_create (is_token (application_owner app) (client_id app) scope_)
              (mkTokenRow (application_owner app) (client_id app) scope_ expiry fresh)
              (tokens db) with
      | (inl e, rows) =>
          (inl e, mkTables (issuers db) staff' rows (current_time db) (S (drawn db)))
      | (inr (accesstoken, _), rows) =>
          (inr (VDict [("issuer", VStr issuer);
                       ("token", VStr (token accesstoken));
                       ("expires", VInt (expires accesstoken))]),
           mkTables (issuers db) staff' rows (current_time db) (S (drawn db)))
      end
  end.

Fixpoint issue_tokens (app : Application) (expiry : Z) (found : list string)
  (db : tables) : result (list value) * tables :=
  match found with
  | [] => (inr [], db)
  | issuer :: rest =>
      match issue_token app expiry issuer db with
      | (inl e, db') => (inl e, db')
      | (inr entry, db') =>
          match issue_tokens app expiry rest db' with
          | (inl e, db'') => (inl e, db'')
          | (inr entries, db'') => (inr (entry :: entries), db'')
          end
      end
  end.

Definition post (request : Request) (app : Application) (db : tables)
  : result Response * tables :=
  match py_get (data request) "issuers" with
  | inl e => (inl e, db)
  | inr issuer_entityids =>
      if negb (truthy issuer_entityids) then
        (inl (ValidationError (VDict [("issuers", VStr "field is required")])), db)
      else
        match py_iter issuer_entityids with
        | inl e => (inl e, db)
        | inr ids =>
            match find_issuers db ids with
            | inl e => (inl e, db)
            | inr found =>
                let expiry := (current_time db + weeks 5200)%Z in
                match issue_tokens app expiry found db with
                | (inl e, db') => (inl e, db')
                | (inr entries, db') =>
                    match serializer_data entries with
                    | inl e => (inl e, db')
                    | inr answer => (inr (mkResponse HTTP_200_OK answer), db')
                    end
                end
            end
        end
  end.

End view.

End IssuerTokensList.

(** ** [BatchAssertionsIssue] *)

Definition HTTP_201_CREATED : Z := 201.

(** [map(f, xs)] of Python 2: a list, built at once; the first exception
    ends it. *)
Fixpoint py_map (f : value → result value) (xs : list value)
  : result (list value) :=
  match xs with
  | [] => inr []
  | x :: rest =>
      match f x with
      | inl e => inl e
      | inr y =>
          match py_map f rest with
          | inl e => inl e
          | inr ys => inr (y :: ys)
          end
      end
  end.

Module BatchAssertionsIssue.

(** The serializer of the view's serializer class once it has its data:
    the errors of [is_valid] ([None] when it is valid), [save], and the data
    of the saved instances. *)
Record Serializer : Type := mkSerializer {
  _errors : option value;
  serializer_save : string → M (list BadgeInstance);
  saved_data : list BadgeInstance → value
}.

Section view.

(** The object of this view is a badge class, named by its entity id. *)
Variable self : View string.
Variable super_get_context_data : list (string * value) → list (string * value).
Variable serializer_class : list value → list (string * value) → Serializer.
Variable log_create : BadgeInstance → M unit.
Variable error_data : V2ErrorSerializer → value.

Definition get_context_data (request : Request) (kwargs : list (string * value))
  : M (list (string * value)) :=
  let context := super_get_context_data kwargs in
  badgeclass ← get_object self request kwargs;
  mret (dict_set context "badgeclass" (VStr badgeclass)).

Definition _include_create_notification (create_notification a : value)
  : result value :=
  setitem a "create_notification" create_notification.

(** [request.data.get('assertions')] with every item stamped. *)
Definition stamped (create_notification : value) (body : value)
  : result (list value) :=
  given ← py_get body "assertions";
  items ← py_iter given;
  py_map (_include_create_notification create_notification) items.

Definition post (request : Request) (kwargs : list (string * value))
  : M Response :=
  (* verify the user has permission to the badgeclass *)
  badgeclass ← get_object self request kwargs;
  if negb (has_object_permissions self request badgeclass) then
    mret (mkResponse HTTP_404_NOT_FOUND VNone)
  else
  match data request with
  | VDict body =>
      let create_notification :=
        default (VBool false) (dict_get body "create_notification") in
      (* update passed in assertions to include create_notification *)
      assertions ← lift (stamped create_notification (data request));
      (* save serializers *)
      context ← get_context_data request kwargs;
      let serializer := serializer_class assertions context in
      match _errors serializer with
      | Some errors =>
          let serializer :=
            mkV2ErrorSerializer errors (VList []) false "bad request" in
          mret (mkResponse HTTP_400_BAD_REQUEST (error_data serializer))
      | None =>
          new_instances ← serializer_save serializer (request_user request);
          _ ← for_each log_create new_instances;
          mret (mkResponse HTTP_201_CREATED (saved_data serializer new_instances))
      end
  | _ =>
      (* [request.data.get] raises AttributeError *)
      mret (mkResponse HTTP_400_BAD_REQUEST VNone)
  end.

End view.

End BatchAssertionsIssue.

(** ** Vocabulary of the further statements *)

(** The entry the token view answers with for an issuer and a token row. *)
Definition token_entry (issuer : string) (t : IssuerTokensList.TokenRow) : value :=
  VDict [("issuer", VStr issuer);
         ("token", VStr (IssuerTokensList.token t));
         ("expires", VInt (IssuerTokensList.expires t))].

(** The token row of an application (and its user) for an issuer. *)
Definition token_for (app : IssuerTokensList.Application) (issuer : string)
  (t : IssuerTokensList.TokenRow) : Prop :=
  IssuerTokensList.holder t = IssuerTokensList.application_owner app ∧
  IssuerTokensList.application t = IssuerTokensList.client_id app ∧
  IssuerTokensList.scope t = "rw:issuer:" +:+ issuer.

(** The user is on the staff of the issuer. *)
Definition member_of (db : IssuerTokensList.tables) (issuer user : string) : Prop :=
  ∃ r, r ∈ IssuerTokensList.staff db ∧
       IssuerTokensList.member_issuer r = issuer ∧
       IssuerTokensList.member_user r = user.

(** The issuer has its one staff row (when the application has a user) and
    its one token row for the application. *)
Definition settled (app : IssuerTokensList.Application)
  (db : IssuerTokensList.tables) (issuer : string) : Prop :=
  (∃ t, List.filter
          (IssuerTokensList.is_token (IssuerTokensList.application_owner app)
             (IssuerTokensList.client_id app)
             (IssuerTokensList.issuer_scope issuer))
          (IssuerTokensList.tokens db) = [t]) ∧
  (∀ u, IssuerTokensList.application_owner app = Some u →
        ∃ r, List.filter (IssuerTokensList.is_member issuer u)
               (IssuerTokensList.staff db) = [r]).

(** The entry of a settled issuer. *)
Definition stored_entry (app : IssuerTokensList.Application)
  (db : IssuerTokensList.tables) (issuer : string) : value :=
  match List.filter
          (IssuerTokensList.is_token (IssuerTokensList.application_owner app)
             (IssuerTokensList.client_id app)
             (IssuerTokensList.issuer_scope issuer))
          (IssuerTokensList.tokens db) with
  | [t] => token_entry issuer t
  | _ => VNone
  end.

(** A request body that asks for the issuers [ids]. *)
Definition asks_for (request : Request) (ids : list value) : Prop :=
  ∃ d, data request = VDict d ∧ dict_get d "issuers" = Some (VList ids).

(** Sample tables for the token view: three issuers, [app] owner of the
    first, and a token of the application for the second. *)
Definition sample_tables : IssuerTokensList.tables :=
  IssuerTokensList.mkTables
    ["issuer-1"; "issuer-2"; "issuer-3"]
    [IssuerTokensList.mkStaffRow "issuer-1" "app" "owner"]
    [IssuerTokensList.mkTokenRow (Some "app") "client-1" "rw:issuer:issuer-2"
       500 "kept"]
    100 0.

Definition sample_application : IssuerTokensList.Application :=
  IssuerTokensList.mkApplication "client-1" (Some "app").

(** The n-th random token is the n-th capital letter. *)
Definition sample_random (n : nat) : string :=
  String (ascii_of_nat (65 + n)) EmptyString.

Definition sample_token_data (entries : list value) : result value :=
  inr (VDict [("result", VList entries)]).

(** The third issuer is refused. *)
Definition sample_permitted (issuer : string) : bool :=
  bool_decide (issuer ≠ "issuer-3").

Definition sample_token_post (ids : list value) (db : IssuerTokensList.tables)
  : result Response * IssuerTokensList.tables :=
  IssuerTokensList.post sample_permitted sample_random sample_token_data
    (request_of "app" (VDict [("issuers", VList ids)]) [])
    sample_application db.

(** The sample tables after the application asked for its first two
    issuers: a token for the first, a membership in the second. *)
Definition sample_tables_after : IssuerTokensList.tables :=
  IssuerTokensList.mkTables
    ["issuer-1"; "issuer-2"; "issuer-3"]
    [IssuerTokensList.mkStaffRow "issuer-1" "app" "owner";
     IssuerTokensList.mkStaffRow "issuer-2" "app" "staff"]
    [IssuerTokensList.mkTokenRow (Some "app") "client-1" "rw:issuer:issuer-2"
       500 "kept";
     IssuerTokensList.mkTokenRow (Some "app") "client-1" "rw:issuer:issuer-1"
       3144960100 "A"]
    100 2.

Definition sample_token_answer : Response :=
  mkResponse 200
    (VDict [("result",
             VList [VDict [("issuer", VStr "issuer-1"); ("token", VStr "A");
                           ("expires", VInt 3144960100)];
                    VDict [("issuer", VStr "issuer-2"); ("token", VStr "kept");
                           ("expires", VInt 500)]])]).

(** The flag [BatchAssertionsIssue.post] stamps the assertions with:
    [request.data.get('create_notification', False)]. *)
Definition notification_flag (body : list (string * value)) : value :=
  default (VBool false) (dict_get body "create_notification").

(** Stand-ins for the serializer of the batch view: an assertion without a
    recipient is an error; saving issues one assertion per item, named after
    its position. *)
Definition sample_batch_serializer (assertions : list value)
  (context : list (string * value)) : BatchAssertionsIssue.Serializer :=
  BatchAssertionsIssue.mkSerializer
    (if forallb (λ a, bool_decide (is_Some (match a with
                                            | VDict d => dict_get d "recipient"
                                            | _ => None
                                            end))) assertions
     then None
     else Some (VList [VDict [("recipient", VList [VStr "This field is required."])]]))
    (λ created_by w,
       let new :=
         imap (λ k a,
                 assertion_of ("new-" +:+ sample_random k) "issuer-1"
                   (match a with
                    | VDict d =>
                        match dict_get d "recipient" with
                        | Some (VStr r) => r
                        | _ => ""
                        end
                    | _ => ""
                    end) None false None (clock w)) assertions in
       (inr new, set_badge_instances (λ t, (t ++ new)%list) w))
    (λ new, VList ((λ a, VStr (entity_id a)) <$> new)).

(** Creation events are logged as clock readings of the instance's
    update time. *)
Definition sample_log_create (a : BadgeInstance) : M unit :=
  emit (EvNow (updated_at a)).

Definition sample_batch_issue (permitted : bool) (body : value) : M Response :=
  BatchAssertionsIssue.post (entity_view (λ _, permitted)) (λ kwargs, kwargs)
    sample_batch_serializer sample_log_create sample_error_data
    (request_of "eve" body []) [("entity_id", VStr "badgeclass-1")].

Definition sample_batch_body : list (string * value) :=
  [("create_notification", VBool true);
   ("assertions",
    VList [VDict [("recipient", VStr "ann@example.org")];
           VDict [("recipient", VStr "bob@example.org");
                  ("create_notification", VBool false)]])].

Definition sample_batch_new : list BadgeInstance :=
  [assertion_of "new-A" "issuer-1" "ann@example.org" None false None 100;
   assertion_of "new-B" "issuer-1" "bob@example.org" None false None 100].

(** * Part II: the properties *)

(** ** Import: exactly one of the three fields *)

Section import_validate.

Import BackpackImportSerializerV2.

Implicit Types attrs : gmap string value.

(** Taking a key out of the dictionary takes its contribution out of the
    sum. *)
Lemma provided_delete attrs (k : string) :
  provided attrs = b2n (is_set attrs k) + provided (delete k attrs).
Proof.
  unfold provided, values, is_set.
  destruct (attrs !! k) as [v|] eqn:Hk.
  - rewrite <- (map_to_list_delete attrs k v Hk). simpl.
    destruct (truthy v); reflexivity.
  - rewrite delete_id by assumption. reflexivity.
Qed.

Lemma provided_empty : provided ∅ = 0.
Proof. unfold provided, values. rewrite map_to_list_empty. reflexivity. Qed.

Lemma provided_fields attrs :
  dom attrs ⊆ fields → provided attrs = fields_set attrs.
Proof.
  intros Hdom. unfold fields_set.
  rewrite (provided_delete attrs "url").
  rewrite (provided_delete (delete "url" attrs) "image").
  rewrite (provided_delete (delete "image" (delete "url" attrs)) "assertion").
  assert (Hempty : delete "assertion" (delete "image" (delete "url" attrs))
                   = (∅ : gmap string value)).
  { apply map_eq. intros k. rewrite lookup_empty.
    destruct (decide (k = "assertion")) as [->|Ha];
      [apply lookup_delete_eq|rewrite lookup_delete_ne by congruence].
    destruct (decide (k = "image")) as [->|Hi];
      [apply lookup_delete_eq|rewrite lookup_delete_ne by congruence].
    destruct (decide (k = "url")) as [->|Hu];
      [apply lookup_delete_eq|rewrite lookup_delete_ne by congruence].
    apply not_elem_of_dom. intros Hin. apply Hdom in Hin.
    unfold fields in Hin.
    rewrite !elem_of_union, !elem_of_singleton in Hin. tauto. }
  rewrite Hempty, provided_empty.
  unfold is_set.
  rewrite (lookup_delete_ne _ "url" "image") by discriminate.
  rewrite (lookup_delete_ne _ "image" "assertion") by discriminate.
  rewrite (lookup_delete_ne _ "url" "assertion") by discriminate.
  lia.
Qed.

Lemma validate_provided attrs :
  (provided attrs = 1 → validate attrs = inr attrs) ∧
  (provided attrs ≠ 1 → validate attrs = inl (ValidationError (VStr only_one))).
Proof.
  unfold validate. fold (provided attrs).
  split; intros H; case_bool_decide; congruence.
Qed.

(** C2.  For the attributes of an import request (a dictionary over the
    fields [url], [image] and [assertion]), [validate] raises the validation
    error when none of the three fields is set and when two or more are set,
    and it accepts the attributes exactly when one field is set. *)
Theorem validate_exactly_one attrs :
  dom attrs ⊆ fields →
  (fields_set attrs = 0 →
     validate attrs = inl (ValidationError (VStr only_one))) ∧
  ((2 ≤ fields_set attrs)%nat →
     validate attrs = inl (ValidationError (VStr only_one))) ∧
  (validate attrs = inr attrs ↔ fields_set attrs = 1).
Proof.
  intros Hdom. pose proof (provided_fields attrs Hdom) as Hcount.
  destruct (validate_provided attrs) as [Hok Herr].
  repeat split.
  - intros H0. apply Herr. lia.
  - intros H2. apply Herr. lia.
  - intros Hret. destruct (decide (provided attrs = 1)) as [|Hne]; [lia|].
    rewrite (Herr Hne) in Hret. discriminate.
  - intros H1. apply Hok. lia.
Qed.

Lemma validate_exactly_one_witness :
  dom ({[ "image" := VFile "badge.png" ]} : gmap string value) ⊆ fields ∧
  validate {[ "image" := VFile "badge.png" ]}
  = inr {[ "image" := VFile "badge.png" ]}.
Proof.
  assert (Hdom : dom ({[ "image" := VFile "badge.png" ]} : gmap string value)
                 ⊆ fields)
    by (apply (bool_decide_unpack _); vm_compute; exact I).
  split; [exact Hdom|].
  destruct (validate_exactly_one _ Hdom) as (_ & _ & Hone).
  apply Hone. vm_compute. reflexivity.
Defined.

(** C10.  [validate] counts true values, not keys: a field that is given
    with a false value (an empty assertion object, an empty string) counts
    like a field that is not given.  Removing such a field does not change
    the answer; one true field together with one false field passes; a false
    field alone fails. *)
Theorem validate_counts_truthiness attrs (k k' : string) (v v' : value) :
  attrs !! k = Some v → truthy v = false → truthy v' = true → k ≠ k' →
  (validate attrs = inr attrs ↔ validate (delete k attrs) = inr (delete k attrs)) ∧
  validate {[ k' := v'; k := v ]} = inr {[ k' := v'; k := v ]} ∧
  validate {[ k := v ]} = inl (ValidationError (VStr only_one)).
Proof.
  intros Hk Hv Hv' Hne.
  assert (Hone : provided ({[ k := v ]} : gmap string value) = 0).
  { rewrite (provided_delete _ k). unfold is_set.
    rewrite lookup_singleton_eq, Hv, delete_singleton_eq. apply provided_empty. }
  assert (Hsame : provided attrs = provided (delete k attrs)).
  { rewrite (provided_delete attrs k). unfold is_set. by rewrite Hk, Hv. }
  destruct (validate_provided attrs) as [Hok Herr].
  destruct (validate_provided (delete k attrs)) as [Hok' Herr'].
  split; [split|split].
  - intros Hret. apply Hok'.
    destruct (decide (provided attrs = 1)) as [Heq|Hneq]; [congruence|].
    rewrite (Herr Hneq) in Hret. discriminate Hret.
  - intros Hret. apply Hok.
    destruct (decide (provided (delete k attrs) = 1)) as [Heq|Hneq]; [congruence|].
    rewrite (Herr' Hneq) in Hret. discriminate Hret.
  - apply validate_provided.
    rewrite (provided_delete _ k'). unfold is_set.
    rewrite lookup_insert_eq, Hv', delete_insert_eq.
    rewrite delete_id by (apply lookup_singleton_ne; congruence).
    rewrite Hone. reflexivity.
  - apply validate_provided. rewrite Hone. discriminate.
Qed.

Lemma validate_counts_truthiness_witness :
  validate {[ "url" := VStr "https://example.org/a"; "assertion" := VDict [] ]}
  = inr {[ "url" := VStr "https://example.org/a"; "assertion" := VDict [] ]} ∧
  validate {[ "assertion" := VDict [] ]} = inl (ValidationError (VStr only_one)).
Proof.
  assert (Hne : "assertion" ≠ "url") by discriminate.
  assert (Hk : ({[ "url" := VStr "https://example.org/a"; "assertion" := VDict [] ]}
                : gmap string value) !! "assertion" = Some (VDict []))
    by (vm_compute; reflexivity).
  exact (proj2 (validate_counts_truthiness _
                  "assertion" "url" (VDict []) (VStr "https://example.org/a")
                  Hk eq_refl eq_refl Hne)).
Defined.

End import_validate.

(** ** Query flags *)

Lemma lower_ascii_1 c : lower_ascii c = "1"%char ↔ c = "1"%char.
Proof.
  destruct c as [[] [] [] [] [] [] [] []]; vm_compute;
    split; intros H; try reflexivity; discriminate H.
Qed.

Ltac letter_cases c :=
  destruct c as [[] [] [] [] [] [] [] []]; vm_compute;
  (split; [intros H; first [discriminate H | left; reflexivity | right; reflexivity]
          |intros [H|H]; first [reflexivity | discriminate H]]).

Lemma lower_ascii_t c : lower_ascii c = "t"%char ↔ c = "t"%char ∨ c = "T"%char.
Proof. letter_cases c. Qed.

Lemma lower_ascii_r c : lower_ascii c = "r"%char ↔ c = "r"%char ∨ c = "R"%char.
Proof. letter_cases c. Qed.

Lemma lower_ascii_u c : lower_ascii c = "u"%char ↔ c = "u"%char ∨ c = "U"%char.
Proof. letter_cases c. Qed.

Lemma lower_ascii_e c : lower_ascii c = "e"%char ↔ c = "e"%char ∨ c = "E"%char.
Proof. letter_cases c. Qed.

Lemma elem_of_pair {A} (x a b : A) : x ∈ [a; b] ↔ x = a ∨ x = b.
Proof. rewrite elem_of_cons, list_elem_of_singleton. reflexivity. Qed.

Lemma lower_truthy_string s : lower s ∈ ["1"; "true"] ↔ truthy_string s.
Proof.
  rewrite elem_of_pair. unfold truthy_string. split.
  - intros [H|H].
    + left. destruct s as [|c [|c' s']]; try discriminate H.
      simpl in H. injection H as H. apply (proj1 (lower_ascii_1 _)) in H. by subst.
    + right. destruct s as [|c1 [|c2 [|c3 [|c4 [|c5 s']]]]]; try discriminate H.
      simpl in H. injection H as H1 H2 H3 H4.
      exists c1, c2, c3, c4. rewrite !elem_of_pair.
      rewrite <- lower_ascii_t, <- lower_ascii_r, <- lower_ascii_u, <- lower_ascii_e.
      done.
  - intros [->|(c1 & c2 & c3 & c4 & -> & H1 & H2 & H3 & H4)]; [by left|right].
    rewrite elem_of_pair in H1, H2, H3, H4.
    apply (proj2 (lower_ascii_t _)) in H1. apply (proj2 (lower_ascii_r _)) in H2.
    apply (proj2 (lower_ascii_u _)) in H3. apply (proj2 (lower_ascii_e _)) in H4.
    simpl. by rewrite H1, H2, H3, H4.
Qed.

Lemma flag_spec request name :
  flag (query_params request) name = true ↔ flag_given request name.
Proof.
  unfold flag, flag_given. rewrite bool_decide_eq_true, lower_truthy_string.
  destruct (QueryDict.get (query_params request) name) as [s|]; simpl.
  - split; [intros H; by exists s|intros (s' & [= ->] & H); done].
  - split; [intros [H|(?&?&?&?&H&_)]; discriminate H|intros (s' & H & _); discriminate H].
Qed.

Lemma flag_absent request name :
  QueryDict.get (query_params request) name = None → ¬ flag_given request name.
Proof. intros H (s & Hs & _). congruence. Qed.

(** ** Querysets over the table alone *)

Lemma select_plain qs db a :
  existsb Q_spans_relation (wheres qs) = false →
  a ∈ select qs db ↔
  a ∈ badge_instances db ∧
  Forall (λ q, eval_Q (mkRow a None None None) q = true) (wheres qs).
Proof.
  intros Hplain. unfold select, rows. rewrite Hplain.
  assert (Hsel : a ∈ r_instance <$>
                   filter (λ r, forallb (eval_Q r) (wheres qs))
                     ((λ a, mkRow a None None None) <$> badge_instances db)
                 ↔ a ∈ badge_instances db ∧
                   Forall (λ q, eval_Q (mkRow a None None None) q = true) (wheres qs)).
  { rewrite list_elem_of_fmap. setoid_rewrite list_elem_of_filter.
    setoid_rewrite list_elem_of_fmap. setoid_rewrite forallb_True.
    split.
    - intros (r & -> & Hall & b & -> & Hb). simpl. split; [exact Hb|].
      eapply Forall_impl; [exact Hall|]. intros q Hq. by apply Is_true_true.
    - intros [Ha Hall]. exists (mkRow a None None None). split; [reflexivity|].
      split; [|by exists a].
      eapply Forall_impl; [exact Hall|]. intros q Hq. by apply Is_true_true. }
  destruct (is_distinct qs); [rewrite elem_of_remove_dups|]; exact Hsel.
Qed.

Section list_views.

Variable self : View string.

Lemma eval_expiry_filter (a : BadgeInstance) (t : Z) r :
  r_instance r = a →
  eval_Q r (Qor (Qatom (expires_at__gte t)) (Qatom (expires_at__isnull true)))
  = true ↔ ¬ expired t a.
Proof.
  intros <-. simpl. unfold expired. rewrite orb_true_iff.
  destruct (expires_at (r_instance r)) as [e|].
  - rewrite !bool_decide_eq_true. split.
    + intros [Hle|[Hsome _]] (e' & [= <-] & Hlt); [lia|].
      by specialize (Hsome (mk_is_Some _ _ eq_refl)).
    + intros Hnot. left. destruct (decide (t ≤ e)%Z); [done|].
      exfalso. apply Hnot. exists e. split; [done|lia].
  - split; [intros _ (e & He & _); discriminate He|].
    intros _. right. apply bool_decide_eq_true.
    split; [intros [e He]; discriminate He|done].
Qed.

(** C4.  The queryset of [IssuerBadgeInstanceList] holds the assertions of
    the issuer; without query flags none of them is revoked and none has an
    expiry date in the past; [include_expired] given as [1] or [true] (in
    any case) lifts the expiry filter only, [include_revoked] lifts the
    revocation filter only, each whatever the other is; and [recipient]
    parameters keep the assertions of these recipients only. *)
Theorem issuer_list_filters request kwargs w i w1 :
  get_object self request kwargs w = (inr i, w1) →
  ∃ qs w2,
    IssuerBadgeInstanceList.get_queryset self request kwargs w = (inr qs, w2) ∧
    ∀ db a,
      a ∈ select qs db ↔
      a ∈ badge_instances db ∧ issuer a = i ∧
      (recipients request = [] ∨ recipient_identifier a ∈ recipients request) ∧
      (flag_given request "include_expired" ∨ ¬ expired (clock w1) a) ∧
      (flag_given request "include_revoked" ∨ revoked a = false).
Proof.
  intros Hobj. unfold IssuerBadgeInstanceList.get_queryset.
  unfold mbind, M_bind. rewrite Hobj.
  repeat setoid_rewrite <- flag_spec. fold (recipients request).
  destruct (flag (query_params request) "include_expired") eqn:He,
           (flag (query_params request) "include_revoked") eqn:Hr,
           (recipients request) as [|x xs] eqn:Hrec; simpl;
    eexists _, _; (split; [reflexivity|]); intros db a;
    (rewrite select_plain by reflexivity); simpl;
    rewrite ?Forall_cons, ?Forall_nil.
  all: rewrite ?(eval_expiry_filter a) by reflexivity.
  all: simpl; rewrite ?bool_decide_eq_true.
  all: naive_solver.
Qed.

Lemma badgeclass_list_queryset request kwargs w qs w' :
  BadgeInstanceList.get_queryset self request kwargs w = (inr qs, w') →
  ∃ b, ∀ db a,
    a ∈ select qs db ↔
    a ∈ badge_instances db ∧ badgeclass a = b ∧ revoked a = false ∧
    (recipients request = [] ∨ recipient_identifier a ∈ recipients request).
Proof.
  unfold BadgeInstanceList.get_queryset, mbind, M_bind.
  destruct (get_object self request kwargs w) as [[e|b] w1]; [discriminate|].
  fold (recipients request).
  destruct (recipients request) as [|x xs] eqn:Hrec; simpl;
    intros [= <- <-]; exists b; intros db a;
    (rewrite select_plain by reflexivity); simpl;
    rewrite ?Forall_cons, ?Forall_nil; simpl;
    rewrite ?andb_true_iff, ?bool_decide_eq_true; naive_solver.
Qed.

(** C9.  Whatever the query string of the request is, the queryset of
    [BadgeInstanceList] holds no revoked assertion. *)
Theorem badgeclass_list_excludes_revoked request kwargs w qs w' :
  BadgeInstanceList.get_queryset self request kwargs w = (inr qs, w') →
  ∀ db a, a ∈ select qs db → revoked a = false.
Proof.
  intros Hqs db a Ha.
  destruct (badgeclass_list_queryset _ _ _ _ _ Hqs) as [b Hb].
  apply Hb in Ha. tauto.
Qed.

End list_views.

Lemma issuer_list_filters_witness :
  ∃ qs w2,
    IssuerBadgeInstanceList.get_queryset (entity_view (λ _, true))
      (request_of "eve" VNone [("include_revoked", "True")])
      [("entity_id", VStr "issuer-1")] sample_world = (inr qs, w2) ∧
    ∀ db a,
      a ∈ select qs db ↔
      a ∈ badge_instances db ∧ issuer a = "issuer-1" ∧
      (recipients (request_of "eve" VNone [("include_revoked", "True")]) = [] ∨
       recipient_identifier a
       ∈ recipients (request_of "eve" VNone [("include_revoked", "True")])) ∧
      (flag_given (request_of "eve" VNone [("include_revoked", "True")])
         "include_expired" ∨ ¬ expired (clock sample_world) a) ∧
      (flag_given (request_of "eve" VNone [("include_revoked", "True")])
         "include_revoked" ∨ revoked a = false).
Proof.
  apply (issuer_list_filters (entity_view (λ _, true))
           (request_of "eve" VNone [("include_revoked", "True")])
           [("entity_id", VStr "issuer-1")] sample_world "issuer-1" sample_world).
  reflexivity.
Defined.

(** The four combinations of the flags on the sample table, and a recipient
    filter. *)
Example issuer_list_no_flags :
  listed (IssuerBadgeInstanceList.get_queryset (entity_view (λ _, true))
            (request_of "eve" VNone []) [("entity_id", VStr "issuer-1")])
    sample_world = ["A"].
Proof. vm_compute. reflexivity. Qed.

Example issuer_list_include_revoked :
  listed (IssuerBadgeInstanceList.get_queryset (entity_view (λ _, true))
            (request_of "eve" VNone [("include_revoked", "True")])
            [("entity_id", VStr "issuer-1")])
    sample_world = ["A"; "B"].
Proof. vm_compute. reflexivity. Qed.

Example issuer_list_include_expired :
  listed (IssuerBadgeInstanceList.get_queryset (entity_view (λ _, true))
            (request_of "eve" VNone [("include_expired", "1")])
            [("entity_id", VStr "issuer-1")])
    sample_world = ["A"; "C"].
Proof. vm_compute. reflexivity. Qed.

Example issuer_list_include_both :
  listed (IssuerBadgeInstanceList.get_queryset (entity_view (λ _, true))
            (request_of "eve" VNone
               [("include_expired", "TRUE"); ("include_revoked", "1");
                ("recipient", "bob@example.org"); ("recipient", "cy@example.org")])
            [("entity_id", VStr "issuer-1")])
    sample_world = ["B"; "C"].
Proof. vm_compute. reflexivity. Qed.

Example issuer_list_other_words_are_not_flags :
  listed (IssuerBadgeInstanceList.get_queryset (entity_view (λ _, true))
            (request_of "eve" VNone
               [("include_expired", "yes"); ("include_revoked", "on")])
            [("entity_id", VStr "issuer-1")])
    sample_world = ["A"].
Proof. vm_compute. reflexivity. Qed.

Lemma badgeclass_list_excludes_revoked_witness :
  BadgeInstanceList.get_queryset (entity_view (λ _, true))
    (request_of "eve" VNone [("include_revoked", "true")])
    [("entity_id", VStr "badgeclass-1")] sample_world
  = (inr (mkQuerySet [Qand (Qatom (badgeclass_exact "badgeclass-1"))
                           (Qatom (revoked_exact false))] false),
     sample_world) ∧
  ∀ a,
    a ∈ select (mkQuerySet [Qand (Qatom (badgeclass_exact "badgeclass-1"))
                                 (Qatom (revoked_exact false))] false)
          sample_world →
    revoked a = false.
Proof.
  assert (Hqs : BadgeInstanceList.get_queryset (entity_view (λ _, true))
                  (request_of "eve" VNone [("include_revoked", "true")])
                  [("entity_id", VStr "badgeclass-1")] sample_world
                = (inr (mkQuerySet [Qand (Qatom (badgeclass_exact "badgeclass-1"))
                                         (Qatom (revoked_exact false))] false),
                   sample_world)) by reflexivity.
  split; [exact Hqs|].
  exact (badgeclass_list_excludes_revoked (entity_view (λ _, true)) _ _ _ _ _ Hqs
           sample_world).
Defined.

Example badgeclass_list_ignores_include_revoked :
  listed (BadgeInstanceList.get_queryset (entity_view (λ _, true))
            (request_of "eve" VNone
               [("include_revoked", "true"); ("revoked", "true")])
            [("entity_id", VStr "badgeclass-1")])
    sample_world = ["A"; "C"; "D"].
Proof. vm_compute. reflexivity. Qed.

(** ** Querysets that follow relations *)

Lemma elem_of_left_join {A} (l : list A) (x : option A) :
  x ∈ left_join l ↔ (l = [] ∧ x = None) ∨ (∃ y, x = Some y ∧ y ∈ l).
Proof.
  destruct l as [|z l].
  - simpl. rewrite list_elem_of_singleton. split.
    + intros ->. by left.
    + intros [[_ ->]|(y & _ & Hy)]; [done|]. by apply elem_of_nil in Hy.
  - change (left_join (z :: l)) with (Some <$> z :: l).
    rewrite list_elem_of_fmap. split.
    + intros (y & -> & Hy). right. by exists y.
    + intros [[H _]|(y & -> & Hy)]; [discriminate H|]. by exists y.
Qed.

Lemma left_join_inhabited {A} (l : list A) : ∃ x, x ∈ left_join l.
Proof.
  destruct l as [|z l].
  - exists None. apply elem_of_left_join. by left.
  - exists (Some z). apply elem_of_left_join. right. exists z.
    split; [done|]. apply elem_of_cons. by left.
Qed.

Lemma elem_of_joined w a r :
  r ∈ joined w a ↔
  r_instance r = a ∧
  r_token r ∈ left_join (filter (λ t, user a = Some (token_user t)) (access_tokens w)) ∧
  r_scope r ∈ left_join (from_option scopes [] (r_token r)) ∧
  r_staff r ∈ left_join (filter (λ m, staff_issuer m = issuer a) (issuer_staff w)).
Proof.
  unfold joined. rewrite list_elem_of_bind. split.
  - intros (t & Hr & Ht). apply list_elem_of_bind in Hr as (s & Hr & Hs).
    apply list_elem_of_bind in Hr as (m & Hr & Hm).
    apply list_elem_of_singleton in Hr as ->. done.
  - intros (<- & Ht & Hs & Hm). exists (r_token r). split; [|done].
    apply list_elem_of_bind. exists (r_scope r). split; [|done].
    apply list_elem_of_bind. exists (r_staff r). split; [|done].
    apply list_elem_of_singleton. by destruct r.
Qed.

Lemma select_joined qs db a :
  existsb Q_spans_relation (wheres qs) = true →
  a ∈ select qs db ↔
  a ∈ badge_instances db ∧
  ∃ r, r ∈ joined db a ∧ Forall (λ q, eval_Q r q = true) (wheres qs).
Proof.
  intros Hspans. unfold select, rows. rewrite Hspans.
  assert (Hsel : a ∈ r_instance <$>
                   filter (λ r, forallb (eval_Q r) (wheres qs))
                     (badge_instances db ≫= joined db)
                 ↔ a ∈ badge_instances db ∧
                   ∃ r, r ∈ joined db a ∧
                        Forall (λ q, eval_Q r q = true) (wheres qs)).
  { split.
    - intros (r & -> & Hsel)%list_elem_of_fmap.
      apply list_elem_of_filter in Hsel as [Hall Hr].
      apply list_elem_of_bind in Hr as (b & Hr & Hb).
      pose proof (proj1 (elem_of_joined _ _ _) Hr) as (<- & _).
      split; [exact Hb|]. exists r. split; [exact Hr|].
      apply forallb_True in Hall.
      eapply Forall_impl; [exact Hall|]. intros q Hq. by apply Is_true_true.
    - intros (Ha & r & Hr & Hall).
      pose proof (proj1 (elem_of_joined _ _ _) Hr) as (Hinst & _).
      apply list_elem_of_fmap. exists r. split; [done|].
      apply list_elem_of_filter. split.
      + apply forallb_True.
        eapply Forall_impl; [exact Hall|]. intros q Hq. by apply Is_true_true.
      + apply list_elem_of_bind. by exists a. }
  destruct (is_distinct qs); [rewrite elem_of_remove_dups|]; exact Hsel.
Qed.

Lemma select_distinct qs db : is_distinct qs = true → NoDup (select qs db).
Proof. intros H. unfold select. rewrite H. apply NoDup_remove_dups. Qed.

(** ** The change feed *)

Lemma eval_visible db u r a :
  r ∈ joined db a →
  eval_Q r (Qor (Qand (Qatom (user__accesstoken__application__user u))
                      (Qatom (user__accesstoken__accesstokenscope__scope__in
                                ["r:backpack"; "rw:backpack"])))
                (Qatom (issuer__issuerstaff__user u))) = true →
  visible db u a.
Proof.
  intros (Hinst & Ht & Hs & Hm)%elem_of_joined. simpl.
  rewrite orb_true_iff, andb_true_iff. intros [[Happ Hscope]|Hstaff].
  - left. destruct (r_token r) as [t|]; [|discriminate Happ].
    destruct (r_scope r) as [s|]; [|discriminate Hscope].
    apply bool_decide_eq_true in Happ, Hscope.
    apply elem_of_left_join in Ht as [[_ Hnone]|(t' & [= <-] & Ht)];
      [discriminate Hnone|].
    apply list_elem_of_filter in Ht as [Huser Ht].
    apply elem_of_left_join in Hs as [[_ Hnone]|(s' & [= <-] & Hs)];
      [discriminate Hnone|].
    simpl in Hs. by exists t, s.
  - right. destruct (r_staff r) as [m|]; [|discriminate Hstaff].
    apply bool_decide_eq_true in Hstaff.
    apply elem_of_left_join in Hm as [[_ Hnone]|(m' & [= <-] & Hm)];
      [discriminate Hnone|].
    apply list_elem_of_filter in Hm as [Hissuer Hm]. by exists m.
Qed.

Lemma visible_eval db u a :
  visible db u a →
  ∃ r, r ∈ joined db a ∧
    eval_Q r (Qor (Qand (Qatom (user__accesstoken__application__user u))
                        (Qatom (user__accesstoken__accesstokenscope__scope__in
                                  ["r:backpack"; "rw:backpack"])))
                  (Qatom (issuer__issuerstaff__user u))) = true.
Proof.
  intros [(t & s & Ht & Huser & Happ & Hs & Hscope)|(m & Hm & Hissuer & Hstaff)].
  - destruct (left_join_inhabited
                (filter (λ m, staff_issuer m = issuer a) (issuer_staff db)))
      as [m Hm].
    exists (mkRow a (Some t) (Some s) m). split.
    + apply elem_of_joined. simpl. repeat split; [| |exact Hm].
      * apply elem_of_left_join. right. exists t. split; [done|].
        by apply list_elem_of_filter.
      * apply elem_of_left_join. right. by exists s.
    + simpl. rewrite orb_true_iff, andb_true_iff, !bool_decide_eq_true. by left.
  - destruct (left_join_inhabited
                (filter (λ t, user a = Some (token_user t)) (access_tokens db)))
      as [t Ht].
    destruct (left_join_inhabited (from_option scopes [] t)) as [s Hs].
    exists (mkRow a t s (Some m)). split.
    + apply elem_of_joined. simpl. repeat split; [exact Ht|exact Hs|].
      apply elem_of_left_join. right. exists m. split; [done|].
      by apply list_elem_of_filter.
    + simpl. rewrite orb_true_iff, !bool_decide_eq_true. by right.
Qed.

Lemma changed_since_rows request since db a :
  a ∈ select (AssertionsChangedSince.get_queryset request since) db ↔
  a ∈ badge_instances db ∧ visible db (request_user request) a ∧
  ∀ s, since = Some s → (s < updated_at a)%Z.
Proof.
  rewrite select_joined by (destruct since; reflexivity).
  unfold AssertionsChangedSince.get_queryset. destruct since as [s|]; simpl.
  - split.
    + intros (Ha & r & Hr & Hall). apply Forall_cons in Hall as [Hq _].
      simpl in Hq. apply andb_true_iff in Hq as [Hvis Hsince].
      split; [exact Ha|]. split; [by eapply eval_visible|].
      intros s' [= <-]. apply bool_decide_eq_true in Hsince.
      by pose proof (proj1 (elem_of_joined _ _ _) Hr) as (<- & _).
    + intros (Ha & Hvis & Hsince). split; [exact Ha|].
      destruct (visible_eval _ _ _ Hvis) as (r & Hr & Hq).
      exists r. split; [exact Hr|]. apply Forall_cons. split; [|by apply Forall_nil].
      simpl. apply andb_true_iff. split; [exact Hq|].
      apply bool_decide_eq_true.
      pose proof (proj1 (elem_of_joined _ _ _) Hr) as (-> & _). by apply Hsince.
  - split.
    + intros (Ha & r & Hr & Hall). apply Forall_cons in Hall as [Hq _].
      split; [exact Ha|]. split; [by eapply eval_visible|]. intros s' [=].
    + intros (Ha & Hvis & _). split; [exact Ha|].
      destruct (visible_eval _ _ _ Hvis) as (r & Hr & Hq).
      exists r. split; [exact Hr|]. apply Forall_cons. split; [exact Hq|by apply Forall_nil].
Qed.

Lemma dict_get_set_eq d k v : dict_get (dict_set d k v) k = Some v.
Proof.
  induction d as [|[k' v'] d IH]; simpl.
  - by rewrite decide_True.
  - destruct (decide (k' = k)) as [->|Hne]; simpl.
    + by rewrite decide_True.
    + by rewrite decide_False.
Qed.

Lemma dict_get_set_ne d k k' v :
  k ≠ k' → dict_get (dict_set d k v) k' = dict_get d k'.
Proof.
  intros Hne. induction d as [|[k0 v0] d IH]; simpl.
  - by rewrite decide_False.
  - destruct (decide (k0 = k)) as [->|Hne0]; simpl.
    + by rewrite !decide_False.
    + destruct (decide (k0 = k')); [done|exact IH].
Qed.

Section changed_since.

Variable paginate : Request → list BadgeInstance → list BadgeInstance.
Variable super_to_representation : list BadgeInstance → list (string * value).
Variable isoformat : Z → string.
Variable isoparse : string → option Z.
Variable error_data : V2ErrorSerializer → value.


End changed_since.


(** The feed of [app] on the sample data: Ann's assertions through her
    backpack token and the assertions of the second issuer; after second 25
    only [D] is left; the timestamp is the clock's 100 seconds. *)
Example changed_since_sample :
  sample_changed_since [("since", "1970-01-01T00:00:25+00:00")] sample_world
  = (inr (mkResponse 200
            (VDict [("result", VList [VStr "D"]);
                    ("timestamp", VStr "1970-01-01T00:01:40+00:00")])),
     mkWorld (badge_instances sample_world) (access_tokens sample_world)
       (issuer_staff sample_world) 100 [EvNow 100; EvQuery ["D"]]).
Proof. vm_compute. reflexivity. Qed.

Example changed_since_strict :
  fst (sample_changed_since [("since", "1970-01-01T00:00:40+00:00")] sample_world)
  = inr (mkResponse 200
           (VDict [("result", VList []);
                   ("timestamp", VStr "1970-01-01T00:01:40+00:00")])).
Proof. vm_compute. reflexivity. Qed.

Example changed_since_everything :
  fst (sample_changed_since [] sample_world)
  = inr (mkResponse 200
           (VDict [("result", VList [VStr "A"; VStr "D"]);
                   ("timestamp", VStr "1970-01-01T00:01:40+00:00")])).
Proof. vm_compute. reflexivity. Qed.

Example changed_since_malformed :
  sample_changed_since [("since", "yesterday")] sample_world
  = (inr (mkResponse 400
            (VDict [("status", VDict [("success", VBool false);
                                      ("description", VStr "bad request")]);
                    ("fieldErrors",
                     VDict [("since",
                             VList [VStr "must be ISO-8601 format with time zone"])]);
                    ("validationErrors", VList [])])),
     sample_world).
Proof. vm_compute. reflexivity. Qed.


(** ** Saving rows *)

Lemma elem_of_replace_row a t : a ∈ replace_row a t.
Proof.
  induction t as [|b t IH]; simpl.
  - by apply list_elem_of_singleton.
  - destruct (decide (entity_id b = entity_id a)); apply elem_of_cons; auto.
Qed.

(** Saving an instance that has a row adds no row. *)
Lemma replace_row_ids a t :
  entity_id a ∈ entity_id <$> t →
  entity_id <$> replace_row a t = entity_id <$> t.
Proof.
  induction t as [|b t IH]; simpl.
  - intros H. by apply elem_of_nil in H.
  - intros H. destruct (decide (entity_id b = entity_id a)) as [Heq|Hne]; simpl.
    + by rewrite Heq.
    + f_equal. apply IH. apply elem_of_cons in H as [H|H]; [congruence|done].
Qed.

Lemma replace_row_other a t b :
  entity_id b ≠ entity_id a → b ∈ replace_row a t ↔ b ∈ t.
Proof.
  intros Hne. induction t as [|c t IH]; simpl.
  - rewrite list_elem_of_singleton, elem_of_nil. split; [intros ->; done|done].
  - destruct (decide (entity_id c = entity_id a)) as [Heq|Hc].
    + rewrite !elem_of_cons. split; intros [->|H]; auto; congruence.
    + rewrite !elem_of_cons, IH. done.
Qed.

(** ** Accepting an assertion *)

(** C7.  The acceptance serializer validates a body only when its
    [acceptance] is the string [Accepted].  Its [update], whatever the
    instance was and whatever the validated data are, returns the instance
    with acceptance [Accepted], stores it in the instance's row, and
    publishes the owning user once when there is one, and nobody
    otherwise. *)
Theorem acceptance_update instance validated_data w :
  (∀ body validated,
     BackpackAssertionAcceptanceSerializerV2.run_validation body = inr validated ↔
     (∃ d, body = VDict d ∧ dict_get d "acceptance" = Some (VStr "Accepted")) ∧
     validated = [("acceptance", VStr "Accepted")]) ∧
  ∃ w',
    BackpackAssertionAcceptanceSerializerV2.update instance validated_data w
    = (inr (set_acceptance "Accepted" instance), w') ∧
    acceptance (set_acceptance "Accepted" instance) = "Accepted" ∧
    badge_instances w'
    = replace_row (set_acceptance "Accepted" instance) (badge_instances w) ∧
    set_acceptance "Accepted" instance ∈ badge_instances w' ∧
    trace w'
    = (trace w ++ match user instance with
                  | Some u => [EvPublish u]
                  | None => []
                  end)%list.
Proof.
  split.
  - intros body validated.
    unfold BackpackAssertionAcceptanceSerializerV2.run_validation,
      BackpackAssertionAcceptanceSerializerV2.acceptance_field, ChoiceField,
      ACCEPTANCE_ACCEPTED.
    split.
    + destruct body as [| | | | |d|]; try discriminate.
      destruct (dict_get d "acceptance") as [[| | |s| | |]|] eqn:Hget;
        try discriminate.
      case_bool_decide as Hin; [|discriminate].
      apply list_elem_of_singleton in Hin as ->.
      intros [= <-]. split; [by exists d|done].
    + intros [(d & -> & Hget) ->]. rewrite Hget.
      rewrite bool_decide_eq_true_2 by (by apply list_elem_of_singleton). done.
  - unfold BackpackAssertionAcceptanceSerializerV2.update.
    destruct (user instance) as [u|] eqn:Hu; simpl; rewrite Hu;
      eexists; (split; [reflexivity|]); simpl;
      (split; [reflexivity|]); (split; [reflexivity|]);
      (split; [apply elem_of_replace_row|]).
    + reflexivity.
    + by rewrite app_nil_r.
Qed.

Example acceptance_update_owned :
  BackpackAssertionAcceptanceSerializerV2.update valid_assertion [] sample_world
  = (inr (set_acceptance "Accepted" valid_assertion),
     mkWorld [set_acceptance "Accepted" valid_assertion; revoked_assertion;
              expired_assertion; foreign_assertion]
       (access_tokens sample_world) (issuer_staff sample_world) 100
       [EvPublish "ann"]).
Proof. vm_compute. reflexivity. Qed.

Example acceptance_update_unowned :
  BackpackAssertionAcceptanceSerializerV2.update expired_assertion [] sample_world
  = (inr (set_acceptance "Accepted" expired_assertion),
     mkWorld [valid_assertion; revoked_assertion;
              set_acceptance "Accepted" expired_assertion; foreign_assertion]
       (access_tokens sample_world) (issuer_staff sample_world) 100 []).
Proof. vm_compute. reflexivity. Qed.

Example acceptance_rejects_other_values :
  BackpackAssertionAcceptanceSerializerV2.run_validation
    (VDict [("acceptance", VStr "Rejected")]) = inl invalid_choice ∧
  BackpackAssertionAcceptanceSerializerV2.run_validation
    (VDict [("acceptance", VStr "accepted")]) = inl invalid_choice ∧
  BackpackAssertionAcceptanceSerializerV2.run_validation
    (VDict [("acceptance", VBool true)]) = inl invalid_choice ∧
  BackpackAssertionAcceptanceSerializerV2.run_validation (VDict []) = inl required.
Proof. repeat split. Qed.

(** ** Importing an assertion *)

Section import_create.

Variable get_or_create_assertion : gmap string value → M (BadgeInstance * bool).

(** C3.  When the helper answers with an instance it did not create,
    [create] raises the validation error with the name [DUPLICATE_BADGE]
    instead of returning; the instance is stored with acceptance
    [Accepted], and when it had a row the table has the same rows as the
    helper left (no second instance).  When the helper raises a Django
    validation error, [create] raises a REST-framework validation error with
    the same messages.  An instance the helper created is returned. *)
Theorem import_create validated_data w outcome w1 :
  get_or_create_assertion (helper_kwargs validated_data) w = (outcome, w1) →
  match outcome with
  | inr (instance, false) =>
      let accepted := set_acceptance "Accepted" instance in
      ∃ w',
        BackpackImportSerializerV2.create get_or_create_assertion validated_data w
        = (inl (ValidationError BackpackImportSerializerV2.duplicate_badge), w') ∧
        (∃ description,
           BackpackImportSerializerV2.duplicate_badge
           = VList [VDict [("name", VStr "DUPLICATE_BADGE");
                           ("description", VStr description)]]) ∧
        acceptance accepted = "Accepted" ∧
        accepted ∈ badge_instances w' ∧
        badge_instances w' = replace_row accepted (badge_instances w1) ∧
        (entity_id instance ∈ entity_id <$> badge_instances w1 →
         entity_id <$> badge_instances w' = entity_id <$> badge_instances w1)
  | inr (instance, true) =>
      BackpackImportSerializerV2.create get_or_create_assertion validated_data w
      = (inr instance, w1)
  | inl (DjangoValidationError messages) =>
      BackpackImportSerializerV2.create get_or_create_assertion validated_data w
      = (inl (ValidationError (VList (VStr <$> messages))), w1)
  | inl e =>
      BackpackImportSerializerV2.create get_or_create_assertion validated_data w
      = (inl e, w1)
  end.
Proof.
  intros Hhelper. unfold BackpackImportSerializerV2.create, try_except.
  unfold mbind, M_bind. fold (helper_kwargs validated_data). rewrite Hhelper.
  destruct outcome as [e|[instance created]].
  - destruct e; reflexivity.
  - destruct created; simpl; [reflexivity|].
    eexists. split; [reflexivity|]. simpl.
    split; [by eexists|]. split; [reflexivity|].
    split; [apply elem_of_replace_row|]. split; [reflexivity|].
    intros Hrow. by apply replace_row_ids.
Qed.

End import_create.

Lemma import_create_witness :
  sample_helper (helper_kwargs {[ "url" := VStr "A" ]}) sample_world
  = (inr (valid_assertion, false), sample_world) ∧
  ∃ w',
    BackpackImportSerializerV2.create sample_helper {[ "url" := VStr "A" ]}
      sample_world
    = (inl (ValidationError BackpackImportSerializerV2.duplicate_badge), w') ∧
    (∃ description,
       BackpackImportSerializerV2.duplicate_badge
       = VList [VDict [("name", VStr "DUPLICATE_BADGE");
                       ("description", VStr description)]]) ∧
    acceptance (set_acceptance "Accepted" valid_assertion) = "Accepted" ∧
    set_acceptance "Accepted" valid_assertion ∈ badge_instances w' ∧
    badge_instances w'
    = replace_row (set_acceptance "Accepted" valid_assertion)
        (badge_instances sample_world) ∧
    (entity_id valid_assertion ∈ entity_id <$> badge_instances sample_world →
     entity_id <$> badge_instances w' = entity_id <$> badge_instances sample_world).
Proof.
  assert (Hhelper : sample_helper (helper_kwargs {[ "url" := VStr "A" ]}) sample_world
                    = (inr (valid_assertion, false), sample_world))
    by (vm_compute; reflexivity).
  split; [exact Hhelper|].
  exact (import_create sample_helper {[ "url" := VStr "A" ]} sample_world
           (inr (valid_assertion, false)) sample_world Hhelper).
Defined.

Example import_again :
  BackpackImportSerializerV2.create sample_helper {[ "url" := VStr "A" ]}
    sample_world
  = (inl (ValidationError BackpackImportSerializerV2.duplicate_badge),
     mkWorld [set_acceptance "Accepted" valid_assertion; revoked_assertion;
              expired_assertion; foreign_assertion]
       (access_tokens sample_world) (issuer_staff sample_world) 100 []).
Proof. vm_compute. reflexivity. Qed.

Example import_refused :
  BackpackImportSerializerV2.create sample_helper
    {[ "assertion" := VDict [("id", VStr "urn:uuid:0")] ]} sample_world
  = (inl (ValidationError
            (VList [VStr "no assertion found"; VStr "nothing to verify"])),
     sample_world).
Proof. vm_compute. reflexivity. Qed.

Example import_new :
  fst (BackpackImportSerializerV2.create sample_helper {[ "url" := VStr "Z" ]}
         sample_world)
  = inr (assertion_of "Z" "issuer-1" "ann@example.org" (Some "ann") false None 100).
Proof. vm_compute. reflexivity. Qed.

(** ** Revoking one assertion *)

Section revoke_one.

Variable self : View BadgeInstance.

(** C6.  [delete] on an assertion.  When the lookup of the entity framework
    raises [Http404] (no assertion has the id, or the object permissions
    refuse it), so does [delete]: status 404; when the lookup hands over an
    assertion and the view's own object-permission check fails, the answer is
    status 404.  With permission, a revocation reason that is missing or
    empty raises a validation error (status 400) on the field
    [revocation_reason]; with a reason, an assertion that is already revoked
    raises the message of the revoke error as a validation error (status
    400); in these cases the table is as the lookup left it.  Otherwise the
    answer is status 200 with the serializer's data of the revoked
    assertion, and the table holds the assertion revoked with the reason,
    the other assertions being as they were. *)
Theorem delete_outcomes request kwargs w :
  (∀ w1, get_object self request kwargs w = (inl Http404, w1) →
     BadgeInstanceDetail.delete self request kwargs w = (inl Http404, w1) ∧
     status_code Http404 = 404%Z) ∧
  (∀ cached_get,
     get_object self
     = VersionedObjectMixin.get_object cached_get (has_object_permissions self) →
     (cached_get kwargs w = None ∨
      ∃ a, cached_get kwargs w = Some a ∧
           has_object_permissions self request a = false) →
     BadgeInstanceDetail.delete self request kwargs w = (inl Http404, w)) ∧
  (∀ assertion w1,
     get_object self request kwargs w = (inr assertion, w1) →
     (has_object_permissions self request assertion = false →
      BadgeInstanceDetail.delete self request kwargs w
      = (inr (mkResponse 404 VNone), w1)) ∧
     (∀ reason,
        has_object_permissions self request assertion = true →
        py_get (data request) "revocation_reason" = inr reason →
        (truthy reason = false →
         ∃ e, BadgeInstanceDetail.delete self request kwargs w = (inl e, w1) ∧
              e = ValidationError
                    (VDict [("revocation_reason", VStr "This field is required")]) ∧
              status_code e = 400%Z) ∧
        (truthy reason = true → revoked assertion = true →
         ∃ e, BadgeInstanceDetail.delete self request kwargs w = (inl e, w1) ∧
              e = ValidationError (VStr already_revoked) ∧
              status_code e = 400%Z) ∧
        (truthy reason = true → revoked assertion = false →
         let revoked_assertion := set_revoked reason assertion in
         BadgeInstanceDetail.delete self request kwargs w
         = (inr (mkResponse 200 (serializer_data self revoked_assertion request)),
            set_badge_instances (replace_row revoked_assertion) w1) ∧
         revoked revoked_assertion = true ∧
         revocation_reason revoked_assertion = reason ∧
         revoked_between assertion reason w1
           (set_badge_instances (replace_row revoked_assertion) w1)))).
Proof.
  split; [|split].
  - intros w1 Hobj. unfold BadgeInstanceDetail.delete, mbind, M_bind.
    by rewrite Hobj.
  - intros cached_get Hframework Hwhy.
    unfold BadgeInstanceDetail.delete, mbind, M_bind. rewrite Hframework.
    unfold VersionedObjectMixin.get_object.
    destruct Hwhy as [->|(a & -> & ->)]; reflexivity.
  - intros assertion w1 Hobj. unfold BadgeInstanceDetail.delete.
    unfold mbind, M_bind. rewrite Hobj. split.
    + intros ->. reflexivity.
    + intros reason -> Hreason. simpl. unfold lift. rewrite Hreason. repeat split.
      * intros ->. simpl. eexists. by repeat split.
      * intros -> Hrevoked. simpl. unfold try_except, revoke. rewrite Hrevoked.
        simpl. eexists. by repeat split.
      * simpl. unfold try_except, revoke.
        match goal with
        | Ht : truthy reason = true, Hr : revoked assertion = false |- _ =>
            rewrite Ht, Hr
        end. reflexivity.
      * simpl. apply elem_of_replace_row.
      * simpl. by apply replace_row_other.
      * simpl. intros Hb. by apply replace_row_other.
Qed.

End revoke_one.

Lemma delete_outcomes_witness :
  BadgeInstanceDetail.delete (assertion_view (λ a, bool_decide (issuer a = "issuer-1")))
    (request_of "eve" (VDict [("revocation_reason", VStr "issued by mistake")]) [])
    [("entity_id", VStr "D")] sample_world
  = (inl Http404, sample_world) ∧
  BadgeInstanceDetail.delete (assertion_view (λ a, bool_decide (issuer a = "issuer-1")))
    (request_of "eve" (VDict [("revocation_reason", VStr "issued by mistake")]) [])
    [("entity_id", VStr "A")] sample_world
  = (inr (mkResponse 200
            (VDict [("entityId", VStr "A"); ("revoked", VBool true);
                    ("revocationReason", VStr "issued by mistake")])),
     set_badge_instances
       (replace_row (set_revoked (VStr "issued by mistake") valid_assertion))
       sample_world) ∧
  revoked_between valid_assertion (VStr "issued by mistake") sample_world
    (set_badge_instances
       (replace_row (set_revoked (VStr "issued by mistake") valid_assertion))
       sample_world).
Proof.
  assert (Hfound : get_object
                     (assertion_view (λ a, bool_decide (issuer a = "issuer-1")))
                     (request_of "eve"
                        (VDict [("revocation_reason", VStr "issued by mistake")]) [])
                     [("entity_id", VStr "A")] sample_world
                   = (inr valid_assertion, sample_world))
    by (vm_compute; reflexivity).
  split.
  - refine (proj1 (proj2 (delete_outcomes
                            (assertion_view (λ a, bool_decide (issuer a = "issuer-1")))
                            (request_of "eve"
                               (VDict [("revocation_reason", VStr "issued by mistake")])
                               [])
                            [("entity_id", VStr "D")] sample_world))
              assertion_by_id eq_refl _).
    right. exists foreign_assertion. split; vm_compute; reflexivity.
  - destruct (proj2 (proj2 (delete_outcomes
                              (assertion_view (λ a, bool_decide (issuer a = "issuer-1")))
                              (request_of "eve"
                                 (VDict [("revocation_reason", VStr "issued by mistake")])
                                 [])
                              [("entity_id", VStr "A")] sample_world))
                valid_assertion sample_world Hfound) as [_ Hallowed].
    assert (Hmay : has_object_permissions
                     (assertion_view (λ a, bool_decide (issuer a = "issuer-1")))
                     (request_of "eve"
                        (VDict [("revocation_reason", VStr "issued by mistake")]) [])
                     valid_assertion = true) by (vm_compute; reflexivity).
    destruct (Hallowed (VStr "issued by mistake") Hmay eq_refl)
      as (_ & _ & Hrevoke).
    destruct (Hrevoke eq_refl eq_refl) as (Hanswer & _ & _ & Hbetween).
    split; [exact Hanswer|exact Hbetween].
Defined.

Example delete_revokes :
  BadgeInstanceDetail.delete (assertion_view (λ _, true))
    (request_of "eve" (VDict [("revocation_reason", VStr "issued by mistake")]) [])
    [("entity_id", VStr "A")] sample_world
  = (inr (mkResponse 200
            (VDict [("entityId", VStr "A"); ("revoked", VBool true);
                    ("revocationReason", VStr "issued by mistake")])),
     mkWorld [set_revoked (VStr "issued by mistake") valid_assertion;
              revoked_assertion; expired_assertion; foreign_assertion]
       (access_tokens sample_world) (issuer_staff sample_world) 100 []).
Proof. vm_compute. reflexivity. Qed.

Example delete_already_revoked :
  BadgeInstanceDetail.delete (assertion_view (λ _, true))
    (request_of "eve" (VDict [("revocation_reason", VStr "again")]) [])
    [("entity_id", VStr "B")] sample_world
  = (inl (ValidationError (VStr "Assertion is already revoked")), sample_world).
Proof. vm_compute. reflexivity. Qed.

Example delete_without_reason :
  BadgeInstanceDetail.delete (assertion_view (λ _, true))
    (request_of "eve" (VDict []) []) [("entity_id", VStr "A")] sample_world
  = (inl (ValidationError
            (VDict [("revocation_reason", VStr "This field is required")])),
     sample_world) ∧
  BadgeInstanceDetail.delete (assertion_view (λ _, true))
    (request_of "eve" (VDict [("revocation_reason", VStr "")]) [])
    [("entity_id", VStr "A")] sample_world
  = (inl (ValidationError
            (VDict [("revocation_reason", VStr "This field is required")])),
     sample_world).
Proof. split; vm_compute; reflexivity. Qed.

(** Without permission, and for an id no assertion has, the framework's
    lookup raises [Http404] and nothing is revoked. *)
Example delete_without_permission :
  BadgeInstanceDetail.delete (assertion_view (λ _, false))
    (request_of "mallory" (VDict [("revocation_reason", VStr "spite")]) [])
    [("entity_id", VStr "A")] sample_world
  = (inl Http404, sample_world) ∧
  BadgeInstanceDetail.delete (assertion_view (λ _, true))
    (request_of "eve" (VDict [("revocation_reason", VStr "spite")]) [])
    [("entity_id", VStr "Z")] sample_world
  = (inl Http404, sample_world).
Proof. split; vm_compute; reflexivity. Qed.

(** ** Revoking a batch *)

Section revoke_batch.

Variable self : View BadgeInstance.
Variable response_envelope : list value → bool → string → value.

(** What [_process_revoke] answers for an entry that is a dictionary. *)
Lemma process_revoke_entry request d w :
  let entity_id := dict_get_default d "entityId" in
  let reason := dict_get_default d "revocationReason" in
  BatchAssertionsRevoke._process_revoke self request (VDict d) w
  = if decide (entity_id = VNone) then
      (inr (VDict [("revoked", VBool false);
                   ("reason", VStr "entityId is required")]), w)
    else if decide (reason = VNone) then
      (inr (VDict [("revoked", VBool false); ("entityId", entity_id);
                   ("reason", VStr "revocationReason is required")]), w)
    else
      match get_object self request [("entity_id", entity_id)] w with
      | (inl Http404, w1) =>
          (inr (VDict [("revoked", VBool false); ("entityId", entity_id);
                       ("revocationReason", reason);
                       ("reason", VStr BatchAssertionsRevoke.denied)]), w1)
      | (inl e, w1) => (inl e, w1)
      | (inr assertion, w1) =>
          match revoke assertion reason w1 with
          | (inl e, w2) =>
              (inr (VDict [("revoked", VBool false); ("entityId", entity_id);
                           ("revocationReason", reason);
                           ("reason", VStr (message e))]), w2)
          | (inr _, w2) =>
              (inr (VDict [("revoked", VBool true); ("entityId", entity_id);
                           ("revocationReason", reason)]), w2)
          end
      end.
Proof.
  simpl. unfold BatchAssertionsRevoke._process_revoke.
  unfold mbind, M_bind, lift, py_get.
  destruct (decide (dict_get_default d "entityId" = VNone)); [reflexivity|].
  destruct (decide (dict_get_default d "revocationReason" = VNone)); [reflexivity|].
  unfold try_except, mbind, M_bind.
  destruct (get_object self request _ w) as [[e|assertion] w1].
  - destruct e; reflexivity.
  - simpl. destruct (revoke assertion _ w1) as [[e|a'] w2]; reflexivity.
Qed.

(** The answer of [_process_revoke] never raises for a dictionary when the
    lookup raises nothing but [Http404]. *)
Lemma process_revoke_answers request d w :
  lookup_or_404 self →
  ∃ answer w', BatchAssertionsRevoke._process_revoke self request (VDict d) w
               = (inr answer, w').
Proof.
  intros Hlookup. rewrite process_revoke_entry. simpl.
  destruct (decide _); [by eexists _, _|].
  destruct (decide _); [by eexists _, _|].
  destruct (Hlookup request [("entity_id", dict_get_default d "entityId")] w)
    as [(a & w1 & ->)|(w1 & ->)]; [|by eexists _, _].
  destruct (revoke a _ w1) as [[e|a'] w2]; by eexists _, _.
Qed.

(** One result per entry, and status 200. *)
Lemma post_one_result_per_entry request (entries : list (list (string * value))) w :
  lookup_or_404 self →
  data request = VList (VDict <$> entries) →
  ∃ results w',
    BatchAssertionsRevoke.post self response_envelope request w
    = (inr (mkResponse 200 (response_envelope results true "revoked badges")), w') ∧
    length results = length entries.
Proof.
  intros Hlookup Hdata. unfold BatchAssertionsRevoke.post.
  unfold mbind at 1, M_bind at 1, lift. rewrite Hdata. simpl.
  assert (Heach : ∀ w, ∃ results w',
            for_each (BatchAssertionsRevoke._process_revoke self request)
              (VDict <$> entries) w = (inr results, w') ∧
            length results = length entries).
  { clear Hdata. induction entries as [|d entries IH]; intros w0.
    - by exists [], w0.
    - destruct (process_revoke_answers request d w0 Hlookup) as (y & w1 & Hy).
      destruct (IH w1) as (ys & w2 & Hys & Hlen).
      exists (y :: ys), w2. split; [|simpl; by rewrite Hlen].
      simpl. unfold mbind, M_bind. rewrite Hy.
      unfold fmap in Hys. unfold fmap. rewrite Hys. reflexivity. }
  destruct (Heach w) as (results & w' & Hresults & Hlen).
  exists results, w'. split; [|exact Hlen].
  unfold mbind, M_bind. rewrite Hresults. reflexivity.
Qed.

(** A revocation that fails changes nothing. *)
Lemma revoke_raises_unchanged a reason w e w' :
  revoke a reason w = (inl e, w') → w' = w.
Proof.
  unfold revoke. destruct (revoked a); [by intros [= _ <-]|].
  destruct (truthy reason); simpl; [discriminate|by intros [= _ <-]].
Qed.

(** An entry that is answered with [revoked: false] leaves the world as it
    was. *)
Lemma failed_entry_changes_nothing request d w answer w' :
  lookup_reads_only self →
  BatchAssertionsRevoke._process_revoke self request (VDict d) w = (inr answer, w') →
  getitem answer "revoked" = inr (VBool false) →
  w' = w.
Proof.
  intros Hread. rewrite process_revoke_entry. simpl.
  destruct (decide _); [by intros [= _ <-]|].
  destruct (decide _); [by intros [= _ <-]|].
  pose proof (Hread request [("entity_id", dict_get_default d "entityId")] w) as Hw.
  destruct (get_object self request _ w) as [[e|a] w1]; simpl in Hw; subst w1.
  - destruct e; try discriminate. by intros [= _ <-].
  - destruct (revoke a _ w) as [[e|a'] w2] eqn:Hrevoke.
    + apply revoke_raises_unchanged in Hrevoke as ->. by intros [= _ <-].
    + intros [= <- <-]. discriminate.
Qed.

Lemma for_each_app {A B} (f : A → M B) (l1 l2 : list A) w :
  for_each f (l1 ++ l2)%list w
  = match for_each f l1 w with
    | (inl e, w1) => (inl e, w1)
    | (inr r1, w1) =>
        match for_each f l2 w1 with
        | (inl e, w2) => (inl e, w2)
        | (inr r2, w2) => (inr (r1 ++ r2)%list, w2)
        end
    end.
Proof.
  revert w. induction l1 as [|x l1 IH]; intros w; simpl.
  - by destruct (for_each f l2 w) as [[e|r2] w2].
  - unfold mbind, M_bind. destruct (f x w) as [[e|y] w0]; [done|].
    rewrite IH. destruct (for_each f l1 w0) as [[e|r1] w1]; [done|].
    unfold mret, M_ret.
    by destruct (for_each f l2 w1) as [[e|r2] w2].
Qed.

Lemma for_each_length {A B} (f : A → M B) (l : list A) w ys w' :
  for_each f l w = (inr ys, w') → length ys = length l.
Proof.
  revert w ys w'. induction l as [|x l IH]; simpl; intros w ys w'.
  - by intros [= <- _].
  - unfold mbind, M_bind. destruct (f x w) as [[e|y] w1]; [discriminate|].
    destruct (for_each f l w1) as [[e|ys0] w2] eqn:Hrest; [discriminate|].
    intros [= <- _]. simpl. f_equal. by eapply IH.
Qed.

(** The entries around a failed entry are answered as they are without it. *)
Lemma failed_entry_isolated request (before after : list value) d w
  r1 w1 answer w1' r2 w2 :
  lookup_reads_only self →
  for_each (BatchAssertionsRevoke._process_revoke self request) before w
  = (inr r1, w1) →
  BatchAssertionsRevoke._process_revoke self request (VDict d) w1
  = (inr answer, w1') →
  getitem answer "revoked" = inr (VBool false) →
  for_each (BatchAssertionsRevoke._process_revoke self request) after w1'
  = (inr r2, w2) →
  for_each (BatchAssertionsRevoke._process_revoke self request)
    (before ++ VDict d :: after)%list w = (inr (r1 ++ answer :: r2)%list, w2) ∧
  for_each (BatchAssertionsRevoke._process_revoke self request)
    (before ++ after)%list w = (inr (r1 ++ r2)%list, w2).
Proof.
  intros Hread Hbefore Hentry Hfailed Hafter.
  pose proof (failed_entry_changes_nothing _ _ _ _ _ Hread Hentry Hfailed) as ->.
  rewrite !for_each_app, Hbefore. split.
  - simpl. unfold mbind, M_bind. rewrite Hentry, Hafter. reflexivity.
  - by rewrite Hafter.
Qed.

End revoke_batch.

(** What [revoke] leaves behind. *)
Lemma revoke_revokes a reason w a' w' :
  revoke a reason w = (inr a', w') →
  revoked a = false ∧ truthy reason = true ∧ a' = set_revoked reason a ∧
  revoked_between a reason w w'.
Proof.
  unfold revoke. destruct (revoked a); [discriminate|].
  destruct (truthy reason); simpl; [|discriminate].
  intros [= <- <-]. repeat split; try reflexivity.
  - simpl. apply elem_of_replace_row.
  - simpl. by apply replace_row_other.
  - simpl. intros Hb. by apply replace_row_other.
Qed.

Section revoke_batch_framework.

Variable cached_get : list (string * value) → world → option BadgeInstance.
Variable permitted : Request → BadgeInstance → bool.
Variable serializer : BadgeInstance → Request → value.
Variable response_envelope : list value → bool → string → value.

Lemma framework_lookup_reads_only :
  lookup_reads_only (VersionedObjectMixin.view cached_get permitted serializer).
Proof.
  intros request kwargs w. simpl. unfold VersionedObjectMixin.get_object.
  destruct (cached_get kwargs w) as [a|]; [|reflexivity].
  by destruct (permitted request a).
Qed.

Lemma framework_lookup_or_404 :
  lookup_or_404 (VersionedObjectMixin.view cached_get permitted serializer).
Proof.
  intros request kwargs w. simpl. unfold VersionedObjectMixin.get_object.
  destruct (cached_get kwargs w) as [a|]; [|right; by eexists].
  destruct (permitted request a); [left; by exists a, w|right; by exists w].
Qed.

(** One entry, as a dictionary, is answered as [entry_answer] says. *)
Lemma process_revoke_answer request d w :
  ∃ answer w1,
    BatchAssertionsRevoke._process_revoke
      (VersionedObjectMixin.view cached_get permitted serializer)
      request (VDict d) w = (inr answer, w1) ∧
    entry_answer cached_get permitted request d w answer w1.
Proof.
  rewrite process_revoke_entry. simpl.
  destruct (decide (dict_get_default d "entityId" = VNone)) as [Hid|Hid].
  { eexists _, _. split; [reflexivity|]. by constructor. }
  destruct (decide (dict_get_default d "revocationReason" = VNone)) as [Hreason|Hreason].
  { eexists _, _. split; [reflexivity|]. by constructor. }
  unfold VersionedObjectMixin.get_object.
  destruct (cached_get _ w) as [a|] eqn:Hfound.
  - destruct (permitted request a) eqn:Hallowed.
    + destruct (revoke a _ w) as [[e|a'] w1] eqn:Hrevoke.
      * pose proof (revoke_raises_unchanged _ _ _ _ _ Hrevoke) as ->.
        eexists _, _. split; [reflexivity|]. by eapply revoke_refused.
      * apply revoke_revokes in Hrevoke as (Hnot & Htruthy & -> & Hbetween).
        eexists _, _. split; [reflexivity|]. by eapply entry_revoked.
    + eexists _, _. split; [reflexivity|].
      apply not_found_or_denied; [done|done|]. right. by exists a.
  - eexists _, _. split; [reflexivity|].
    apply not_found_or_denied; [done|done|]. by left.
Qed.

Lemma for_each_answered request entries w :
  ∃ results w',
    for_each (BatchAssertionsRevoke._process_revoke
                (VersionedObjectMixin.view cached_get permitted serializer) request)
      (VDict <$> entries) w = (inr results, w') ∧
    answered cached_get permitted request entries w results w'.
Proof.
  revert w. induction entries as [|d entries IH]; intros w.
  - exists [], w. split; [reflexivity|constructor].
  - destruct (process_revoke_answer request d w) as (answer & w1 & Hentry & Hanswer).
    destruct (IH w1) as (results & w2 & Hrest & Hanswered).
    exists (answer :: results), w2. split; [|by econstructor].
    rewrite fmap_cons. simpl. unfold mbind, M_bind. by rewrite Hentry, Hrest.
Qed.

(** The entries are processed alike for two requests the permissions do not
    tell apart. *)
Lemma process_revoke_same_permissions request request' revocation w :
  (∀ a, permitted request' a = permitted request a) →
  BatchAssertionsRevoke._process_revoke
    (VersionedObjectMixin.view cached_get permitted serializer) request' revocation w
  = BatchAssertionsRevoke._process_revoke
      (VersionedObjectMixin.view cached_get permitted serializer) request revocation w.
Proof.
  intros Hsame. unfold BatchAssertionsRevoke._process_revoke.
  unfold mbind, M_bind.
  destruct (lift (py_get revocation "entityId") w) as [[e|entity_id] w0]; [done|].
  destruct (lift (py_get revocation "revocationReason") w0) as [[e|reason] w1]; [done|].
  destruct (decide (entity_id = VNone)); [done|].
  destruct (decide (reason = VNone)); [done|].
  unfold try_except, mbind, M_bind. simpl.
  unfold VersionedObjectMixin.get_object.
  destruct (cached_get _ w1) as [a|]; [|done].
  by rewrite Hsame.
Qed.

Lemma for_each_same_permissions request request' revocations w :
  (∀ a, permitted request' a = permitted request a) →
  for_each (BatchAssertionsRevoke._process_revoke
              (VersionedObjectMixin.view cached_get permitted serializer) request')
    revocations w
  = for_each (BatchAssertionsRevoke._process_revoke
                (VersionedObjectMixin.view cached_get permitted serializer) request)
      revocations w.
Proof.
  intros Hsame. revert w. induction revocations as [|r revocations IH]; intros w.
  - reflexivity.
  - simpl. unfold mbind, M_bind.
    rewrite (process_revoke_same_permissions _ _ _ _ Hsame).
    destruct (BatchAssertionsRevoke._process_revoke _ request r w) as [[e|y] w1];
      [done|].
    by rewrite IH.
Qed.

(** C1.  For a view of the entity framework and a body that is a list of
    revocation entries: [post] answers with status 200 and the envelope of
    one result per entry, in order.  Each entry is answered in the world the
    entries before it left, with [revoked: false] and the reason
    "entityId is required" without an entity id, "revocationReason is
    required" without a reason, "permission denied or object not found" when
    no assertion has the id or the object permissions refuse it, or the
    message of the error [revoke] raised, and the world as it was; or with
    [revoked: true], and the assertion revoked with the reason.  An entry
    that failed can be taken out of the body: the other entries get the
    answers they had and the world ends as it did. *)
Theorem batch_revoke_per_entry request entries w :
  data request = VList (VDict <$> entries) →
  ∃ results w',
    BatchAssertionsRevoke.post
      (VersionedObjectMixin.view cached_get permitted serializer)
      response_envelope request w
    = (inr (mkResponse 200 (response_envelope results true "revoked badges")), w') ∧
    length results = length entries ∧
    answered cached_get permitted request entries w results w' ∧
    ∀ i answer request',
      results !! i = Some answer →
      getitem answer "revoked" = inr (VBool false) →
      data request' = VList (VDict <$> delete i entries) →
      (∀ a, permitted request' a = permitted request a) →
      BatchAssertionsRevoke.post
        (VersionedObjectMixin.view cached_get permitted serializer)
        response_envelope request' w
      = (inr (mkResponse 200
                (response_envelope (delete i results) true "revoked badges")), w').
Proof.
  intros Hdata.
  destruct (for_each_answered request entries w) as (results & w' & Heach & Hanswered).
  assert (Hlen : length results = length entries).
  { apply for_each_length in Heach. by rewrite length_fmap in Heach. }
  exists results, w'. split; [|split; [exact Hlen|split; [exact Hanswered|]]].
  { unfold BatchAssertionsRevoke.post, mbind, M_bind, lift.
    rewrite Hdata. simpl. by rewrite Heach. }
  intros i answer request' Hi Hfailed Hdata' Hsame.
  unfold BatchAssertionsRevoke.post, mbind, M_bind, lift.
  rewrite Hdata'. simpl.
  rewrite (for_each_same_permissions request request' _ _ Hsame).
  assert (Hlt : (i < length entries)%nat).
  { rewrite <- Hlen. by eapply lookup_lt_Some. }
  destruct (lookup_lt_is_Some_2 entries i Hlt) as [d Hd].
  pose proof (take_drop_middle entries i d Hd) as Hsplit.
  rewrite <- Hsplit in Heach.
  rewrite fmap_app, fmap_cons, for_each_app in Heach.
  destruct (for_each _ (VDict <$> take i entries) w) as [[e|r1] w1] eqn:Hbefore;
    [discriminate|].
  simpl in Heach. unfold mbind, M_bind in Heach.
  destruct (BatchAssertionsRevoke._process_revoke _ request (VDict d) w1)
    as [[e|answer'] w1'] eqn:Hentry; [discriminate|].
  destruct (for_each _ (VDict <$> drop (S i) entries) w1') as [[e|r2] w2] eqn:Hafter;
    [discriminate|].
  injection Heach as <- <-.
  assert (Hr1 : length r1 = i).
  { apply for_each_length in Hbefore. rewrite length_fmap, length_take in Hbefore.
    lia. }
  assert (answer' = answer) as ->.
  { rewrite lookup_app_r in Hi by lia.
    replace (i - length r1)%nat with 0%nat in Hi by lia. by injection Hi. }
  pose proof (failed_entry_changes_nothing _ _ _ _ _ _
                framework_lookup_reads_only Hentry Hfailed) as ->.
  rewrite delete_take_drop, fmap_app, for_each_app, Hbefore, Hafter.
  replace (delete i (r1 ++ answer :: r2)%list) with (r1 ++ r2)%list; [reflexivity|].
  rewrite delete_take_drop. clear -Hr1. subst i.
  rewrite take_app_length, (cons_middle answer r1 r2), app_assoc.
  replace (S (length r1)) with (length (r1 ++ [answer])%list)
    by (rewrite length_app; simpl; lia).
  by rewrite drop_app_length.
Qed.

End revoke_batch_framework.

Lemma batch_revoke_per_entry_witness :
  ∃ results w',
    BatchAssertionsRevoke.post (assertion_view (λ a, bool_decide (issuer a = "issuer-1")))
      sample_response_envelope
      (request_of "eve"
         (VList (VDict <$>
                   [[("entityId", VStr "A"); ("revocationReason", VStr "r")];
                    [("entityId", VStr "D"); ("revocationReason", VStr "r")];
                    [("entityId", VStr "B")]])) [])
      sample_world
    = (inr (mkResponse 200
              (sample_response_envelope results true "revoked badges")), w') ∧
    length results = 3%nat ∧
    answered assertion_by_id (λ _ a, bool_decide (issuer a = "issuer-1"))
      (request_of "eve"
         (VList (VDict <$>
                   [[("entityId", VStr "A"); ("revocationReason", VStr "r")];
                    [("entityId", VStr "D"); ("revocationReason", VStr "r")];
                    [("entityId", VStr "B")]])) [])
      [[("entityId", VStr "A"); ("revocationReason", VStr "r")];
       [("entityId", VStr "D"); ("revocationReason", VStr "r")];
       [("entityId", VStr "B")]]
      sample_world results w'.
Proof.
  destruct (batch_revoke_per_entry assertion_by_id
              (λ _ a, bool_decide (issuer a = "issuer-1")) assertion_data
              sample_response_envelope
              (request_of "eve"
                 (VList (VDict <$>
                           [[("entityId", VStr "A"); ("revocationReason", VStr "r")];
                            [("entityId", VStr "D"); ("revocationReason", VStr "r")];
                            [("entityId", VStr "B")]])) [])
              _ sample_world eq_refl)
    as (results & w' & Hpost & Hlen & Hanswered & _).
  exists results, w'. by repeat split.
Defined.

(** An assertion of another issuer, refused by the object permissions, is
    answered like an unknown one and stays as it is. *)
Example batch_revoke_without_permission :
  BatchAssertionsRevoke.post (assertion_view (λ a, bool_decide (issuer a = "issuer-1")))
    sample_response_envelope
    (request_of "eve"
       (VList [VDict [("entityId", VStr "D"); ("revocationReason", VStr "spite")]])
       [])
    sample_world
  = (inr (mkResponse 200
            (VDict [("status", VDict [("success", VBool true);
                                      ("description", VStr "revoked badges")]);
                    ("result",
                     VList [VDict [("revoked", VBool false);
                                   ("entityId", VStr "D");
                                   ("revocationReason", VStr "spite");
                                   ("reason",
                                    VStr "permission denied or object not found")]])])),
     sample_world).
Proof. vm_compute. reflexivity. Qed.

(** The batch of the spec's example and the other reasons. *)
Example batch_revoke_reasons :
  fst (BatchAssertionsRevoke.post (assertion_view (λ _, true))
         sample_response_envelope
         (request_of "eve"
            (VList [VDict [("entityId", VStr "A"); ("revocationReason", VStr "r")];
                    VDict [("entityId", VStr "B")];
                    VDict [("revocationReason", VStr "r")];
                    VDict [("entityId", VStr "Z"); ("revocationReason", VStr "r")];
                    VDict [("entityId", VStr "B"); ("revocationReason", VStr "r")]])
            [])
         sample_world)
  = inr (mkResponse 200
           (VDict [("status", VDict [("success", VBool true);
                                     ("description", VStr "revoked badges")]);
                   ("result",
                    VList [VDict [("revoked", VBool true); ("entityId", VStr "A");
                                  ("revocationReason", VStr "r")];
                           VDict [("revoked", VBool false); ("entityId", VStr "B");
                                  ("reason", VStr "revocationReason is required")];
                           VDict [("revoked", VBool false);
                                  ("reason", VStr "entityId is required")];
                           VDict [("revoked", VBool false); ("entityId", VStr "Z");
                                  ("revocationReason", VStr "r");
                                  ("reason", VStr "permission denied or object not found")];
                           VDict [("revoked", VBool false); ("entityId", VStr "B");
                                  ("revocationReason", VStr "r");
                                  ("reason", VStr "Assertion is already revoked")]])])).
Proof. vm_compute. reflexivity. Qed.

(** ** Expanding the badge class and the issuer *)

Lemma dict_set_id d k v : dict_get d k = Some v → dict_set d k v = d.
Proof.
  induction d as [|[k' v'] d IH]; simpl; [discriminate|].
  destruct (decide (k' = k)) as [->|Hne].
  - by intros [= ->].
  - intros H. by rewrite IH.
Qed.

Section expands.

Variable super_to_representation : BadgeInstance → value.
Variable cached_badgeclass : BadgeInstance → Entity.
Variable cached_issuer : BadgeInstance → Entity.

Lemma to_representation_holds self instance data request_kwargs :
  BackpackAssertionSerializerV2.context_kwargs self = Some request_kwargs →
  holds self (super_to_representation instance) data →
  BackpackAssertionSerializerV2.to_representation super_to_representation
    cached_badgeclass cached_issuer self instance
  = match BackpackAssertionSerializerV2.expand cached_badgeclass cached_issuer
            (default [] request_kwargs) instance data with
    | inl e => inl e
    | inr data' =>
        match BackpackAssertionSerializerV2.parent self with
        | Some _ => inr data'
        | None =>
            inr (BackpackAssertionSerializerV2.write_back
                   (super_to_representation instance) data')
        end
    end.
Proof.
  intros Hkwargs.
  unfold holds, BackpackAssertionSerializerV2.to_representation.
  rewrite Hkwargs. simpl.
  destruct (BackpackAssertionSerializerV2.parent self).
  - intros ->. by destruct (BackpackAssertionSerializerV2.expand _ _ _ _ _).
  - intros (env & rest & -> & Hresult). simpl. rewrite Hresult. simpl.
    by destruct (BackpackAssertionSerializerV2.expand _ _ _ _ _).
Qed.

Lemma write_back_replaced self representation data data' :
  BackpackAssertionSerializerV2.parent self = None →
  holds self representation data →
  replaced self representation data'
    (BackpackAssertionSerializerV2.write_back representation data').
Proof.
  unfold holds, replaced. intros ->. intros (env & rest & -> & Hresult).
  exists env, data, rest. repeat split; [done|]. simpl. by rewrite Hresult.
Qed.

(** C8.  For a serializer whose context carries the keyword arguments of
    the request, when the representation of the entity framework holds the
    data of the instance (bare under a parent, first in the [result] list
    otherwise), and [expands] is the list of these keyword arguments (the
    empty list when they have none): with [badgeclass] in [expands] the JSON of the badge class,
    taken with extra metadata and canonical ids, is written into the data
    under [badgeclass]; with [issuer] in [expands] too, the JSON of the
    issuer is first written into that badge-class JSON under [issuer];
    without [badgeclass] in [expands], with [issuer] in it or not, the
    representation is returned as it is. *)
Theorem expands_embedding self instance d request_kwargs :
  BackpackAssertionSerializerV2.context_kwargs self = Some request_kwargs →
  holds self (super_to_representation instance) (VDict d) →
  let expands := default [] request_kwargs in
  let badgeclass_json := get_json (cached_badgeclass instance) true true in
  let issuer_json := get_json (cached_issuer instance) true true in
  let answer :=
    BackpackAssertionSerializerV2.to_representation super_to_representation
      cached_badgeclass cached_issuer self instance in
  ("badgeclass" ∉ expands → answer = inr (super_to_representation instance)) ∧
  ("badgeclass" ∈ expands → "issuer" ∉ expands →
   ∃ r, answer = inr r ∧
        replaced self (super_to_representation instance)
          (VDict (dict_set d "badgeclass" badgeclass_json)) r) ∧
  ("badgeclass" ∈ expands → "issuer" ∈ expands →
   ∀ b, badgeclass_json = VDict b →
   ∃ r, answer = inr r ∧
        replaced self (super_to_representation instance)
          (VDict (dict_set d "badgeclass"
                    (VDict (dict_set b "issuer" issuer_json)))) r).
Proof.
  intros Hkwargs Hholds expands badgeclass_json issuer_json answer.
  subst answer. rewrite (to_representation_holds _ _ _ _ Hkwargs Hholds).
  fold expands. unfold BackpackAssertionSerializerV2.expand.
  fold badgeclass_json issuer_json.
  assert (Hplace : ∀ data',
            ∃ r, match BackpackAssertionSerializerV2.parent self with
                 | Some _ => inr data'
                 | None => inr (BackpackAssertionSerializerV2.write_back
                                  (super_to_representation instance) data')
                 end = inr (A:=exn) r ∧
                 replaced self (super_to_representation instance) data' r).
  { intros data'.
    destruct (BackpackAssertionSerializerV2.parent self) as [p|] eqn:Hparent.
    - exists data'. split; [done|]. unfold replaced. by rewrite Hparent.
    - eexists. split; [done|]. by eapply write_back_replaced. }
  repeat split.
  - intros Hno. rewrite bool_decide_eq_false_2 by done. simpl.
    unfold holds in Hholds.
    destruct (BackpackAssertionSerializerV2.parent self); [by rewrite Hholds|].
    destruct Hholds as (env & rest & -> & Hresult). simpl. rewrite Hresult.
    by rewrite dict_set_id.
  - intros Hbadgeclass Hissuer.
    rewrite bool_decide_eq_true_2 by done. simpl.
    rewrite bool_decide_eq_false_2 by done. simpl. apply Hplace.
  - intros Hbadgeclass Hissuer b Hb.
    rewrite bool_decide_eq_true_2 by done. simpl.
    rewrite bool_decide_eq_true_2 by done. simpl.
    rewrite dict_get_set_eq, Hb. simpl.
    assert (Hset : dict_set (dict_set d "badgeclass" (VDict b)) "badgeclass"
                     (VDict (dict_set b "issuer" issuer_json))
                   = dict_set d "badgeclass" (VDict (dict_set b "issuer" issuer_json))).
    { clear. induction d as [|[k v] d IH]; simpl; [done|].
      destruct (decide (k = "badgeclass")) as [->|Hne]; simpl; [done|].
      rewrite decide_False by done. by rewrite IH. }
    rewrite Hset. apply Hplace.
Qed.

End expands.

Lemma expands_embedding_witness :
  BackpackAssertionSerializerV2.context_kwargs
    (BackpackAssertionSerializerV2.mk None (Some (Some ["badgeclass"; "issuer"])))
  = Some (Some ["badgeclass"; "issuer"]) ∧
  holds (BackpackAssertionSerializerV2.mk None (Some (Some ["badgeclass"; "issuer"])))
    (enveloped valid_assertion) (bare valid_assertion) ∧
  ∃ r,
    sample_to_representation false ["badgeclass"; "issuer"] = inr r ∧
    replaced (BackpackAssertionSerializerV2.mk None (Some (Some ["badgeclass"; "issuer"])))
      (enveloped valid_assertion)
      (VDict [("entityId", VStr "A");
              ("badgeclass",
               VDict [("type", VStr "BadgeClass");
                      ("id", VStr "https://badgr.example/public/badges/badgeclass-1");
                      ("issuer",
                       VDict [("type", VStr "Issuer");
                              ("id", VStr "https://badgr.example/public/issuers/issuer-1")]);
                      ("extensions:x", VDict [])]);
              ("issuer", VStr "issuer-1")]) r.
Proof.
  assert (Hholds : holds
            (BackpackAssertionSerializerV2.mk None (Some (Some ["badgeclass"; "issuer"])))
            (enveloped valid_assertion) (bare valid_assertion)).
  { eexists _, _. split; reflexivity. }
  split; [reflexivity|]. split; [exact Hholds|].
  destruct (expands_embedding enveloped (λ _, sample_badgeclass) (λ _, sample_issuer)
              (BackpackAssertionSerializerV2.mk None (Some (Some ["badgeclass"; "issuer"])))
              valid_assertion _ _ eq_refl Hholds) as (_ & _ & Hboth).
  assert (Hbadgeclass : "badgeclass" ∈ ["badgeclass"; "issuer"])
    by (apply (bool_decide_unpack _); vm_compute; exact I).
  assert (Hissuer : "issuer" ∈ ["badgeclass"; "issuer"])
    by (apply (bool_decide_unpack _); vm_compute; exact I).
  exact (Hboth Hbadgeclass Hissuer _ eq_refl).
Defined.

Example expand_both_standalone :
  sample_to_representation false ["badgeclass"; "issuer"]
  = inr (VDict
           [("status", VDict [("success", VBool true)]);
            ("result",
             VList [VDict
                      [("entityId", VStr "A");
                       ("badgeclass",
                        VDict [("type", VStr "BadgeClass");
                               ("id", VStr "https://badgr.example/public/badges/badgeclass-1");
                               ("issuer",
                                VDict [("type", VStr "Issuer");
                                       ("id", VStr "https://badgr.example/public/issuers/issuer-1")]);
                               ("extensions:x", VDict [])]);
                       ("issuer", VStr "issuer-1")]])]).
Proof. vm_compute. reflexivity. Qed.

Example expand_badgeclass_nested :
  sample_to_representation true ["badgeclass"]
  = inr (VDict
           [("entityId", VStr "A");
            ("badgeclass",
             VDict [("type", VStr "BadgeClass");
                    ("id", VStr "https://badgr.example/public/badges/badgeclass-1");
                    ("issuer", VStr "https://badgr.example/public/issuers/issuer-1");
                    ("extensions:x", VDict [])]);
            ("issuer", VStr "issuer-1")]).
Proof. vm_compute. reflexivity. Qed.

Example expand_issuer_alone :
  sample_to_representation false ["issuer"] = inr (enveloped valid_assertion) ∧
  sample_to_representation true ["issuer"] = inr (bare valid_assertion) ∧
  sample_to_representation true [] = inr (bare valid_assertion).
Proof. repeat split. Qed.

(** * Part III: further properties of the views and serializers *)

(** ** [get_or_create] *)

Lemma get_or_create_cases {A} (matches : A → bool) (new : A) (rows : list A) :
  (List.filter matches rows = [] ∧
   get_or_create matches new rows = (inr (new, true), (rows ++ [new])%list)) ∨
  (∃ r, List.filter matches rows = [r] ∧
        get_or_create matches new rows = (inr (r, false), rows)) ∨
  (∃ r r' l, List.filter matches rows = r :: r' :: l ∧
             get_or_create matches new rows
             = (inl (PyError "MultipleObjectsReturned"), rows)).
Proof.
  unfold get_or_create.
  destruct (List.filter matches rows) as [|r [|r' l]]; eauto 10.
Qed.

(** A lookup that had one match before a turn of [get_or_create] for
    another lookup has the same match after it, when the new row can only
    match it if it matches the lookup of the turn. *)
Lemma get_or_create_keeps {A} (matches other : A → bool) (new : A)
  (rows rows' : list A) out r :
  (other new = true → matches new = true ∧ List.filter matches rows = List.filter other rows) →
  List.filter other rows = [r] →
  get_or_create matches new rows = (out, rows') →
  List.filter other rows' = [r].
Proof.
  intros Hnew Hone Hturn.
  destruct (get_or_create_cases matches new rows)
    as [[Hnone Heq]|[(r0 & _ & Heq)|(r0 & r1 & l & _ & Heq)]];
    rewrite Heq in Hturn; injection Hturn as <- <-; try exact Hone.
  rewrite List.filter_app, Hone. simpl.
  destruct (other new) eqn:Hother; [|reflexivity].
  destruct (Hnew eq_refl) as [_ Hsame]. congruence.
Qed.

Lemma elem_of_filter_singleton {A} (f : A → bool) (l : list A) (r x : A) :
  List.filter f l = [r] → (x ∈ l ∧ f x = true ↔ x = r).
Proof.
  intros Hone. rewrite list_elem_of_In, <- List.filter_In, Hone. simpl.
  split; [intros [->|[]]; done|intros ->; by left].
Qed.

(** ** Tokens for issuers *)

Section issuer_tokens.

Import IssuerTokensList.

Variable permitted : string → bool.
Variable random_token_generator : nat → string.
Variable serializer_data : list value → result value.

Lemma issuer_scope_inj i j : issuer_scope i = issuer_scope j → i = j.
Proof. unfold issuer_scope. cbn. intros H. by injection H. Qed.

Lemma is_token_scope u c i j t :
  is_token u c (issuer_scope i) t = true →
  is_token u c (issuer_scope j) t = true → i = j.
Proof.
  unfold is_token. rewrite !bool_decide_eq_true.
  intros (_ & _ & Hi) (_ & _ & Hj). apply issuer_scope_inj. congruence.
Qed.

Lemma is_member_issuer i j u u' r :
  is_member i u r = true → is_member j u' r = true → i = j ∧ u = u'.
Proof.
  unfold is_member. rewrite !bool_decide_eq_true.
  intros [Hi Hu] [Hj Hu']. split; congruence.
Qed.

(** What one turn of the loop does to the tables. *)
Lemma issue_token_tables app expiry i db out db' :
  issue_token random_token_generator app expiry i db = (out, db') →
  issuers db' = issuers db ∧ current_time db' = current_time db ∧
  (staff db' = staff db ∨
   ∃ u, application_owner app = Some u ∧
        List.filter (is_member i u) (staff db) = [] ∧
        staff db' = (staff db ++ [mkStaffRow i u ROLE_STAFF])%list) ∧
  (tokens db' = tokens db ∨
   (List.filter (is_token (application_owner app) (client_id app) (issuer_scope i))
      (tokens db) = [] ∧
    tokens db'
    = (tokens db ++ [mkTokenRow (application_owner app) (client_id app)
                       (issuer_scope i) expiry
                       (random_token_generator (drawn db))])%list)).
Proof.
  unfold issue_token.
  set (new_token := mkTokenRow _ _ _ _ _).
  assert (Htokens : ∀ staff' out db',
    match get_or_create
            (is_token (application_owner app) (client_id app) (issuer_scope i))
            new_token (tokens db) with
    | (inl e, rows) =>
        (inl e, mkTables (issuers db) staff' rows (current_time db) (S (drawn db)))
    | (inr (accesstoken, _), rows) =>
        (inr (VDict [("issuer", VStr i); ("token", VStr (token accesstoken));
                     ("expires", VInt (expires accesstoken))]),
         mkTables (issuers db) staff' rows (current_time db) (S (drawn db)))
    end = (out, db') →
    issuers db' = issuers db ∧ current_time db' = current_time db ∧
    staff db' = staff' ∧
    (tokens db' = tokens db ∨
     (List.filter (is_token (application_owner app) (client_id app)
                     (issuer_scope i)) (tokens db) = [] ∧
      tokens db' = (tokens db ++ [new_token])%list))).
  { intros staff' out0 db0.
    destruct (get_or_create_cases
                (is_token (application_owner app) (client_id app) (issuer_scope i))
                new_token (tokens db))
      as [[Hnone ->]|[(r & _ & ->)|(r & r' & l & _ & ->)]];
      intros [= <- <-]; simpl; auto 10. }
  destruct (application_owner app) as [u|] eqn:Howner.
  - destruct (get_or_create_cases (is_member i u) (mkStaffRow i u ROLE_STAFF)
                (staff db))
      as [[Hnone ->]|[(r & _ & ->)|(r & r' & l & _ & ->)]].
    + intros H. apply Htokens in H as (? & ? & -> & ?).
      repeat split; [done|done| |done]. right. by exists u.
    + intros H. apply Htokens in H as (? & ? & -> & ?). auto.
    + intros [= <- <-]. auto.
  - intros H. apply Htokens in H as (? & ? & -> & ?). auto.
Qed.

(** After a turn that succeeds the issuer is settled, and the entry is the
    one of its token row. *)
Lemma issue_token_success app expiry i db entry db' :
  issue_token random_token_generator app expiry i db = (inr entry, db') →
  settled app db' i ∧ entry = stored_entry app db' i.
Proof.
  unfold issue_token, settled, stored_entry.
  set (new_token := mkTokenRow _ _ _ _ _).
  set (matches := is_token (application_owner app) (client_id app) (issuer_scope i)).
  assert (Hnew : matches new_token = true).
  { unfold matches, is_token. by apply bool_decide_eq_true. }
  assert (Hstaff : ∀ u, application_owner app = Some u →
            ∀ out rows, get_or_create (is_member i u) (mkStaffRow i u ROLE_STAFF)
                          (staff db) = (inr out, rows) →
            ∃ r, List.filter (is_member i u) rows = [r]).
  { intros u _ out rows.
    destruct (get_or_create_cases (is_member i u) (mkStaffRow i u ROLE_STAFF)
                (staff db))
      as [[Hnone ->]|[(r & Hone & ->)|(r & r' & l & _ & ->)]];
      intros [= <- <-].
    - rewrite List.filter_app, Hnone. simpl.
      unfold is_member at 1. rewrite bool_decide_eq_true_2 by done. by eexists.
    - by exists r. }
  assert (Htokens : ∀ staff',
    match get_or_create matches new_token (tokens db) with
    | (inl e, rows) =>
        (inl e, mkTables (issuers db) staff' rows (current_time db) (S (drawn db)))
    | (inr (accesstoken, _), rows) =>
        (inr (VDict [("issuer", VStr i); ("token", VStr (token accesstoken));
                     ("expires", VInt (expires accesstoken))]),
         mkTables (issuers db) staff' rows (current_time db) (S (drawn db)))
    end = (inr entry, db') →
    staff db' = staff' ∧
    ∃ t, List.filter matches (tokens db') = [t] ∧ entry = token_entry i t).
  { intros staff'.
    destruct (get_or_create_cases matches new_token (tokens db))
      as [[Hnone ->]|[(r & Hone & ->)|(r & r' & l & _ & ->)]];
      intros [= <- <-]; simpl; (split; [done|]).
    - exists new_token. rewrite List.filter_app, Hnone. simpl. by rewrite Hnew.
    - by exists r. }
  destruct (application_owner app) as [u|] eqn:Howner.
  - destruct (get_or_create (is_member i u) (mkStaffRow i u ROLE_STAFF) (staff db))
      as [[e|out] rows] eqn:Hgrant; [discriminate|].
    intros H. apply Htokens in H as (Hs & t & Ht & ->).
    rewrite Ht. repeat split; [by exists t|].
    intros u' [= <-]. rewrite Hs. by eapply Hstaff.
  - intros H. apply Htokens in H as (Hs & t & Ht & ->).
    rewrite Ht. repeat split; [by exists t|]. intros u' [=].
Qed.

(** A turn for a settled issuer finds its rows and writes nothing. *)
Lemma issue_token_settled app expiry i db :
  settled app db i →
  issue_token random_token_generator app expiry i db
  = (inr (stored_entry app db i),
     mkTables (issuers db) (staff db) (tokens db) (current_time db) (S (drawn db))).
Proof.
  intros [[t Ht] Hstaff]. unfold issue_token, stored_entry. rewrite Ht.
  assert (Hfound : get_or_create
            (is_token (application_owner app) (client_id app) (issuer_scope i))
            (mkTokenRow (application_owner app) (client_id app) (issuer_scope i)
               expiry (random_token_generator (drawn db))) (tokens db)
          = (inr (t, false), tokens db)).
  { unfold get_or_create. by rewrite Ht. }
  destruct (application_owner app) as [u|] eqn:Howner.
  - destruct (Hstaff u eq_refl) as [r Hr].
    unfold get_or_create at 1. rewrite Hr. by rewrite Hfound.
  - by rewrite Hfound.
Qed.

(** A turn for any issuer keeps the settled issuers settled, with the same
    entries. *)
Lemma issue_token_keeps app expiry i db out db' j :
  issue_token random_token_generator app expiry i db = (out, db') →
  settled app db j →
  settled app db' j ∧ stored_entry app db' j = stored_entry app db j.
Proof.
  intros Hturn [[t Ht] Hstaff].
  destruct (issue_token_tables _ _ _ _ _ _ Hturn) as (_ & _ & Hs & Htok).
  assert (Ht' : List.filter
            (is_token (application_owner app) (client_id app) (issuer_scope j))
            (tokens db') = [t]).
  { destruct Htok as [->|[Hnone ->]]; [done|].
    rewrite List.filter_app, Ht. simpl.
    destruct (is_token _ _ (issuer_scope j) _) eqn:Hj; [|done].
    assert (i = j) as ->.
    { eapply is_token_scope; [|exact Hj]. by apply bool_decide_eq_true. }
    congruence. }
  unfold settled, stored_entry. rewrite Ht, Ht'. repeat split; [by exists t|].
  intros u Hu. destruct (Hstaff u Hu) as [r Hr]. exists r.
  destruct Hs as [->|(u' & Hu' & Hnone & ->)]; [done|].
  rewrite List.filter_app, Hr. simpl.
  destruct (is_member j u _) eqn:Hj; [|done].
  assert (i = j ∧ u' = u) as [-> ->].
  { eapply is_member_issuer; [|exact Hj]. by apply bool_decide_eq_true. }
  congruence.
Qed.

Lemma find_issuers_found db vs found :
  find_issuers permitted db vs = inr found →
  vs = VStr <$> found ∧
  Forall (λ i, i ∈ issuers db ∧ permitted i = true) found.
Proof.
  revert found. induction vs as [|v vs IH]; simpl; intros found.
  - intros [= <-]. by split.
  - unfold cached_get. destruct v as [| | |id| | |]; try discriminate.
    case_bool_decide as Hin; [|discriminate].
    destruct (permitted id) eqn:Hp; [|discriminate].
    destruct (find_issuers permitted db vs) as [e|found0]; [discriminate|].
    intros [= <-]. destruct (IH found0 eq_refl) as [-> Hall].
    split; [done|]. by constructor.
Qed.

Lemma find_issuers_refused db vs :
  (∃ v, v ∈ vs ∧
        (cached_get db v = None ∨
         ∃ i, cached_get db v = Some i ∧ permitted i = false)) →
  find_issuers permitted db vs
  = inl (ValidationError (VDict [("issuers", VStr "unknown issuer")])) ∨
  find_issuers permitted db vs = inl (PyError "PermissionDenied").
Proof.
  induction vs as [|v vs IH]; intros (x & Hx & Hbad).
  - by apply elem_of_nil in Hx.
  - simpl. destruct (cached_get db v) as [i|] eqn:Hv; [|by left].
    destruct (permitted i) eqn:Hp; [|by right].
    apply elem_of_cons in Hx as [->|Hx].
    + destruct Hbad as [Hnone|(i' & Hi' & Hp')]; congruence.
    + destruct IH as [->| ->]; [by exists x|by left|by right].
Qed.

Lemma find_issuers_same_issuers db db2 vs :
  issuers db2 = issuers db →
  find_issuers permitted db2 vs = find_issuers permitted db vs.
Proof.
  intros Hsame. induction vs as [|v vs IH]; simpl; [done|].
  unfold cached_get. rewrite Hsame, IH. reflexivity.
Qed.

Lemma issue_tokens_keeps app expiry found db out db' j :
  issue_tokens random_token_generator app expiry found db = (out, db') →
  settled app db j →
  settled app db' j ∧ stored_entry app db' j = stored_entry app db j.
Proof.
  revert db out db'. induction found as [|i found IH]; simpl; intros db out db'.
  - by intros [= <- <-].
  - destruct (issue_token random_token_generator app expiry i db)
      as [[e|entry] db1] eqn:Hturn.
    + intros [= <- <-] Hj. by eapply issue_token_keeps.
    + intros Hrest Hj.
      destruct (issue_token_keeps _ _ _ _ _ _ j Hturn Hj) as [Hj1 Heq1].
      destruct (issue_tokens random_token_generator app expiry found db1)
        as [[e|entries] db2] eqn:Hrun; injection Hrest as <- <-;
        destruct (IH _ _ _ Hrun Hj1) as [Hj2 Heq2]; split; congruence.
Qed.

Lemma issue_tokens_success app expiry found db entries db' :
  issue_tokens random_token_generator app expiry found db = (inr entries, db') →
  Forall (settled app db') found ∧ entries = stored_entry app db' <$> found.
Proof.
  revert db entries. induction found as [|i found IH]; simpl; intros db entries.
  - intros [= <- <-]. by split.
  - destruct (issue_token random_token_generator app expiry i db)
      as [[e|entry] db1] eqn:Hturn; [discriminate|].
    destruct (issue_tokens random_token_generator app expiry found db1)
      as [[e|entries0] db2] eqn:Hrun; [discriminate|].
    intros [= <- <-].
    destruct (IH _ _ Hrun) as [Hall ->].
    destruct (issue_token_success _ _ _ _ _ _ Hturn) as [Hi ->].
    destruct (issue_tokens_keeps _ _ _ _ _ _ i Hrun Hi) as [Hi' Heq].
    split; [by constructor|]. simpl. by rewrite Heq.
Qed.

Lemma issue_tokens_settled app expiry found db :
  Forall (settled app db) found →
  issue_tokens random_token_generator app expiry found db
  = (inr (stored_entry app db <$> found),
     mkTables (issuers db) (staff db) (tokens db) (current_time db)
       (length found + drawn db)).
Proof.
  revert db. induction found as [|i found IH]; intros db Hall; simpl.
  - by destruct db.
  - apply Forall_cons in Hall as [Hi Hall].
    rewrite (issue_token_settled _ _ _ _ Hi).
    rewrite IH by exact Hall. simpl. do 2 f_equal. f_equal. lia.
Qed.

Lemma issue_tokens_tables app expiry found db out db' :
  issue_tokens random_token_generator app expiry found db = (out, db') →
  issuers db' = issuers db ∧
  ∃ ns nt,
    staff db' = (staff db ++ ns)%list ∧ tokens db' = (tokens db ++ nt)%list ∧
    Forall (λ r, role r = ROLE_STAFF ∧
                 application_owner app = Some (member_user r) ∧
                 member_issuer r ∈ found) ns ∧
    Forall (λ t, expires t = expiry ∧ ∃ i, i ∈ found ∧ token_for app i t) nt.
Proof.
  revert db out db'. induction found as [|i found IH]; simpl; intros db out db'.
  - intros [= <- <-]. split; [done|]. exists [], []. by rewrite !app_nil_r.
  - assert (Hturn_tables : ∀ out1 db1,
      issue_token random_token_generator app expiry i db = (out1, db1) →
      issuers db1 = issuers db ∧
      ∃ ns nt,
        staff db1 = (staff db ++ ns)%list ∧ tokens db1 = (tokens db ++ nt)%list ∧
        Forall (λ r, role r = ROLE_STAFF ∧
                     application_owner app = Some (member_user r) ∧
                     member_issuer r ∈ i :: found) ns ∧
        Forall (λ t, expires t = expiry ∧ ∃ j, j ∈ i :: found ∧ token_for app j t) nt).
    { intros out1 db1 Hturn.
      destruct (issue_token_tables _ _ _ _ _ _ Hturn) as (Hi & _ & Hs & Ht).
      split; [done|].
      assert (Hhead : i ∈ i :: found) by (apply elem_of_cons; by left).
      destruct Hs as [->|(u & Hu & _ & ->)], Ht as [->|[_ ->]].
      - exists [], []. by rewrite !app_nil_r.
      - eexists [], [_]. rewrite app_nil_r. repeat split; [constructor|].
        repeat constructor. by exists i.
      - eexists [_], []. rewrite app_nil_r. repeat split; [|constructor].
        by repeat constructor.
      - eexists [_], [_]. repeat split.
        + by repeat constructor.
        + repeat constructor. by exists i. }
    destruct (issue_token random_token_generator app expiry i db)
      as [[e|entry] db1] eqn:Hturn.
    + intros [= <- <-]. exact (Hturn_tables (inl e) db1 eq_refl).
    + destruct (Hturn_tables (inr entry) db1 eq_refl) as (Hi1 & ns1 & nt1 & Hs1 & Ht1 & Hns1 & Hnt1).
      intros Hrest.
      assert (Hrun : ∃ out2, issue_tokens random_token_generator app expiry found db1
                             = (out2, db')).
      { destruct (issue_tokens random_token_generator app expiry found db1)
          as [[e|entries] db2]; injection Hrest as <- <-; by eexists. }
      destruct Hrun as [out2 Hrun].
      destruct (IH _ _ _ Hrun) as (Hi2 & ns2 & nt2 & Hs2 & Ht2 & Hns2 & Hnt2).
      split; [congruence|].
      exists (ns1 ++ ns2)%list, (nt1 ++ nt2)%list.
      rewrite Hs2, Hs1, Ht2, Ht1, <- !app_assoc. repeat split.
      * apply Forall_app. split; [done|].
        eapply Forall_impl; [exact Hns2|]. intros r (? & ? & ?).
        repeat split; [done|done|]. apply elem_of_cons. by right.
      * apply Forall_app. split; [done|].
        eapply Forall_impl; [exact Hnt2|]. intros t (? & j & ? & ?).
        split; [done|]. exists j. split; [|done]. apply elem_of_cons. by right.
Qed.

Lemma asks_for_iter request ids :
  asks_for request ids → ids ≠ [] →
  py_get (data request) "issuers" = inr (VList ids) ∧
  truthy (VList ids) = true ∧ py_iter (VList ids) = inr ids.
Proof.
  intros (d & -> & Hd) Hne. simpl. unfold dict_get_default. rewrite Hd.
  by destruct ids.
Qed.

(** A body without [issuers], or with a false value for it, is refused
    before anything is looked up. *)
Lemma issuer_tokens_required request app db d :
  data request = VDict d →
  truthy (dict_get_default d "issuers") = false →
  post permitted random_token_generator serializer_data request app db
  = (inl (ValidationError (VDict [("issuers", VStr "field is required")])), db).
Proof. intros Hd Hfalse. unfold post. rewrite Hd. simpl. by rewrite Hfalse. Qed.

Lemma issuer_tokens_refused request app db ids bad :
  asks_for request ids →
  bad ∈ ids →
  (cached_get db bad = None ∨ ∃ i, cached_get db bad = Some i ∧ permitted i = false) →
  post permitted random_token_generator serializer_data request app db
  = (inl (ValidationError (VDict [("issuers", VStr "unknown issuer")])), db) ∨
  post permitted random_token_generator serializer_data request app db
  = (inl (PyError "PermissionDenied"), db).
Proof.
  intros Hasks Hbad Hwhy.
  assert (Hne : ids ≠ []) by (intros ->; by apply elem_of_nil in Hbad).
  destruct (asks_for_iter _ _ Hasks Hne) as (Hget & Htrue & Hiter).
  unfold post. rewrite Hget, Htrue, Hiter. simpl.
  destruct (find_issuers_refused db ids) as [-> | ->]; [by exists bad|by left|by right].
Qed.

(** X1.  The token view validates the whole request before it writes
    anything.  A body whose [issuers] is missing or false (null, an empty
    list) is refused with "field is required".  When one of the requested
    ids names no issuer, or names an issuer the permissions refuse, the
    request fails with the validation error "unknown issuer" or with
    [PermissionDenied], wherever the id stands in the list.  In all these
    cases no staff row and no token is written, also not for the ids that
    are in order. *)
Theorem issuer_tokens_all_or_nothing request app db d :
  data request = VDict d →
  (truthy (dict_get_default d "issuers") = false →
   post permitted random_token_generator serializer_data request app db
   = (inl (ValidationError (VDict [("issuers", VStr "field is required")])), db)) ∧
  (∀ ids bad,
     dict_get d "issuers" = Some (VList ids) →
     bad ∈ ids →
     (cached_get db bad = None ∨
      ∃ i, cached_get db bad = Some i ∧ permitted i = false) →
     post permitted random_token_generator serializer_data request app db
     = (inl (ValidationError (VDict [("issuers", VStr "unknown issuer")])), db) ∨
     post permitted random_token_generator serializer_data request app db
     = (inl (PyError "PermissionDenied"), db)).
Proof.
  intros Hd. split.
  - by apply issuer_tokens_required.
  - intros ids bad Hids. apply issuer_tokens_refused. by exists d.
Qed.

(** What a successful request went through. *)
Lemma post_success request app db resp db' :
  post permitted random_token_generator serializer_data request app db
  = (inr resp, db') →
  ∃ vs found entries,
    py_get (data request) "issuers" = inr vs ∧ truthy vs = true ∧
    py_iter vs = inr (VStr <$> found) ∧
    find_issuers permitted db (VStr <$> found) = inr found ∧
    issue_tokens random_token_generator app (current_time db + weeks 5200)
      found db = (inr entries, db') ∧
    serializer_data entries = inr (response_data resp) ∧ status resp = 200%Z.
Proof.
  unfold post.
  destruct (py_get (data request) "issuers") as [e|vs] eqn:Hget; [discriminate|].
  destruct (truthy vs) eqn:Htrue; [simpl|discriminate].
  destruct (py_iter vs) as [e|ids] eqn:Hiter; [discriminate|].
  destruct (find_issuers permitted db ids) as [e|found] eqn:Hfound; [discriminate|].
  destruct (find_issuers_found _ _ _ Hfound) as [-> _].
  destruct (issue_tokens _ _ _ _ _) as [[e|entries] db1] eqn:Hrun; [discriminate|].
  destruct (serializer_data entries) as [e|answer] eqn:Hdata; [discriminate|].
  intros [= <- <-]. exists vs, found, entries. by repeat split.
Qed.

Lemma asks_for_strings request ids vs found :
  asks_for request (VStr <$> ids) →
  py_get (data request) "issuers" = inr vs →
  py_iter vs = inr (VStr <$> found) → found = ids.
Proof.
  intros (d & Hd & Hget). rewrite Hd. simpl. unfold dict_get_default.
  rewrite Hget. simpl. intros [= <-]. simpl. intros H.
  assert (Heq : VStr <$> ids = VStr <$> found) by congruence. clear -Heq.
  revert found Heq. induction ids as [|i ids IH]; intros [|f found];
    rewrite ?fmap_cons, ?fmap_nil; try discriminate; [done|].
  intros Heq. injection Heq as -> Heq. f_equal. by apply IH.
Qed.

Lemma is_token_for app i t :
  is_token (application_owner app) (client_id app) (issuer_scope i) t = true
  ↔ token_for app i t.
Proof. unfold is_token, token_for, issuer_scope. by rewrite bool_decide_eq_true. Qed.

(** X2.  A request for issuers that succeeds answers 200 with one entry
    per requested id, in the order of the request; the entry of an id
    carries the token and expiry of the one token row the application and
    its user have for the scope [rw:issuer:<id>] after the call. *)
Theorem issuer_tokens_answer request app db ids resp db' :
  asks_for request (VStr <$> ids) →
  post permitted random_token_generator serializer_data request app db
  = (inr resp, db') →
  status resp = 200%Z ∧
  ∃ entries,
    serializer_data entries = inr (response_data resp) ∧
    length entries = length ids ∧
    ∀ k id, ids !! k = Some id →
      ∃ t, (∀ t', t' ∈ tokens db' ∧ token_for app id t' ↔ t' = t) ∧
           entries !! k = Some (token_entry id t).
Proof.
  intros Hasks Hpost.
  destruct (post_success _ _ _ _ _ Hpost)
    as (vs & found & entries & Hget & _ & Hiter & _ & Hrun & Hdata & Hstatus).
  pose proof (asks_for_strings _ _ _ _ Hasks Hget Hiter) as ->.
  destruct (issue_tokens_success _ _ _ _ _ _ Hrun) as [Hall ->].
  split; [done|]. exists (stored_entry app db' <$> ids).
  split; [done|]. split; [by rewrite length_fmap|].
  intros k id Hk.
  pose proof (proj1 (Forall_forall _ _) Hall id
                (list_elem_of_lookup_2 _ _ _ Hk)) as [[t Ht] _].
  exists t. split.
  - intros t'. rewrite <- is_token_for. by apply elem_of_filter_singleton.
  - rewrite list_lookup_fmap, Hk. simpl. unfold stored_entry. by rewrite Ht.
Qed.

(** X3.  Asking again is idempotent: after a request that succeeded, the
    same request on the tables it left (whatever the clock shows and however
    many random tokens were drawn since) gets the same answer and leaves
    issuers, staff and tokens as they are. *)
Theorem issuer_tokens_idempotent request app db resp db' time n :
  post permitted random_token_generator serializer_data request app db
  = (inr resp, db') →
  ∃ n',
    post permitted random_token_generator serializer_data request app
      (mkTables (issuers db') (staff db') (tokens db') time n)
    = (inr resp, mkTables (issuers db') (staff db') (tokens db') time n').
Proof.
  intros Hpost.
  destruct (post_success _ _ _ _ _ Hpost)
    as (vs & found & entries & Hget & Htrue & Hiter & Hfound & Hrun & Hdata & Hstatus).
  destruct (issue_tokens_success _ _ _ _ _ _ Hrun) as [Hall ->].
  destruct (issue_tokens_tables _ _ _ _ _ _ Hrun) as (Hissuers & _).
  set (db2 := mkTables (issuers db') (staff db') (tokens db') time n).
  assert (Hall2 : Forall (settled app db2) found) by exact Hall.
  exists (length found + n). unfold post.
  rewrite Hget, Htrue, Hiter. simpl.
  rewrite (find_issuers_same_issuers db db2) by exact Hissuers.
  rewrite Hfound.
  rewrite (issue_tokens_settled app _ found db2 Hall2).
  change (stored_entry app db2 <$> found) with (stored_entry app db' <$> found).
  rewrite Hdata. destruct resp as [st answer]. simpl in *. by subst st.
Qed.

(** X4.  Whatever the request and its outcome, the view leaves the issuers
    and every staff row as they were; the staff rows it adds are
    memberships of the application's user with the role [ROLE_STAFF] in
    issuers that exist. *)
Theorem issuer_tokens_staff request app db out db' :
  post permitted random_token_generator serializer_data request app db
  = (out, db') →
  issuers db' = issuers db ∧
  ∃ added,
    staff db' = (staff db ++ added)%list ∧
    ∀ r, r ∈ added →
      role r = ROLE_STAFF ∧ application_owner app = Some (member_user r) ∧
      member_issuer r ∈ issuers db.
Proof.
  unfold post.
  assert (Hsame : issuers db = issuers db ∧
            ∃ added, staff db = (staff db ++ added)%list ∧
              ∀ r, r ∈ added →
                role r = ROLE_STAFF ∧ application_owner app = Some (member_user r) ∧
                member_issuer r ∈ issuers db).
  { split; [done|]. exists []. rewrite app_nil_r. split; [done|].
    intros r Hr. by apply elem_of_nil in Hr. }
  destruct (py_get (data request) "issuers") as [e|vs]; [by intros [= <- <-]|].
  destruct (truthy vs); simpl; [|by intros [= <- <-]].
  destruct (py_iter vs) as [e|ids]; [by intros [= <- <-]|].
  destruct (find_issuers permitted db ids) as [e|found] eqn:Hfound;
    [by intros [= <- <-]|].
  destruct (find_issuers_found _ _ _ Hfound) as [_ Hknown].
  destruct (issue_tokens _ _ _ _ _) as [out1 db1] eqn:Hrun.
  destruct (issue_tokens_tables _ _ _ _ _ _ Hrun)
    as (Hissuers & ns & nt & Hs & _ & Hns & _).
  intros Hout.
  assert (db' = db1) as ->.
  { destruct out1 as [e|entries]; [by injection Hout|].
    destruct (serializer_data entries); by injection Hout. }
  split; [done|]. exists ns. split; [done|].
  intros r Hr. destruct (proj1 (Forall_forall _ _) Hns r Hr) as (? & ? & Hin).
  repeat split; [done|done|].
  by destruct (proj1 (Forall_forall _ _) Hknown _ Hin).
Qed.

(** X5.  Whatever the request and its outcome, every token row is kept as
    it was; the token rows the view adds belong to the application and its
    user, have the scope [rw:issuer:<id>] of an issuer that exists and that
    the permissions allow, and expire 5200 weeks after the time of the
    call. *)
Theorem issuer_tokens_new_tokens request app db out db' :
  post permitted random_token_generator serializer_data request app db
  = (out, db') →
  ∃ added,
    tokens db' = (tokens db ++ added)%list ∧
    ∀ t, t ∈ added →
      expires t = (current_time db + weeks 5200)%Z ∧
      ∃ i, i ∈ issuers db ∧ permitted i = true ∧ token_for app i t.
Proof.
  unfold post.
  assert (Hsame : ∃ added, tokens db = (tokens db ++ added)%list ∧
            ∀ t, t ∈ added →
              expires t = (current_time db + weeks 5200)%Z ∧
              ∃ i, i ∈ issuers db ∧ permitted i = true ∧ token_for app i t).
  { exists []. rewrite app_nil_r. split; [done|].
    intros r Hr. by apply elem_of_nil in Hr. }
  destruct (py_get (data request) "issuers") as [e|vs]; [by intros [= <- <-]|].
  destruct (truthy vs); simpl; [|by intros [= <- <-]].
  destruct (py_iter vs) as [e|ids]; [by intros [= <- <-]|].
  destruct (find_issuers permitted db ids) as [e|found] eqn:Hfound;
    [by intros [= <- <-]|].
  destruct (find_issuers_found _ _ _ Hfound) as [_ Hknown].
  destruct (issue_tokens _ _ _ _ _) as [out1 db1] eqn:Hrun.
  destruct (issue_tokens_tables _ _ _ _ _ _ Hrun)
    as (_ & ns & nt & _ & Ht & _ & Hnt).
  intros Hout.
  assert (db' = db1) as ->.
  { destruct out1 as [e|entries]; [by injection Hout|].
    destruct (serializer_data entries); by injection Hout. }
  exists nt. split; [done|].
  intros t Hin. destruct (proj1 (Forall_forall _ _) Hnt t Hin) as (-> & i & Hi & Hfor).
  split; [done|]. exists i.
  by destruct (proj1 (Forall_forall _ _) Hknown _ Hi).
Qed.

(** X6.  After a request that succeeds, the user of the application is on
    the staff of every requested issuer; an application without a user
    leaves the staff table as it was. *)
Theorem issuer_tokens_membership request app db ids resp db' :
  asks_for request (VStr <$> ids) →
  post permitted random_token_generator serializer_data request app db
  = (inr resp, db') →
  (∀ u id, application_owner app = Some u → id ∈ ids → member_of db' id u) ∧
  (application_owner app = None → staff db' = staff db).
Proof.
  intros Hasks Hpost.
  destruct (post_success _ _ _ _ _ Hpost)
    as (vs & found & entries & Hget & _ & Hiter & _ & Hrun & _ & _).
  pose proof (asks_for_strings _ _ _ _ Hasks Hget Hiter) as ->.
  destruct (issue_tokens_success _ _ _ _ _ _ Hrun) as [Hall _].
  split.
  - intros u id Hu Hid.
    destruct (proj1 (Forall_forall _ _) Hall id Hid) as [_ Hstaff].
    destruct (Hstaff u Hu) as [r Hr]. exists r.
    pose proof (proj2 (elem_of_filter_singleton _ _ _ r Hr) eq_refl) as [Hin Hm].
    unfold is_member in Hm. apply bool_decide_eq_true in Hm. tauto.
  - intros Hnone.
    destruct (issue_tokens_tables _ _ _ _ _ _ Hrun) as (_ & ns & nt & Hs & _ & Hns & _).
    destruct ns as [|r ns]; [by rewrite app_nil_r in Hs|].
    apply Forall_cons in Hns as [(_ & Hu & _) _]. congruence.
Qed.

End issuer_tokens.

Example issuer_tokens_sample :
  sample_token_post [VStr "issuer-1"; VStr "issuer-2"] sample_tables
  = (inr sample_token_answer, sample_tables_after).
Proof. vm_compute. reflexivity. Qed.

Example issuer_tokens_sample_twice :
  sample_token_post [VStr "issuer-1"; VStr "issuer-1"] sample_tables
  = (inr (mkResponse 200
            (VDict [("result",
                     VList [VDict [("issuer", VStr "issuer-1"); ("token", VStr "A");
                                   ("expires", VInt 3144960100)];
                            VDict [("issuer", VStr "issuer-1"); ("token", VStr "A");
                                   ("expires", VInt 3144960100)]])])),
     IssuerTokensList.mkTables
       ["issuer-1"; "issuer-2"; "issuer-3"]
       [IssuerTokensList.mkStaffRow "issuer-1" "app" "owner"]
       [IssuerTokensList.mkTokenRow (Some "app") "client-1" "rw:issuer:issuer-2"
          500 "kept";
        IssuerTokensList.mkTokenRow (Some "app") "client-1" "rw:issuer:issuer-1"
          3144960100 "A"]
       100 2).
Proof. vm_compute. reflexivity. Qed.

Lemma sample_asks_for (ids : list string) :
  asks_for (request_of "app" (VDict [("issuers", VList (VStr <$> ids))]) [])
    (VStr <$> ids).
Proof. by eexists. Qed.

Lemma issuer_tokens_all_or_nothing_witness :
  sample_token_post [] sample_tables
  = (inl (ValidationError (VDict [("issuers", VStr "field is required")])),
     sample_tables) ∧
  (sample_token_post [VStr "issuer-1"; VStr "nobody"] sample_tables
   = (inl (ValidationError (VDict [("issuers", VStr "unknown issuer")])),
      sample_tables) ∨
   sample_token_post [VStr "issuer-1"; VStr "nobody"] sample_tables
   = (inl (PyError "PermissionDenied"), sample_tables)).
Proof.
  split.
  - exact (proj1 (issuer_tokens_all_or_nothing sample_permitted sample_random
                    sample_token_data
                    (request_of "app" (VDict [("issuers", VList [])]) [])
                    sample_application sample_tables _ eq_refl) eq_refl).
  - refine (proj2 (issuer_tokens_all_or_nothing sample_permitted sample_random
                     sample_token_data
                     (request_of "app"
                        (VDict [("issuers", VList [VStr "issuer-1"; VStr "nobody"])]) [])
                     sample_application sample_tables _ eq_refl)
              [VStr "issuer-1"; VStr "nobody"] (VStr "nobody") eq_refl _ _).
    + apply (bool_decide_unpack _). vm_compute. exact I.
    + left. vm_compute. reflexivity.
Defined.

Example issuer_tokens_unknown_or_refused :
  sample_token_post [VStr "issuer-1"; VStr "nobody"] sample_tables
  = (inl (ValidationError (VDict [("issuers", VStr "unknown issuer")])),
     sample_tables) ∧
  sample_token_post [VStr "issuer-1"; VStr "issuer-3"] sample_tables
  = (inl (PyError "PermissionDenied"), sample_tables) ∧
  sample_token_post [VStr "issuer-1"; VInt 2] sample_tables
  = (inl (ValidationError (VDict [("issuers", VStr "unknown issuer")])),
     sample_tables).
Proof. repeat split; vm_compute; reflexivity. Qed.

Lemma issuer_tokens_answer_witness :
  sample_token_post [VStr "issuer-1"; VStr "issuer-2"] sample_tables
  = (inr sample_token_answer, sample_tables_after) ∧
  status sample_token_answer = 200%Z ∧
  ∃ entries,
    sample_token_data entries = inr (response_data sample_token_answer) ∧
    length entries = 2 ∧
    ∀ k id, ["issuer-1"; "issuer-2"] !! k = Some id →
      ∃ t, (∀ t', t' ∈ IssuerTokensList.tokens sample_tables_after ∧
                  token_for sample_application id t' ↔ t' = t) ∧
           entries !! k = Some (token_entry id t).
Proof.
  assert (Hpost : sample_token_post [VStr "issuer-1"; VStr "issuer-2"] sample_tables
                  = (inr sample_token_answer, sample_tables_after))
    by (vm_compute; reflexivity).
  split; [exact Hpost|].
  exact (issuer_tokens_answer sample_permitted sample_random sample_token_data
           _ sample_application sample_tables ["issuer-1"; "issuer-2"] _ _
           (sample_asks_for ["issuer-1"; "issuer-2"]) Hpost).
Defined.

Lemma issuer_tokens_idempotent_witness :
  sample_token_post [VStr "issuer-1"; VStr "issuer-2"] sample_tables
  = (inr sample_token_answer, sample_tables_after) ∧
  ∃ n',
    sample_token_post [VStr "issuer-1"; VStr "issuer-2"]
      (IssuerTokensList.mkTables (IssuerTokensList.issuers sample_tables_after)
         (IssuerTokensList.staff sample_tables_after)
         (IssuerTokensList.tokens sample_tables_after) 9000 7)
    = (inr sample_token_answer,
       IssuerTokensList.mkTables (IssuerTokensList.issuers sample_tables_after)
         (IssuerTokensList.staff sample_tables_after)
         (IssuerTokensList.tokens sample_tables_after) 9000 n').
Proof.
  assert (Hpost : sample_token_post [VStr "issuer-1"; VStr "issuer-2"] sample_tables
                  = (inr sample_token_answer, sample_tables_after))
    by (vm_compute; reflexivity).
  split; [exact Hpost|].
  exact (issuer_tokens_idempotent sample_permitted sample_random sample_token_data
           _ sample_application sample_tables _ _ 9000%Z 7 Hpost).
Defined.

Lemma issuer_tokens_staff_witness :
  IssuerTokensList.issuers sample_tables_after
  = IssuerTokensList.issuers sample_tables ∧
  ∃ added,
    IssuerTokensList.staff sample_tables_after
    = (IssuerTokensList.staff sample_tables ++ added)%list ∧
    ∀ r, r ∈ added →
      IssuerTokensList.role r = ROLE_STAFF ∧
      IssuerTokensList.application_owner sample_application
      = Some (IssuerTokensList.member_user r) ∧
      IssuerTokensList.member_issuer r ∈ IssuerTokensList.issuers sample_tables.
Proof.
  assert (Hpost : sample_token_post [VStr "issuer-1"; VStr "issuer-2"] sample_tables
                  = (inr sample_token_answer, sample_tables_after))
    by (vm_compute; reflexivity).
  exact (issuer_tokens_staff sample_permitted sample_random sample_token_data
           _ sample_application sample_tables _ _ Hpost).
Defined.

Lemma issuer_tokens_new_tokens_witness :
  ∃ added,
    IssuerTokensList.tokens sample_tables_after
    = (IssuerTokensList.tokens sample_tables ++ added)%list ∧
    ∀ t, t ∈ added →
      IssuerTokensList.expires t
      = (IssuerTokensList.current_time sample_tables
         + IssuerTokensList.weeks 5200)%Z ∧
      ∃ i, i ∈ IssuerTokensList.issuers sample_tables ∧
           sample_permitted i = true ∧ token_for sample_application i t.
Proof.
  assert (Hpost : sample_token_post [VStr "issuer-1"; VStr "issuer-2"] sample_tables
                  = (inr sample_token_answer, sample_tables_after))
    by (vm_compute; reflexivity).
  exact (issuer_tokens_new_tokens sample_permitted sample_random sample_token_data
           _ sample_application sample_tables _ _ Hpost).
Defined.

Lemma issuer_tokens_membership_witness :
  (∀ u id, IssuerTokensList.application_owner sample_application = Some u →
           id ∈ ["issuer-1"; "issuer-2"] → member_of sample_tables_after id u) ∧
  (IssuerTokensList.application_owner sample_application = None →
   IssuerTokensList.staff sample_tables_after = IssuerTokensList.staff sample_tables).
Proof.
  assert (Hpost : sample_token_post [VStr "issuer-1"; VStr "issuer-2"] sample_tables
                  = (inr sample_token_answer, sample_tables_after))
    by (vm_compute; reflexivity).
  exact (issuer_tokens_membership sample_permitted sample_random sample_token_data
           _ sample_application sample_tables ["issuer-1"; "issuer-2"] _ _
           (sample_asks_for ["issuer-1"; "issuer-2"]) Hpost).
Defined.

(** ** Issuing a batch *)

Lemma py_map_stamps flag items assertions :
  py_map (BatchAssertionsIssue._include_create_notification flag) items
  = inr assertions →
  Forall2 (λ item a, ∃ d, item = VDict d ∧
                          a = VDict (dict_set d "create_notification" flag))
    items assertions.
Proof.
  revert assertions. induction items as [|x items IH]; simpl; intros assertions.
  - intros [= <-]. constructor.
  - unfold BatchAssertionsIssue._include_create_notification at 1, setitem.
    destruct x as [| | | | |d|]; try discriminate.
    destruct (py_map _ items) as [e|ys]; [discriminate|].
    intros [= <-]. constructor; [by exists d|by apply IH].
Qed.


(** X7.  The assertions the batch view hands to its serializer are the
    items of the body's [assertions], in order, each with
    [create_notification] set to the flag of the body ([False] when the body
    has none): a value an item gives for it is overwritten, and every other
    key of the item is as it was. *)
Theorem batch_issue_stamps body items assertions :
  dict_get body "assertions" = Some (VList items) →
  BatchAssertionsIssue.stamped (notification_flag body) (VDict body)
  = inr assertions →
  length assertions = length items ∧
  ∀ k item, items !! k = Some item →
    ∃ a, assertions !! k = Some a ∧
         getitem a "create_notification" = inr (notification_flag body) ∧
         ∀ key, key ≠ "create_notification" → getitem a key = getitem item key.
Proof.
  intros Hitems. unfold BatchAssertionsIssue.stamped. simpl.
  unfold dict_get_default. rewrite Hitems. simpl.
  intros Hmap. apply py_map_stamps in Hmap.
  split; [symmetry; by eapply Forall2_length|].
  intros k item Hk.
  destruct (Forall2_lookup_l _ _ _ _ _ Hmap Hk) as (a & Ha & d & -> & ->).
  exists (VDict (dict_set d "create_notification" (notification_flag body))).
  split; [done|]. simpl. split.
  - by rewrite dict_get_set_eq.
  - intros key Hkey. by rewrite dict_get_set_ne.
Qed.

Lemma batch_issue_stamps_witness :
  BatchAssertionsIssue.stamped (VBool true)
    (VDict [("create_notification", VBool true);
            ("assertions",
             VList [VDict [("recipient", VStr "ann@example.org");
                           ("create_notification", VBool false)];
                    VDict [("recipient", VStr "bob@example.org")]])])
  = inr [VDict [("recipient", VStr "ann@example.org");
                ("create_notification", VBool true)];
         VDict [("recipient", VStr "bob@example.org");
                ("create_notification", VBool true)]] ∧
  length [VDict [("recipient", VStr "ann@example.org");
                 ("create_notification", VBool true)];
          VDict [("recipient", VStr "bob@example.org");
                 ("create_notification", VBool true)]] = 2.
Proof.
  split; [reflexivity|].
  exact (proj1 (batch_issue_stamps
                  [("create_notification", VBool true);
                   ("assertions",
                    VList [VDict [("recipient", VStr "ann@example.org");
                                  ("create_notification", VBool false)];
                           VDict [("recipient", VStr "bob@example.org")]])]
                  _ _ eq_refl eq_refl)).
Defined.

Section batch_issue.

Variable self : View string.
Variable super_get_context_data : list (string * value) → list (string * value).
Variable serializer_class :
  list value → list (string * value) → BatchAssertionsIssue.Serializer.
Variable log_create : BadgeInstance → M unit.
Variable error_data : V2ErrorSerializer → value.

(** The view once the badge class is found. *)
Lemma batch_issue_found request kwargs w badgeclass w1 :
  get_object self request kwargs w = (inr badgeclass, w1) →
  BatchAssertionsIssue.post self super_get_context_data
                    serializer_class log_create error_data request kwargs w
                  = (if negb (has_object_permissions self request badgeclass)
                     then mret (mkResponse 404 VNone)
                     else
                       match data request with
                       | VDict body =>
                           assertions ← lift (BatchAssertionsIssue.stamped
                                                (notification_flag body)
                                                (data request));
                           context ← BatchAssertionsIssue.get_context_data self
                                       super_get_context_data request kwargs;
                           match BatchAssertionsIssue._errors
                                   (serializer_class assertions context) with
                           | Some errors =>
                               mret (mkResponse 400
                                       (error_data (mkV2ErrorSerializer errors
                                                      (VList []) false "bad request")))
                           | None =>
                               new_instances ←
                                 BatchAssertionsIssue.serializer_save
                                   (serializer_class assertions context)
                                   (request_user request);
                               _ ← for_each log_create new_instances;
                               mret (mkResponse 201
                                       (BatchAssertionsIssue.saved_data
                                          (serializer_class assertions context)
                                          new_instances))
                           end
                       | _ => mret (mkResponse 400 VNone)
                       end) w1.
Proof.
  intros Hobj. unfold BatchAssertionsIssue.post. unfold mbind at 1, M_bind at 1.
  by rewrite Hobj.
Qed.


(** X9.  With permission and a well-formed body, the serializer decides:
    when it reports errors the answer is 400 with the data of the error
    serializer built from these errors, and neither [save] nor [log_create]
    runs; when it is valid, the instances are saved for the requesting user,
    [log_create] runs for each new instance in order, and the answer is 201
    with the data of the saved instances. *)
Theorem batch_issue_outcomes request kwargs w badgeclass w1 body assertions
  badgeclass' w2 :
  get_object self request kwargs w = (inr badgeclass, w1) →
  has_object_permissions self request badgeclass = true →
  data request = VDict body →
  BatchAssertionsIssue.stamped (notification_flag body) (VDict body)
  = inr assertions →
  get_object self request kwargs w1 = (inr badgeclass', w2) →
  let serializer :=
    serializer_class assertions
      (dict_set (super_get_context_data kwargs) "badgeclass" (VStr badgeclass')) in
  (∀ errors, BatchAssertionsIssue._errors serializer = Some errors →
   BatchAssertionsIssue.post self super_get_context_data serializer_class
     log_create error_data request kwargs w
   = (inr (mkResponse 400
             (error_data (mkV2ErrorSerializer errors (VList []) false "bad request"))),
      w2)) ∧
  (BatchAssertionsIssue._errors serializer = None →
   ∀ new_instances w3 logged w4,
     BatchAssertionsIssue.serializer_save serializer (request_user request) w2
     = (inr new_instances, w3) →
     for_each log_create new_instances w3 = (inr logged, w4) →
     BatchAssertionsIssue.post self super_get_context_data serializer_class
       log_create error_data request kwargs w
     = (inr (mkResponse 201
               (BatchAssertionsIssue.saved_data serializer new_instances)), w4) ∧
     length logged = length new_instances).
Proof.
  intros Hobj Hperm Hbody Hstamped Hctx serializer. subst serializer.
  rewrite (batch_issue_found _ _ _ _ _ Hobj), Hperm, Hbody. simpl.
  unfold BatchAssertionsIssue.get_context_data, mbind, M_bind, lift, mret, M_ret.
  rewrite Hstamped, Hctx. split.
  - intros errors Herrors. rewrite Herrors. reflexivity.
  - intros Hvalid new_instances w3 logged w4 Hsave Hlog.
    rewrite Hvalid, Hsave.
    assert (Hlog' := Hlog). unfold mbind, M_bind, mret, M_ret in Hlog'.
    split.
    { destruct (for_each log_create new_instances w3) as [[e|ys] w5];
        [discriminate|]. by injection Hlog as <- <-. }
    clear Hlog'. by eapply for_each_length.
Qed.

End batch_issue.

Example batch_issue_sample :
  sample_batch_issue true (VDict sample_batch_body) sample_world
  = (inr (mkResponse 201 (VList [VStr "new-A"; VStr "new-B"])),
     mkWorld (badge_instances sample_world ++ sample_batch_new)%list
       (access_tokens sample_world) (issuer_staff sample_world) 100
       [EvNow 100; EvNow 100]).
Proof. vm_compute. reflexivity. Qed.

Example batch_issue_invalid :
  sample_batch_issue true
    (VDict [("assertions",
             VList [VDict [("recipient", VStr "ann@example.org")]; VDict []])])
    sample_world
  = (inr (mkResponse 400
            (VDict [("status", VDict [("success", VBool false);
                                      ("description", VStr "bad request")]);
                    ("fieldErrors",
                     VList [VDict [("recipient",
                                    VList [VStr "This field is required."])]]);
                    ("validationErrors", VList [])])),
     sample_world).
Proof. vm_compute. reflexivity. Qed.


Lemma batch_issue_outcomes_witness :
  sample_batch_issue true (VDict sample_batch_body) sample_world
  = (inr (mkResponse 201 (VList [VStr "new-A"; VStr "new-B"])),
     mkWorld (badge_instances sample_world ++ sample_batch_new)%list
       (access_tokens sample_world) (issuer_staff sample_world) 100
       [EvNow 100; EvNow 100]) ∧
  length [(); ()] = length sample_batch_new.
Proof.
  refine (proj2 (batch_issue_outcomes (entity_view (λ _, true)) (λ kwargs, kwargs)
                   sample_batch_serializer sample_log_create sample_error_data
                   (request_of "eve" (VDict sample_batch_body) [])
                   [("entity_id", VStr "badgeclass-1")] sample_world
                   "badgeclass-1" sample_world sample_batch_body
                   [VDict [("recipient", VStr "ann@example.org");
                           ("create_notification", VBool true)];
                    VDict [("recipient", VStr "bob@example.org");
                           ("create_notification", VBool true)]]
                   "badgeclass-1" sample_world
                   eq_refl eq_refl eq_refl eq_refl eq_refl)
            eq_refl sample_batch_new
            (set_badge_instances (λ t, (t ++ sample_batch_new)%list) sample_world)
            [(); ()]
            (mkWorld (badge_instances sample_world ++ sample_batch_new)%list
               (access_tokens sample_world) (issuer_staff sample_world) 100
               [EvNow 100; EvNow 100])
            _ _).
  - vm_compute. reflexivity.
  - vm_compute. reflexivity.
Defined.

(** ** The change feed without a cursor, and polled *)

Section change_feed.

Variable paginate : Request → list BadgeInstance → list BadgeInstance.
Variable super_to_representation : list BadgeInstance → list (string * value).
Variable isoformat : Z → string.
Variable isoparse : string → option Z.
Variable error_data : V2ErrorSerializer → value.

(** The answer of the view for a cursor that is absent or parsed. *)
Lemma changed_since_answers request kwargs w since :
  (QueryDict.get (GET request) "since" = None ∧ since = None) ∨
  (∃ s t, QueryDict.get (GET request) "since" = Some s ∧
          isoparse s = Some t ∧ since = Some t) →
  AssertionsChangedSince.get paginate super_to_representation isoformat isoparse
    error_data request kwargs w
  = (inr (mkResponse 200
            (VDict (dict_set
                      (super_to_representation
                         (paginate request
                            (select (AssertionsChangedSince.get_queryset request since) w)))
                      "timestamp" (VStr (isoformat (clock w)))))),
     log (EvQuery (entity_id <$>
                     select (AssertionsChangedSince.get_queryset request since) w))
       (log (EvNow (clock w)) w)).
Proof.
  unfold AssertionsChangedSince.get.
  intros [[-> ->]|(s & t & -> & -> & ->)]; reflexivity.
Qed.

(** X10.  Without a [since] parameter the change feed never answers 400:
    it answers 200 with the page of all the assertions visible to the
    requesting user, each once, and with the timestamp; the other keys of the
    envelope are those of the list serializer; the table of assertions is
    not written. *)
Theorem changed_since_without_since request kwargs w :
  QueryDict.get (GET request) "since" = None →
  let qs := AssertionsChangedSince.get_queryset request None in
  (∀ db a, a ∈ select qs db ↔
           a ∈ badge_instances db ∧ visible db (request_user request) a) ∧
  (∀ db, NoDup (select qs db)) ∧
  ∃ resp w',
    AssertionsChangedSince.get paginate super_to_representation isoformat
      isoparse error_data request kwargs w = (inr resp, w') ∧
    status resp = 200%Z ∧
    getitem (response_data resp) "timestamp" = inr (VStr (isoformat (clock w))) ∧
    (∀ k, k ≠ "timestamp" →
          getitem (response_data resp) k
          = getitem (VDict (super_to_representation
                              (paginate request (select qs w)))) k) ∧
    badge_instances w' = badge_instances w.
Proof.
  intros Hnone qs. split; [|split].
  - intros db a. subst qs. rewrite changed_since_rows. split.
    + intros (? & ? & _). done.
    + intros [? ?]. repeat split; [done|done|]. intros s [=].
  - intros db. by apply select_distinct.
  - eexists _, _. split.
    + apply (changed_since_answers _ _ _ None). by left.
    + simpl. split; [done|]. split; [by rewrite dict_get_set_eq|].
      split; [|done]. intros k Hk. by rewrite dict_get_set_ne.
Qed.


End change_feed.

Lemma changed_since_without_since_witness :
  ∃ resp w',
    sample_changed_since [] sample_world = (inr resp, w') ∧
    status resp = 200%Z ∧
    getitem (response_data resp) "timestamp"
    = inr (VStr (sample_isoformat (clock sample_world))) ∧
    (∀ k, k ≠ "timestamp" →
          getitem (response_data resp) k
          = getitem (VDict (sample_envelope
                              (sample_paginate (request_of "app" VNone [])
                                 (select (AssertionsChangedSince.get_queryset
                                            (request_of "app" VNone []) None)
                                    sample_world)))) k) ∧
    badge_instances w' = badge_instances sample_world.
Proof.
  exact (proj2 (proj2 (changed_since_without_since sample_paginate sample_envelope
                         sample_isoformat sample_isoparse sample_error_data
                         (request_of "app" VNone []) [] sample_world eq_refl))).
Defined.


(** ** The envelope a standalone assertion serializer needs *)

Section envelope.

Variable super_to_representation : BadgeInstance → value.
Variable cached_badgeclass : BadgeInstance → Entity.
Variable cached_issuer : BadgeInstance → Entity.

(** X12.  The context and the envelope of [to_representation].  A
    serializer whose context has no [kwargs] raises [KeyError], whatever its
    parent and the representation are.  With [kwargs] in the context, a
    serializer without a parent reads [result[0]] of the representation
    before it looks at [expands]: whatever is asked to be expanded, also
    nothing, it raises [KeyError] when the representation has no [result],
    [IndexError] when [result] is an empty list, and [TypeError] when the
    representation is not a dictionary.  With no [badgeclass] in [expands],
    a serializer under a parent returns the representation as it is,
    whatever it is, and so does a serializer without a parent whose
    representation has a first result. *)
Theorem to_representation_needs_result self instance :
  (BackpackAssertionSerializerV2.context_kwargs self = None →
   BackpackAssertionSerializerV2.to_representation super_to_representation
     cached_badgeclass cached_issuer self instance = inl (PyError "KeyError")) ∧
  (∀ request_kwargs,
     BackpackAssertionSerializerV2.context_kwargs self = Some request_kwargs →
     (BackpackAssertionSerializerV2.parent self = None →
      (∀ env, super_to_representation instance = VDict env →
         (dict_get env "result" = None →
          BackpackAssertionSerializerV2.to_representation super_to_representation
            cached_badgeclass cached_issuer self instance
          = inl (PyError "KeyError")) ∧
         (dict_get env "result" = Some (VList []) →
          BackpackAssertionSerializerV2.to_representation super_to_representation
            cached_badgeclass cached_issuer self instance
          = inl (PyError "IndexError"))) ∧
      ((∀ env, super_to_representation instance ≠ VDict env) →
       BackpackAssertionSerializerV2.to_representation super_to_representation
         cached_badgeclass cached_issuer self instance
       = inl (PyError "TypeError"))) ∧
     ("badgeclass" ∉ default [] request_kwargs →
      (BackpackAssertionSerializerV2.parent self ≠ None →
       BackpackAssertionSerializerV2.to_representation super_to_representation
         cached_badgeclass cached_issuer self instance
       = inr (super_to_representation instance)) ∧
      (BackpackAssertionSerializerV2.parent self = None →
       ∀ env first rest,
         super_to_representation instance = VDict env →
         dict_get env "result" = Some (VList (first :: rest)) →
         BackpackAssertionSerializerV2.to_representation super_to_representation
           cached_badgeclass cached_issuer self instance
         = inr (super_to_representation instance)))).
Proof.
  unfold BackpackAssertionSerializerV2.to_representation. split.
  - by intros ->.
  - intros request_kwargs ->. simpl. split.
    + intros Hparent. rewrite Hparent. split.
      * intros env ->. simpl. split; intros ->; reflexivity.
      * intros Hnot. destruct (super_to_representation instance); try reflexivity.
        by destruct (Hnot d).
    + intros Hplain. unfold BackpackAssertionSerializerV2.expand.
      rewrite bool_decide_eq_false_2 by done. split.
      * intros Hparent.
        by destruct (BackpackAssertionSerializerV2.parent self).
      * intros Hparent env first rest Hrepr Hresult.
        rewrite Hparent, Hrepr. unfold getitem. rewrite Hresult. simpl.
        unfold BackpackAssertionSerializerV2.write_back. rewrite Hresult.
        by rewrite (dict_set_id _ _ _ Hresult).
Qed.

End envelope.

Lemma to_representation_needs_result_witness :
  BackpackAssertionSerializerV2.to_representation enveloped
    (λ _, sample_badgeclass) (λ _, sample_issuer)
    (BackpackAssertionSerializerV2.mk None None) valid_assertion
  = inl (PyError "KeyError") ∧
  BackpackAssertionSerializerV2.to_representation
    (λ a, VDict [("status", VDict [("success", VBool true)]); ("result", VList [])])
    (λ _, sample_badgeclass) (λ _, sample_issuer)
    (BackpackAssertionSerializerV2.mk None (Some None)) valid_assertion
  = inl (PyError "IndexError") ∧
  BackpackAssertionSerializerV2.to_representation bare
    (λ _, sample_badgeclass) (λ _, sample_issuer)
    (BackpackAssertionSerializerV2.mk None (Some (Some ["issuer"]))) valid_assertion
  = inl (PyError "KeyError") ∧
  BackpackAssertionSerializerV2.to_representation (λ _, VStr "not found")
    (λ _, sample_badgeclass) (λ _, sample_issuer)
    (BackpackAssertionSerializerV2.mk (Some ()) (Some (Some ["issuer"])))
    valid_assertion
  = inr (VStr "not found").
Proof.
  split; [|split; [|split]].
  - exact (proj1 (to_representation_needs_result enveloped
                    (λ _, sample_badgeclass) (λ _, sample_issuer)
                    (BackpackAssertionSerializerV2.mk None None) valid_assertion)
             eq_refl).
  - exact (proj2 (proj1 (proj1 (proj2 (to_representation_needs_result
                           (λ a, VDict [("status", VDict [("success", VBool true)]);
                                        ("result", VList [])])
                           (λ _, sample_badgeclass) (λ _, sample_issuer)
                           (BackpackAssertionSerializerV2.mk None (Some None))
                           valid_assertion) _ eq_refl) eq_refl) _ eq_refl) eq_refl).
  - exact (proj1 (proj1 (proj1 (proj2 (to_representation_needs_result bare
                           (λ _, sample_badgeclass) (λ _, sample_issuer)
                           (BackpackAssertionSerializerV2.mk None
                              (Some (Some ["issuer"])))
                           valid_assertion) _ eq_refl) eq_refl) _ eq_refl) eq_refl).
  - refine (proj1 (proj2 (proj2 (to_representation_needs_result
                           (λ _, VStr "not found")
                           (λ _, sample_badgeclass) (λ _, sample_issuer)
                           (BackpackAssertionSerializerV2.mk (Some ())
                              (Some (Some ["issuer"])))
                           valid_assertion) _ eq_refl) _) _).
    + apply (bool_decide_unpack _). vm_compute. exact I.
    + discriminate.
Defined.

(** ** Import: what counts, and what the helper is called with *)

Lemma sum_list_with_zero {A} (f : A → nat) (l : list A) :
  (∀ x, x ∈ l → f x = 0) → sum_list_with f l = 0.
Proof.
  induction l as [|x l IH]; intros Hall; simpl; [done|].
  rewrite (Hall x) by (apply elem_of_cons; by left).
  rewrite IH; [done|]. intros y Hy. apply Hall. apply elem_of_cons. by right.
Qed.

Lemma provided_zero (attrs : gmap string value) :
  provided attrs = 0 ↔ ∀ k, is_set attrs k = false.
Proof.
  split.
  - intros Hzero k. rewrite (provided_delete attrs k) in Hzero.
    destruct (is_set attrs k); [discriminate Hzero|done].
  - intros Hnone. unfold provided, BackpackImportSerializerV2.values.
    apply sum_list_with_zero. intros v Hv.
    apply list_elem_of_fmap in Hv as ([k v'] & -> & Hin).
    apply elem_of_map_to_list in Hin. specialize (Hnone k).
    unfold is_set in Hnone. rewrite Hin in Hnone. simpl. by rewrite Hnone.
Qed.

Lemma provided_is_set (attrs : gmap string value) :
  provided attrs ≠ 0 → ∃ k, is_set attrs k = true.
Proof.
  unfold provided, BackpackImportSerializerV2.values.
  intros Hsum.
  assert (Hsome : ∃ kv, kv ∈ map_to_list attrs ∧ truthy kv.2 = true).
  { induction (map_to_list attrs) as [|[k v] l IH]; simpl in Hsum; [done|].
    destruct (truthy v) eqn:Hv.
    - exists (k, v). split; [apply elem_of_cons; by left|done].
    - destruct IH as (kv & Hin & Htrue); [done|].
      exists kv. split; [apply elem_of_cons; by right|done]. }
  destruct Hsome as ([k v] & Hin & Htrue). exists k.
  apply elem_of_map_to_list in Hin. unfold is_set. by rewrite Hin.
Qed.

(** X14.  [validate] accepts the attributes exactly when one and only one
    of their entries, under whatever key, holds a true value; otherwise it
    raises the validation error. *)
Theorem validate_unique_truthy (attrs : gmap string value) :
  (BackpackImportSerializerV2.validate attrs = inr attrs ↔
   ∃ k, is_set attrs k = true ∧ ∀ k', is_set attrs k' = true → k' = k) ∧
  (BackpackImportSerializerV2.validate attrs ≠ inr attrs →
   BackpackImportSerializerV2.validate attrs
   = inl (ValidationError (VStr BackpackImportSerializerV2.only_one))).
Proof.
  destruct (validate_provided attrs) as [Hok Herr].
  assert (Hone : provided attrs = 1 ↔
            ∃ k, is_set attrs k = true ∧ ∀ k', is_set attrs k' = true → k' = k).
  { split.
    - intros Hp. destruct (provided_is_set attrs) as [k Hk]; [lia|].
      exists k. split; [done|]. intros k' Hk'.
      destruct (decide (k' = k)) as [|Hne]; [done|exfalso].
      rewrite (provided_delete attrs k), Hk in Hp.
      rewrite (provided_delete (delete k attrs) k') in Hp.
      unfold is_set at 1 in Hp. rewrite lookup_delete_ne in Hp by done.
      unfold is_set in Hk'. destruct (attrs !! k'); [|discriminate].
      rewrite Hk' in Hp. simpl in Hp. lia.
    - intros (k & Hk & Huniq).
      rewrite (provided_delete attrs k), Hk.
      assert (provided (delete k attrs) = 0) as ->; [|done].
      apply provided_zero. intros k'. unfold is_set.
      destruct (decide (k' = k)) as [->|Hne]; [by rewrite lookup_delete_eq|].
      rewrite lookup_delete_ne by done.
      destruct (attrs !! k') as [v|] eqn:Hv; [|done].
      destruct (truthy v) eqn:Htrue; [|done].
      destruct Hne. apply Huniq. unfold is_set. by rewrite Hv. }
  split.
  - rewrite <- Hone. split; [|exact Hok].
    intros Hret. destruct (decide (provided attrs = 1)) as [|Hne]; [done|].
    rewrite (Herr Hne) in Hret. discriminate Hret.
  - intros Hnot. apply Herr. intros Hp. by apply Hnot, Hok.
Qed.

Example validate_counts_other_keys :
  BackpackImportSerializerV2.validate {[ "entityId" := VStr "x" ]}
  = inr {[ "entityId" := VStr "x" ]} ∧
  BackpackImportSerializerV2.validate
    {[ "entityId" := VStr "x"; "url" := VStr "https://example.org/a" ]}
  = inl (ValidationError (VStr BackpackImportSerializerV2.only_one)).
Proof. split; vm_compute; reflexivity. Qed.

(** X15.  After [validate] accepted attributes over the three fields,
    [create] calls the helper with keyword arguments that have no [image],
    have [imagefile] with the image or [None], keep [url] and [assertion],
    and hold exactly one true value among [url], [imagefile] and
    [assertion]; the helper's answers for other arguments do not matter. *)
Theorem import_helper_arguments (attrs : gmap string value) :
  dom attrs ⊆ BackpackImportSerializerV2.fields →
  BackpackImportSerializerV2.validate attrs = inr attrs →
  helper_kwargs attrs !! "image" = None ∧
  helper_kwargs attrs !! "imagefile" = Some (default VNone (attrs !! "image")) ∧
  helper_kwargs attrs !! "url" = attrs !! "url" ∧
  helper_kwargs attrs !! "assertion" = attrs !! "assertion" ∧
  b2n (is_set (helper_kwargs attrs) "url")
  + b2n (is_set (helper_kwargs attrs) "imagefile")
  + b2n (is_set (helper_kwargs attrs) "assertion") = 1 ∧
  ∀ (helper helper' : gmap string value → M (BadgeInstance * bool)) w,
    helper (helper_kwargs attrs) w = helper' (helper_kwargs attrs) w →
    BackpackImportSerializerV2.create helper attrs w
    = BackpackImportSerializerV2.create helper' attrs w.
Proof.
  intros Hdom Hvalid.
  assert (Himage : helper_kwargs attrs !! "image" = None).
  { unfold helper_kwargs. rewrite lookup_insert_ne by discriminate.
    apply lookup_delete_eq. }
  assert (Himagefile : helper_kwargs attrs !! "imagefile"
                       = Some (default VNone (attrs !! "image"))).
  { unfold helper_kwargs. apply lookup_insert_eq. }
  assert (Hurl : helper_kwargs attrs !! "url" = attrs !! "url").
  { unfold helper_kwargs. rewrite lookup_insert_ne by discriminate.
    by rewrite lookup_delete_ne by discriminate. }
  assert (Hassertion : helper_kwargs attrs !! "assertion" = attrs !! "assertion").
  { unfold helper_kwargs. rewrite lookup_insert_ne by discriminate.
    by rewrite lookup_delete_ne by discriminate. }
  repeat split; try done.
  - assert (Hp : provided attrs = 1).
    { destruct (validate_provided attrs) as [_ Herr].
      destruct (decide (provided attrs = 1)) as [|Hne]; [done|].
      rewrite (Herr Hne) in Hvalid. discriminate Hvalid. }
    rewrite (provided_fields attrs Hdom) in Hp. unfold fields_set in Hp.
    unfold is_set in *. rewrite Hurl, Himagefile, Hassertion.
    destruct (attrs !! "image"); simpl in *; exact Hp.
  - intros helper helper' w Hsame.
    unfold BackpackImportSerializerV2.create, try_except, mbind, M_bind.
    fold (helper_kwargs attrs). by rewrite Hsame.
Qed.

Lemma import_helper_arguments_witness :
  helper_kwargs {[ "image" := VFile "badge.png" ]} !! "image" = None ∧
  helper_kwargs {[ "image" := VFile "badge.png" ]} !! "imagefile"
  = Some (VFile "badge.png") ∧
  b2n (is_set (helper_kwargs {[ "image" := VFile "badge.png" ]}) "url")
  + b2n (is_set (helper_kwargs {[ "image" := VFile "badge.png" ]}) "imagefile")
  + b2n (is_set (helper_kwargs {[ "image" := VFile "badge.png" ]}) "assertion") = 1.
Proof.
  assert (Hdom : dom ({[ "image" := VFile "badge.png" ]} : gmap string value)
                 ⊆ BackpackImportSerializerV2.fields)
    by (apply (bool_decide_unpack _); vm_compute; exact I).
  assert (Hvalid : BackpackImportSerializerV2.validate {[ "image" := VFile "badge.png" ]}
                   = inr {[ "image" := VFile "badge.png" ]})
    by (vm_compute; reflexivity).
  destruct (import_helper_arguments _ Hdom Hvalid)
    as (Himage & Himagefile & _ & _ & Hone & _).
  split; [exact Himage|]. split; [exact Himagefile|exact Hone].
Defined.

(** ** An entry of the revoke batch that is not an object *)

Section revoke_batch_malformed.

Variable self : View BadgeInstance.
Variable response_envelope : list value → bool → string → value.

(** X16.  An element of the batch that is not a dictionary (a string, a
    number, null, or a key when the body itself is a JSON object) is not
    answered per item: the view raises [AttributeError] at it, no response
    is built, and what the entries before it revoked stays revoked. *)
Theorem batch_revoke_malformed_entry_aborts request before x after w answers w1 :
  py_iter (data request) = inr (before ++ x :: after)%list →
  (∀ d, x ≠ VDict d) →
  for_each (BatchAssertionsRevoke._process_revoke self request) before w
  = (inr answers, w1) →
  BatchAssertionsRevoke.post self response_envelope request w
  = (inl (PyError "AttributeError"), w1).
Proof.
  intros Hiter Hnot Hbefore. unfold BatchAssertionsRevoke.post.
  unfold mbind at 1, M_bind at 1, lift. rewrite Hiter.
  unfold mbind at 1, M_bind at 1. rewrite for_each_app, Hbefore. simpl.
  assert (Hx : BatchAssertionsRevoke._process_revoke self request x w1
               = (inl (PyError "AttributeError"), w1)).
  { unfold BatchAssertionsRevoke._process_revoke, mbind, M_bind, lift.
    destruct x; try reflexivity. by destruct (Hnot d). }
  unfold mbind, M_bind. by rewrite Hx.
Qed.

End revoke_batch_malformed.

Lemma batch_revoke_malformed_entry_aborts_witness :
  BatchAssertionsRevoke.post (assertion_view (λ _, true)) sample_response_envelope
    (request_of "eve"
       (VList [VDict [("entityId", VStr "A"); ("revocationReason", VStr "r")];
               VStr "B";
               VDict [("entityId", VStr "C"); ("revocationReason", VStr "r")]]) [])
    sample_world
  = (inl (PyError "AttributeError"),
     set_badge_instances (replace_row (set_revoked (VStr "r") valid_assertion))
       sample_world).
Proof.
  apply (batch_revoke_malformed_entry_aborts (assertion_view (λ _, true))
           sample_response_envelope _
           [VDict [("entityId", VStr "A"); ("revocationReason", VStr "r")]]
           (VStr "B")
           [VDict [("entityId", VStr "C"); ("revocationReason", VStr "r")]]
           sample_world
           [VDict [("revoked", VBool true); ("entityId", VStr "A");
                   ("revocationReason", VStr "r")]]).
  - reflexivity.
  - intros d. discriminate.
  - vm_compute. reflexivity.
Defined.

Example batch_revoke_object_body :
  BatchAssertionsRevoke.post (assertion_view (λ _, true)) sample_response_envelope
    (request_of "eve"
       (VDict [("entityId", VStr "A"); ("revocationReason", VStr "r")]) [])
    sample_world
  = (inl (PyError "AttributeError"), sample_world).
Proof. vm_compute. reflexivity. Qed.

(** ** The rows of the badge class listing *)

Lemma select_plain_list qs db :
  existsb Q_spans_relation (wheres qs) = false →
  is_distinct qs = false →
  select qs db
  = List.filter (λ a, forallb (eval_Q (mkRow a None None None)) (wheres qs))
      (badge_instances db).
Proof.
  intros Hplain Hdistinct. unfold select, rows. rewrite Hplain, Hdistinct.
  induction (badge_instances db) as [|a l IH]; [done|].
  rewrite fmap_cons, filter_cons. simpl.
  destruct (forallb (eval_Q (mkRow a None None None)) (wheres qs)) eqn:Ha.
  - rewrite decide_True by (by apply Is_true_true). rewrite fmap_cons.
    simpl. by rewrite IH.
  - rewrite decide_False by (by apply Is_true_false). exact IH.
Qed.

Section badgeclass_rows.

Variable self : View string.

(** X17.  The queryset of [BadgeInstanceList] returns the rows of the table
    in table order, each as often as the table has it: those of the badge
    class the lookup found that are not revoked, and, when the query string
    has [recipient] parameters, only those whose recipient identifier is one
    of them.  An empty [recipient] parameter restricts too. *)
Theorem badgeclass_list_rows request kwargs w qs w' :
  BadgeInstanceList.get_queryset self request kwargs w = (inr qs, w') →
  ∃ b,
    get_object self request kwargs w = (inr b, w') ∧
    ∀ db,
      select qs db
      = List.filter
          (λ a, bool_decide (badgeclass a = b) && negb (revoked a)
                && match recipients request with
                   | [] => true
                   | _ :: _ =>
                       bool_decide (recipient_identifier a ∈ recipients request)
                   end)
          (badge_instances db).
Proof.
  unfold BadgeInstanceList.get_queryset, mbind, M_bind.
  destruct (get_object self request kwargs w) as [[e|b] w1]; [discriminate|].
  fold (recipients request).
  destruct (recipients request) as [|x xs] eqn:Hrec; simpl;
    intros [= <- <-]; exists b; (split; [done|]); intros db;
    (rewrite select_plain_list by reflexivity); simpl;
    apply List.filter_ext; intros a;
    destruct (bool_decide (badgeclass a = b)) eqn:Hb; simpl;
    rewrite ?andb_true_r; try done;
    destruct (revoked a); simpl; try done.
Qed.

End badgeclass_rows.

Lemma badgeclass_list_rows_witness :
  BadgeInstanceList.get_queryset (entity_view (λ _, true))
    (request_of "eve" VNone [("recipient", "ann@example.org")])
    [("entity_id", VStr "badgeclass-1")] sample_world
  = (inr (mkQuerySet [Qand (Qatom (badgeclass_exact "badgeclass-1"))
                           (Qatom (revoked_exact false));
                      Qatom (recipient_identifier__in ["ann@example.org"])] false),
     sample_world) ∧
  ∃ b,
    get_object (entity_view (λ _, true))
      (request_of "eve" VNone [("recipient", "ann@example.org")])
      [("entity_id", VStr "badgeclass-1")] sample_world = (inr b, sample_world) ∧
    ∀ db,
      select (mkQuerySet [Qand (Qatom (badgeclass_exact "badgeclass-1"))
                               (Qatom (revoked_exact false));
                          Qatom (recipient_identifier__in ["ann@example.org"])]
                false) db
      = List.filter
          (λ a, bool_decide (badgeclass a = b) && negb (revoked a)
                && match recipients (request_of "eve" VNone
                                       [("recipient", "ann@example.org")]) with
                   | [] => true
                   | _ :: _ =>
                       bool_decide
                         (recipient_identifier a
                          ∈ recipients (request_of "eve" VNone
                                          [("recipient", "ann@example.org")]))
                   end)
          (badge_instances db).
Proof.
  assert (Hqs : BadgeInstanceList.get_queryset (entity_view (λ _, true))
                  (request_of "eve" VNone [("recipient", "ann@example.org")])
                  [("entity_id", VStr "badgeclass-1")] sample_world
                = (inr (mkQuerySet
                          [Qand (Qatom (badgeclass_exact "badgeclass-1"))
                                (Qatom (revoked_exact false));
                           Qatom (recipient_identifier__in ["ann@example.org"])]
                          false),
                   sample_world)) by reflexivity.
  split; [exact Hqs|].
  exact (badgeclass_list_rows (entity_view (λ _, true)) _ _ _ _ _ Hqs).
Defined.

Example badgeclass_list_recipients :
  listed (BadgeInstanceList.get_queryset (entity_view (λ _, true))
            (request_of "eve" VNone [("recipient", "ann@example.org")])
            [("entity_id", VStr "badgeclass-1")])
    sample_world = ["A"; "D"] ∧
  listed (BadgeInstanceList.get_queryset (entity_view (λ _, true))
            (request_of "eve" VNone [("recipient", "")])
            [("entity_id", VStr "badgeclass-1")])
    sample_world = [] ∧
  listed (BadgeInstanceList.get_queryset (entity_view (λ _, true))
            (request_of "eve" VNone [])
            [("entity_id", VStr "badgeclass-2")])
    sample_world = [].
Proof. repeat split; vm_compute; reflexivity. Qed.
